(** * better-shop: endpoint registry, tenant resolution and dispatch

    A shallow embedding of the TypeScript sources of better-shop
    ([src/shop-service.ts], [src/shop/getShop.ts], [src/shop/store.ts],
    [src/shop/products.ts], [src/shop/collections.ts],
    [src/shop/checkout.ts], [src/shop/utils.ts]) together with the
    properties stated about them.

    Layout:
    - [JS]: the JavaScript values that the program manipulates, truthiness,
      property access and the string-to-number conversion behind [Number];
    - [Ark]: the input schemas written with [type({...})];
    - [Shop]: the storefront client seen as a capability interface, the
      effect monad of a handler, the tenant resolver, the endpoint builders,
      the router and the assembled service [betterShop];
    - [Mock], [Caching]: the storefront client of the test-suite, and a
      client with a cache;
    - the vocabulary of the statements (with the syntax of the numeric
      strings of the language, against which [StringToNumber] is
      checked), then the lemmas and the statements themselves.

    Three things that the sources rely on are not part of the repository:
    the language (modelled in [JS]), the validation library (arktype,
    modelled in [Ark]) and the routing library (better-call, modelled in
    [Shop] under "The router"). *)

From Stdlib Require Import ZArith NArith Ascii String List Bool Lia.
From stdpp Require Import base option strings list gmap.

Local Open Scope string_scope.
Local Open Scope list_scope.

(* ================================================================== *)
(** * JavaScript values *)
(* ================================================================== *)

Module JS.

(** ** Numbers

    A JavaScript number is kept by its exact decimal value: [Int z] is the
    integer [z] ([Int 0] is [+0]), [Dec neg m k] is [±m × 10^-k] with [k > 0]
    and [m] not a multiple of ten, and the three special values are apart.
    Integers are rounded to 53 significant bits as binary64 does
    ([roundInt]), so that [Int] values are exactly the doubles they stand
    for.  A [Dec] value stands for the double nearest to that decimal: two
    decimals that share their nearest double are kept apart here, also the
    ones whose nearest double is zero.  Where a statement below mentions a
    [Dec] value, it is read in this way. *)
Inductive number : Type :=
  | NaN
  | Infinity (neg : bool)
  | NegZero
  | Int (z : Z)
  | Dec (neg : bool) (m : positive) (k : positive).

Definition signed (neg : bool) (a : N) : Z :=
  if neg then (- Z.of_N a)%Z else Z.of_N a.

(** Round to nearest, ties to even, on 53 significant bits; magnitudes
    that round to [2^1024] or more overflow to infinity. *)
Definition roundInt (neg : bool) (a : N) : number :=
  if (a <? 2 ^ 53)%N then Int (signed neg a)
  else
    let e := (N.log2 a - 52)%N in
    let q := N.shiftr a e in
    let r := (a - N.shiftl q e)%N in
    let half := N.shiftl 1 (e - 1) in
    let q' :=
      if (r <? half)%N then q
      else if (half <? r)%N then (q + 1)%N
      else if N.even q then q else (q + 1)%N in
    let v := N.shiftl q' e in
    if (v <? 2 ^ 1024)%N then Int (signed neg v) else Infinity neg.

(** Drop up to [fuel] trailing decimal zeros of [m], counting down the
    number [k] of fractional digits. *)
Fixpoint stripZeros (fuel : nat) (m : N) (k : N) : N * N :=
  match fuel with
  | O => (m, k)
  | S fuel' =>
      if (k =? 0)%N then (m, k)
      else if (m mod 10 =? 0)%N then stripZeros fuel' (m / 10)%N (k - 1)%N
      else (m, k)
  end.

(** The number [±m × 10^e]. *)
Definition mkDecimal (neg : bool) (m : N) (e : Z) : number :=
  if (m =? 0)%N then (if neg then NegZero else Int 0)
  else if (0 <=? e)%Z then roundInt neg (m * 10 ^ Z.to_N e)%N
  else
    let '(m', k') := stripZeros (Z.to_nat (- e)) m (Z.to_N (- e)) in
    match m', k' with
    | Npos pm, Npos pk => Dec neg pm pk
    | _, _ => roundInt neg m'
    end.

(** ** String to number ([Number(s)] for a string [s])

    ECMAScript's StringToNumber: white space around the literal is dropped;
    the empty string is [+0]; the literal is a decimal literal with an
    optional sign (digits, fraction, exponent, or [Infinity]) or an unsigned
    [0x], [0o], [0b] integer; everything else is [NaN].  Strings are
    sequences of Latin-1 characters, so of the white space and line
    terminators of the language the ones below are seen. *)

Definition isWhiteSpace (c : ascii) : bool :=
  let n := N_of_ascii c in
  ((n =? 9) || (n =? 10) || (n =? 11) || (n =? 12) || (n =? 13)
   || (n =? 32) || (n =? 160))%N.

Fixpoint trimStart (l : list ascii) : list ascii :=
  match l with
  | c :: l' => if isWhiteSpace c then trimStart l' else l
  | [] => []
  end.

Definition trim (l : list ascii) : list ascii :=
  rev (trimStart (rev (trimStart l))).

Definition digitVal (c : ascii) : option N :=
  let n := N_of_ascii c in
  if ((48 <=? n) && (n <=? 57))%N then Some (n - 48)%N else None.

Definition hexVal (c : ascii) : option N :=
  let n := N_of_ascii c in
  if ((48 <=? n) && (n <=? 57))%N then Some (n - 48)%N
  else if ((97 <=? n) && (n <=? 102))%N then Some (n - 87)%N
  else if ((65 <=? n) && (n <=? 70))%N then Some (n - 55)%N
  else None.

Definition octVal (c : ascii) : option N :=
  let n := N_of_ascii c in
  if ((48 <=? n) && (n <=? 55))%N then Some (n - 48)%N else None.

Definition binVal (c : ascii) : option N :=
  let n := N_of_ascii c in
  if ((48 <=? n) && (n <=? 49))%N then Some (n - 48)%N else None.

(** Read the longest prefix of digits; returns the accumulated value, the
    number of digits read and what follows them. *)
Fixpoint readDigits (l : list ascii) (acc : N) (n : N) : N * N * list ascii :=
  match l with
  | c :: l' =>
      match digitVal c with
      | Some d => readDigits l' (10 * acc + d)%N (n + 1)%N
      | None => (acc, n, l)
      end
  | [] => (acc, n, [])
  end.

(** A whole string of digits in the given radix; [None] when a character
    is not a digit of that radix. *)
Fixpoint readRadix (val : ascii -> option N) (radix : N)
    (l : list ascii) (acc : N) : option N :=
  match l with
  | c :: l' =>
      match val c with
      | Some d => readRadix val radix l' (radix * acc + d)%N
      | None => None
      end
  | [] => Some acc
  end.

(** ExponentPart, or nothing: [e] or [E], an optional sign, digits to the
    end of the literal. *)
Definition readExponent (l : list ascii) : option Z :=
  match l with
  | [] => Some 0%Z
  | c :: l1 =>
      if (Ascii.eqb c "e" || Ascii.eqb c "E")%char then
        let '(neg, l2) :=
          match l1 with
          | s :: l2 =>
              if Ascii.eqb s "-" then (true, l2)
              else if Ascii.eqb s "+" then (false, l2)
              else (false, l1)
          | [] => (false, l1)
          end in
        match readDigits l2 0 0 with
        | (v, n, []) => if (n =? 0)%N then None else Some (signed neg v)
        | _ => None
        end
      else None
  end.

(** StrUnsignedDecimalLiteral with the sign already read. *)
Definition readUnsignedDecimal (neg : bool) (l : list ascii) : number :=
  if String.eqb (string_of_list_ascii l) "Infinity" then Infinity neg
  else
    let '(ip, ni, r1) := readDigits l 0 0 in
    match r1 with
    | c :: r2 =>
        if Ascii.eqb c "." then
          let '(m, nf, r3) := readDigits r2 ip 0 in
          if ((ni + nf) =? 0)%N then NaN
          else
            match readExponent r3 with
            | Some e => mkDecimal neg m (e - Z.of_N nf)
            | None => NaN
            end
        else if (ni =? 0)%N then NaN
        else
          match readExponent r1 with
          | Some e => mkDecimal neg ip e
          | None => NaN
          end
    | [] => if (ni =? 0)%N then NaN else mkDecimal neg ip 0
    end.

Definition readNonDecimal (val : ascii -> option N) (radix : N)
    (l : list ascii) : number :=
  match l with
  | [] => NaN
  | _ =>
      match readRadix val radix l 0 with
      | Some v => if (v =? 0)%N then Int 0 else roundInt false v
      | None => NaN
      end
  end.

Definition StringToNumber (s : string) : number :=
  match trim (list_ascii_of_string s) with
  | [] => Int 0
  | (c :: l1) as l =>
      if Ascii.eqb c "0" then
        match l1 with
        | p :: l2 =>
            if (Ascii.eqb p "x" || Ascii.eqb p "X")%char
            then readNonDecimal hexVal 16 l2
            else if (Ascii.eqb p "o" || Ascii.eqb p "O")%char
            then readNonDecimal octVal 8 l2
            else if (Ascii.eqb p "b" || Ascii.eqb p "B")%char
            then readNonDecimal binVal 2 l2
            else readUnsignedDecimal false l
        | [] => readUnsignedDecimal false l
        end
      else if Ascii.eqb c "-" then readUnsignedDecimal true l1
      else if Ascii.eqb c "+" then readUnsignedDecimal false l1
      else readUnsignedDecimal false l
  end.

(** ** Values

    The values that travel through the program: what a JSON body or a
    query object holds, what the storefront client returns.  An object is
    the list of its own properties in insertion order. *)
#[warnings="-register-all"]
Inductive value : Type :=
  | VUndefined
  | VNull
  | VBool (b : bool)
  | VNum (n : number)
  | VStr (s : string)
  | VArr (items : list value)
  | VObj (fields : list (string * value)).

(** [assoc k fields]: the own property [k] of an object. *)
Fixpoint assoc (k : string) (fields : list (string * value)) : option value :=
  match fields with
  | (k', v) :: rest => if String.eqb k k' then Some v else assoc k rest
  | [] => None
  end.

(** [o.k] for a property name [k] that is not an array index: [undefined]
    when [o] has no such property. *)
Definition prop (o : value) (k : string) : value :=
  match o with
  | VObj fields => default VUndefined (assoc k fields)
  | _ => VUndefined
  end.

(** ToBoolean. *)
Definition truthy (v : value) : bool :=
  match v with
  | VUndefined | VNull => false
  | VBool b => b
  | VNum NaN | VNum NegZero => false
  | VNum (Int z) => negb (z =? 0)%Z
  | VNum _ => true
  | VStr s => negb (String.eqb s "")
  | VArr _ | VObj _ => true
  end.

(** [v === "s"] for a string literal. *)
Definition strictEqStr (v : value) (s : string) : bool :=
  match v with
  | VStr s' => String.eqb s' s
  | _ => false
  end.

(** [Number(x)] at the type [string | number], the type at which the
    program calls it. *)
Definition Number (x : string + number) : number :=
  match x with
  | inl s => StringToNumber s
  | inr n => n
  end.

(** The view of a value at the type [string | number]. *)
Definition asStringOrNumber (v : value) : option (string + number) :=
  match v with
  | VStr s => Some (inl s)
  | VNum n => Some (inr n)
  | _ => None
  end.

End JS.

Import JS.

(* ================================================================== *)
(** * Input schemas *)
(* ================================================================== *)

Module Ark.

(** The part of the schema language of [type(...)] that the endpoints
    use: the keywords [string], [number], [boolean] and [string.email],
    string literals, unions, arrays, and object literals whose keys are
    required ([k]) or optional ([k?]). *)
Inductive Schema : Type :=
  | SString
  | SNumber
  | SBoolean
  | SEmail
  | SLit (s : string)
  | SUnion (a b : Schema)
  | SArray (elem : Schema)
  | SObject (fields : Fields)
with Fields : Type :=
  | FNil
  | FCons (key : string) (optional : bool) (s : Schema) (rest : Fields).

Inductive PathSeg : Type :=
  | Key (k : string)
  | Index (i : nat).

(** One field-level diagnostic: where, and what was expected there. *)
Record Issue : Type := mkIssue {
  issuePath : list PathSeg;
  issueExpected : string;
}.

Definition isWord (c : ascii) : bool :=
  let n := N_of_ascii c in
  (((48 <=? n) && (n <=? 57)) || ((65 <=? n) && (n <=? 90))
   || ((97 <=? n) && (n <=? 122)) || (n =? 95))%N.

Definition isLetter (c : ascii) : bool :=
  let n := N_of_ascii c in
  (((65 <=? n) && (n <=? 90)) || ((97 <=? n) && (n <=? 122)))%N.

Definition isLocalChar (c : ascii) : bool :=
  isWord c || Ascii.eqb c "%" || Ascii.eqb c "+" || Ascii.eqb c "."
  || Ascii.eqb c "-".

Definition isDomainChar (c : ascii) : bool :=
  let n := N_of_ascii c in
  ((48 <=? n) && (n <=? 57))%N || isLetter c || Ascii.eqb c "."
  || Ascii.eqb c "-".

(** [span p l]: the longest prefix of [l] whose characters satisfy [p],
    and the rest. *)
Fixpoint span (p : ascii -> bool) (l : list ascii) : list ascii * list ascii :=
  match l with
  | c :: l' =>
      if p c then let '(a, b) := span p l' in (c :: a, b) else ([], l)
  | [] => ([], [])
  end.

(** Modelled from the spec: the format check of the keyword
    [string.email] belongs to the validation library, which is not under
    src/; the spec asks for a "valid-email-format string".  The format taken
    here is [local@domain.tld]: a non-empty local part of word characters
    and [% + . -], a non-empty domain of digits, letters, dots and hyphens,
    and a last label of two letters or more. *)
Definition emailMatcher (s : string) : bool :=
  let '(loc, r) := span isLocalChar (list_ascii_of_string s) in
  match loc, r with
  | _ :: _, at_ :: dom =>
      if Ascii.eqb at_ "@" then
        let '(tld, r') := span isLetter (rev dom) in
        match r' with
        | dot :: d =>
            Ascii.eqb dot "." && (2 <=? length tld)%nat
            && negb (length d =? 0)%nat && forallb isDomainChar d
        | [] => false
        end
      else false
  | _, _ => false
  end.

Definition issue (path : list PathSeg) (expected : string) : list Issue :=
  [mkIssue path expected].

(** Modelled from the spec: what a schema accepts is decided by the
    validation library, which is not under src/.  Following the spec, a
    missing required field, a value of the wrong type and a failed format
    check are failures, each reported with its place.
    [validate s path v] is the list of the diagnostics of [v] against [s],
    empty when [v] conforms.  Keys that the schema does not declare are left
    alone; an optional key may be missing; an array has the domain of an
    object and none of the named keys; [number] is every number, [NaN]
    too. *)
Fixpoint validate (s : Schema) (path : list PathSeg) (v : value) : list Issue :=
  match s with
  | SString =>
      match v with VStr _ => [] | _ => issue path "a string" end
  | SNumber =>
      match v with VNum _ => [] | _ => issue path "a number" end
  | SBoolean =>
      match v with VBool _ => [] | _ => issue path "boolean" end
  | SEmail =>
      match v with
      | VStr e => if emailMatcher e then [] else issue path "an email address"
      | _ => issue path "a string"
      end
  | SLit l =>
      if strictEqStr v l then [] else issue path l
  | SUnion a b =>
      match validate a path v, validate b path v with
      | [], _ | _, [] => []
      | ia, ib => ia ++ ib
      end
  | SArray elem =>
      match v with
      | VArr items =>
          concat (imap (fun i x => validate elem (path ++ [Index i]) x) items)
      | _ => issue path "an array"
      end
  | SObject fields =>
      match v with
      | VObj props => validateFields fields path props
      | VArr _ => validateFields fields path []
      | _ => issue path "an object"
      end
  end
with validateFields (fs : Fields) (path : list PathSeg)
    (props : list (string * value)) : list Issue :=
  match fs with
  | FNil => []
  | FCons k optional s rest =>
      match assoc k props with
      | Some x => validate s (path ++ [Key k]) x
      | None => if optional then [] else issue (path ++ [Key k]) "required"
      end ++ validateFields rest path props
  end.

(** A [Type] of the library: a schema, and the morph piped after it when
    there is one.  Its outcome on an input is the list of issues, or the
    output value. *)
Record Type_ : Type := mkType {
  schema : Schema;
  morph : option (value -> value);
}.

Definition type (s : Schema) : Type_ := mkType s None.
Definition pipe (t : Type_) (f : value -> value) : Type_ :=
  mkType (schema t) (Some f).

Definition parse (t : Type_) (v : value) : list Issue + value :=
  match validate (schema t) [] v with
  | [] => inr (match morph t with Some f => f v | None => v end)
  | issues => inl issues
  end.

End Ark.

Import Ark.

(* ================================================================== *)
(** * The service *)
(* ================================================================== *)

Module Shop.

(** ** The storefront client (shop-client), as a capability interface *)

(** [ShopClientOptions]: the service-wide configuration handed to every
    client; the repository sets a cache lifetime. *)
Record ShopClientOptions : Type := mkOptions {
  cacheTTL : option N;
}.

(** The handle [new ShopClient(domain, options)]. *)
Record ShopClient : Type := mkShopClient {
  domain : string;
  clientOptions : option ShopClientOptions;
}.

(** The methods of a client that the endpoints call, with their arguments
    as they are passed. *)
Inductive Capability : Type :=
  | GetInfo (opts : value)
  | ClearInfoCache
  | DetermineStoreType (body : value)
  | ProductsAll (opts : value)
  | ProductsPaginated (opts : value)
  | ProductsShowcased
  | ProductsFilter
  | ProductsFind (handle : value) (opts : value)
  | ProductsEnriched (handle : value) (body : value)
  | ProductsClassify (handle : value) (body : value)
  | ProductsGenerateSEOContent (handle : value) (body : value)
  | CollectionsAll
  | CollectionsPaginated (opts : value)
  | CollectionsShowcased
  | CollectionsFind (handle : value)
  | CollectionsProductsAll (handle : value) (opts : value)
  | CollectionsProductsPaginated (handle : value) (opts : value)
  | CollectionsProductsSlugs (handle : value)
  | CheckoutCreateUrl (body : value).

(** What a handler asks of the outside: a method of a client handle, one
    of the functions that shop-client exports ([sanitizeDomain], ...), or
    the page behind [fetch(`https://${domain}`)] read as text. *)
Inductive External : Type :=
  | Client (shop : ShopClient) (c : Capability)
  | SanitizeDomain (input : value) (opts : value)
  | GenerateStoreSlug (domain : value)
  | GenProductSlug (arg : value)
  | FetchText (scheme : string) (host : value)
  | DetectShopCountry (html : value).

(** What is thrown: the [APIError] of a failed validation, with its status
    and diagnostics, or an [Error] with its message. *)
Inductive Failure : Type :=
  | APIError (status : Z) (issues : list Issue)
  | Error (message : string).

Inductive Completion (A : Type) : Type :=
  | Returned (a : A)
  | Threw (f : Failure).
Arguments Returned {A} a.
Arguments Threw {A} f.

(** The request headers, keyed by lower-case name. *)
Abbreviation Headers := (gmap string string).

Record Context : Type := mkContext {
  headers : option Headers;
  params : value;
  query : value;
  body : value;
}.

(** The methods of the endpoints, and any other method a request may
    come with. *)
Inductive Method : Type :=
  | GET
  | POST
  | Other (name : string).

Definition sameMethod (a b : Method) : bool :=
  match a, b with
  | GET, GET | POST, POST => true
  | Other x, Other y => String.eqb x y
  | _, _ => false
  end.

Module Options.
Record t : Type := mk {
  method : Method;
  query : option Type_;
  body : option Type_;
  summary : string;
}.
End Options.

Module Request.
Record t : Type := mk {
  method : Method;
  path : string;
  headers : Headers;
  query : value;
  body : value;
}.
End Request.

Inductive Response : Type :=
  | Json (body : value)
  | Reference (title : string)
  | ErrorResponse (code : Z) (issues : list Issue)
  | Empty (code : Z).

Definition status (r : Response) : Z :=
  match r with
  | Json _ | Reference _ => 200
  | ErrorResponse code _ | Empty code => code
  end.

Section Service.

(** The state of everything behind the client (the store, its caches), and
    the client itself: what a call returns or throws in a state, and the
    state it leaves. *)
Context {World : Type}.
Variable delegate : External -> World -> Completion value * World.

(** ** Handlers

    A handler runs against the state of the outside, returns or throws, and
    leaves the list of the calls it made. *)
Definition M (A : Type) : Type :=
  World -> Completion A * World * list External.

Definition ret {A} (a : A) : M A := fun w => (Returned a, w, []).

Definition throw {A} (f : Failure) : M A := fun w => (Threw f, w, []).

Definition bind {A B} (m : M A) (k : A -> M B) : M B :=
  fun w =>
    match m w with
    | (Returned a, w1, t1) =>
        let '(r, w2, t2) := k a w1 in (r, w2, t1 ++ t2)
    | (Threw f, w1, t1) => (Threw f, w1, t1)
    end.

Definition call (e : External) : M value :=
  fun w => let '(r, w') := delegate e w in (r, w', [e]).

Notation "'let*' x ':=' m 'in' k" := (bind m (fun x => k))
  (at level 10, x name, m at level 100, k at level 200).
Notation "m ';;' k" := (bind m (fun _ => k))
  (at level 100, k at level 200, right associativity).

Record Endpoint : Type := createEndpoint {
  path : string;
  options : Options.t;
  handler : Context -> M value;
}.

(** ** src/shop/getShop.ts *)

Definition makeGetShop (options : option ShopClientOptions)
    (headers : option Headers) : M ShopClient :=
  let domain := headers ≫= (.!! "x-shop-domain") in
  match domain with
  | None | Some "" => throw (Error "x-shop-domain header is required")
  | Some d => ret (mkShopClient d options)
  end.

Section Builders.

Variable getShop : option Headers -> M ShopClient.

(** An object literal. *)
Definition obj (fields : list (string * value)) : value := VObj fields.

(** ** src/shop/store.ts *)

Record StoreEndpoints : Type := mkStore {
  getInfo : Endpoint;
  clearInfoCache : Endpoint;
  determineStoreType : Endpoint;
}.

Definition buildStoreEndpoints : StoreEndpoints :=
  let getInfo := createEndpoint "/info"
    (Options.mk GET
       (Some (pipe (type (SObject (FCons "force" true SString FNil)))
                (fun v => obj [("force", VBool (strictEqStr (prop v "force") "true"))])))
       None "Get store info")
    (fun ctx =>
       let* shop := getShop (headers ctx) in
       call (Client shop (GetInfo (obj [("force", prop (query ctx) "force")])))) in
  let clearInfoCache := createEndpoint "/info/clear-cache"
    (Options.mk POST None None "Clear store info cache")
    (fun ctx =>
       let* shop := getShop (headers ctx) in
       call (Client shop ClearInfoCache);;
       ret (obj [("success", VBool true)])) in
  let determineStoreType := createEndpoint "/store-type"
    (Options.mk POST None
       (Some (type (SObject
          (FCons "apiKey" true SString
          (FCons "model" true SString
          (FCons "maxShowcaseProducts" true SNumber
          (FCons "maxShowcaseCollections" true SNumber FNil)))))))
       "Determine store type")
    (fun ctx =>
       let* shop := getShop (headers ctx) in
       call (Client shop (DetermineStoreType (body ctx)))) in
  mkStore getInfo clearInfoCache determineStoreType.

(** ** src/shop/products.ts *)

(** [x ? Number(x) : undefined] for [x : string | number | undefined];
    the last case is the values that the schema [string|number] keeps
    out. *)
Definition numberIfTruthy (x : value) : value :=
  if truthy x then
    match asStringOrNumber x with
    | Some y => VNum (Number y)
    | None => VUndefined
    end
  else VUndefined.

Definition currencyQuery : Type_ :=
  type (SObject (FCons "currency" true SString FNil)).

Definition stringOrNumber : Schema := SUnion SString SNumber.

Definition llmBody : Type_ :=
  type (SObject (FCons "apiKey" true SString (FCons "model" true SString FNil))).

Record ProductEndpoints : Type := mkProducts {
  getAllProducts : Endpoint;
  getPaginatedProducts : Endpoint;
  getShowcasedProducts : Endpoint;
  getProductFilters : Endpoint;
  getProduct : Endpoint;
  getEnrichedProduct : Endpoint;
  classifyProduct : Endpoint;
  generateProductSEO : Endpoint;
}.

Definition buildProductEndpoints : ProductEndpoints :=
  let getAllProducts := createEndpoint "/products/all"
    (Options.mk GET (Some currencyQuery) None "Get all products")
    (fun ctx =>
       let* shop := getShop (headers ctx) in
       call (Client shop
         (ProductsAll (obj [("currency", prop (query ctx) "currency")])))) in
  let getPaginatedProducts := createEndpoint "/products/paginated"
    (Options.mk GET
       (Some (pipe
          (type (SObject
             (FCons "page" true stringOrNumber
             (FCons "limit" true stringOrNumber
             (FCons "currency" true SString FNil)))))
          (fun v => obj [("page", numberIfTruthy (prop v "page"));
                         ("limit", numberIfTruthy (prop v "limit"));
                         ("currency", prop v "currency")])))
       None "Get paginated products")
    (fun ctx =>
       let* shop := getShop (headers ctx) in
       call (Client shop
         (ProductsPaginated (obj [("page", prop (query ctx) "page");
                                  ("limit", prop (query ctx) "limit");
                                  ("currency", prop (query ctx) "currency")])))) in
  let getShowcasedProducts := createEndpoint "/products/showcased"
    (Options.mk GET None None "Get showcased products")
    (fun ctx =>
       let* shop := getShop (headers ctx) in
       call (Client shop ProductsShowcased)) in
  let getProductFilters := createEndpoint "/products/filters"
    (Options.mk GET None None "Get product filters")
    (fun ctx =>
       let* shop := getShop (headers ctx) in
       call (Client shop ProductsFilter)) in
  let getProduct := createEndpoint "/products/:handle"
    (Options.mk GET (Some currencyQuery) None "Get product by handle")
    (fun ctx =>
       let* shop := getShop (headers ctx) in
       let* product := call (Client shop
         (ProductsFind (prop (params ctx) "handle")
            (obj [("currency", prop (query ctx) "currency")]))) in
       if negb (truthy product) then throw (Error "Product not found")
       else ret product) in
  let getEnrichedProduct := createEndpoint "/products/:handle/enriched"
    (Options.mk POST None
       (Some (type (SObject
          (FCons "apiKey" true SString
          (FCons "useGfm" true SBoolean
          (FCons "inputType" true (SUnion (SLit "markdown") (SLit "html"))
          (FCons "model" true SString
          (FCons "outputFormat" true (SUnion (SLit "markdown") (SLit "json"))
           FNil))))))))
       "Get enriched product")
    (fun ctx =>
       let* shop := getShop (headers ctx) in
       call (Client shop
         (ProductsEnriched (prop (params ctx) "handle") (body ctx)))) in
  let classifyProduct := createEndpoint "/products/:handle/classify"
    (Options.mk POST None (Some llmBody) "Classify product")
    (fun ctx =>
       let* shop := getShop (headers ctx) in
       call (Client shop
         (ProductsClassify (prop (params ctx) "handle") (body ctx)))) in
  let generateProductSEO := createEndpoint "/products/:handle/seo"
    (Options.mk POST None (Some llmBody) "Generate product SEO")
    (fun ctx =>
       let* shop := getShop (headers ctx) in
       call (Client shop
         (ProductsGenerateSEOContent (prop (params ctx) "handle") (body ctx)))) in
  mkProducts getAllProducts getPaginatedProducts getShowcasedProducts
    getProductFilters getProduct getEnrichedProduct classifyProduct
    generateProductSEO.

(** ** src/shop/collections.ts *)

Record CollectionEndpoints : Type := mkCollections {
  getAllCollections : Endpoint;
  getPaginatedCollections : Endpoint;
  getShowcasedCollections : Endpoint;
  getCollection : Endpoint;
  getCollectionProductsAll : Endpoint;
  getCollectionProductsPaginated : Endpoint;
  getCollectionProductSlugs : Endpoint;
}.

Definition buildCollectionEndpoints : CollectionEndpoints :=
  let getAllCollections := createEndpoint "/collections/all"
    (Options.mk GET None None "Get all collections")
    (fun ctx =>
       let* shop := getShop (headers ctx) in
       call (Client shop CollectionsAll)) in
  let getPaginatedCollections := createEndpoint "/collections/paginated"
    (Options.mk GET
       (Some (pipe
          (type (SObject
             (FCons "page" true stringOrNumber
             (FCons "limit" true stringOrNumber FNil))))
          (fun v => obj [("page", numberIfTruthy (prop v "page"));
                         ("limit", numberIfTruthy (prop v "limit"))])))
       None "Get paginated collections")
    (fun ctx =>
       let* shop := getShop (headers ctx) in
       call (Client shop
         (CollectionsPaginated (obj [("page", prop (query ctx) "page");
                                     ("limit", prop (query ctx) "limit")])))) in
  let getShowcasedCollections := createEndpoint "/collections/showcased"
    (Options.mk GET None None "Get showcased collections")
    (fun ctx =>
       let* shop := getShop (headers ctx) in
       call (Client shop CollectionsShowcased)) in
  let getCollection := createEndpoint "/collections/:handle"
    (Options.mk GET None None "Get collection by handle")
    (fun ctx =>
       let* shop := getShop (headers ctx) in
       let* collection := call (Client shop
         (CollectionsFind (prop (params ctx) "handle"))) in
       if negb (truthy collection) then throw (Error "Collection not found")
       else ret collection) in
  let getCollectionProductsAll := createEndpoint "/collections/:handle/products/all"
    (Options.mk GET (Some currencyQuery) None "Get all products in collection")
    (fun ctx =>
       let* shop := getShop (headers ctx) in
       call (Client shop
         (CollectionsProductsAll (prop (params ctx) "handle")
            (obj [("currency", prop (query ctx) "currency")])))) in
  let getCollectionProductsPaginated :=
    createEndpoint "/collections/:handle/products/paginated"
    (Options.mk GET
       (Some (pipe
          (type (SObject
             (FCons "page" true stringOrNumber
             (FCons "limit" true stringOrNumber
             (FCons "currency" true SString FNil)))))
          (fun v => obj [("page", numberIfTruthy (prop v "page"));
                         ("limit", numberIfTruthy (prop v "limit"));
                         ("currency", prop v "currency")])))
       None "Get paginated products in collection")
    (fun ctx =>
       let* shop := getShop (headers ctx) in
       call (Client shop
         (CollectionsProductsPaginated (prop (params ctx) "handle")
            (obj [("page", prop (query ctx) "page");
                  ("limit", prop (query ctx) "limit");
                  ("currency", prop (query ctx) "currency")])))) in
  let getCollectionProductSlugs := createEndpoint "/collections/:handle/slugs"
    (Options.mk GET None None "Get product slugs in collection")
    (fun ctx =>
       let* shop := getShop (headers ctx) in
       call (Client shop
         (CollectionsProductsSlugs (prop (params ctx) "handle")))) in
  mkCollections getAllCollections getPaginatedCollections
    getShowcasedCollections getCollection getCollectionProductsAll
    getCollectionProductsPaginated getCollectionProductSlugs.

(** ** src/shop/checkout.ts *)

Definition addressSchema : Schema :=
  SObject
    (FCons "firstName" false SString
    (FCons "lastName" false SString
    (FCons "address1" false SString
    (FCons "city" false SString
    (FCons "zip" false SString
    (FCons "country" false SString
    (FCons "province" false SString
    (FCons "phone" false SString FNil)))))))).

Definition itemSchema : Schema :=
  SObject
    (FCons "productVariantId" false SString
    (FCons "quantity" false SString FNil)).

Definition checkoutBody : Schema :=
  SObject
    (FCons "email" false SEmail
    (FCons "items" false (SArray itemSchema)
    (FCons "address" false addressSchema FNil))).

Record CheckoutEndpoints : Type := mkCheckout {
  createCheckoutUrl : Endpoint;
}.

Definition buildCheckoutEndpoints : CheckoutEndpoints :=
  let createCheckoutUrl := createEndpoint "/checkout/url"
    (Options.mk POST None (Some (type checkoutBody)) "Create checkout URL")
    (fun ctx =>
       let* shop := getShop (headers ctx) in
       let* url := call (Client shop (CheckoutCreateUrl (body ctx))) in
       ret (obj [("url", url)])) in
  mkCheckout createCheckoutUrl.

(** ** src/shop/utils.ts *)

(** [a ?? b]. *)
Definition nullish (a b : value) : value :=
  match a with
  | VUndefined | VNull => b
  | _ => a
  end.

(** [headers?.get(name)]: the value of the header, or [null]. *)
Definition headerGet (h : option Headers) (name : string) : value :=
  match h ≫= (.!! name) with
  | Some v => VStr v
  | None => VNull
  end.

Definition domainQuery : Type_ :=
  type (SObject (FCons "domain" true SString FNil)).

Record UtilsEndpoints : Type := mkUtils {
  detectCountry : Endpoint;
  getStoreSlug : Endpoint;
  getProductSlug : Endpoint;
}.

(** This builder takes the resolver as the others do, and reads the
    header itself. *)
Definition buildUtilsEndpoints : UtilsEndpoints :=
  let _ := getShop in
  let detectCountry := createEndpoint "/utils/detect-country"
    (Options.mk GET None None "Detect store country from homepage HTML")
    (fun ctx =>
       let shopDomain := headerGet (headers ctx) "x-shop-domain" in
       if negb (truthy shopDomain)
       then throw (Error "x-shop-domain header is required")
       else
         let* domain :=
           call (SanitizeDomain shopDomain (obj [("stripWWW", VBool true)])) in
         let* html := call (FetchText "https://" domain) in
         call (DetectShopCountry html)) in
  let getStoreSlug := createEndpoint "/utils/store-slug"
    (Options.mk GET (Some domainQuery) None "Generate store slug from domain")
    (fun ctx =>
       let domainInput :=
         nullish (prop (query ctx) "domain")
           (nullish (headerGet (headers ctx) "x-shop-domain") (VStr "")) in
       let* domain :=
         call (SanitizeDomain domainInput (obj [("stripWWW", VBool true)])) in
       let* slug := call (GenerateStoreSlug domain) in
       ret (obj [("slug", slug)])) in
  let getProductSlug := createEndpoint "/utils/product-slug"
    (Options.mk GET
       (Some (type (SObject
          (FCons "handle" false SString (FCons "domain" true SString FNil)))))
       None "Generate product slug from handle and domain")
    (fun ctx =>
       let domainInput :=
         nullish (prop (query ctx) "domain")
           (nullish (headerGet (headers ctx) "x-shop-domain") (VStr "")) in
       let* domain :=
         call (SanitizeDomain domainInput (obj [("stripWWW", VBool true)])) in
       let* slug := call (GenProductSlug
         (obj [("handle", prop (query ctx) "handle"); ("storeDomain", domain)])) in
       ret (obj [("slug", slug)])) in
  mkUtils detectCountry getStoreSlug getProductSlug.

End Builders.
(** ** The router

    The dispatcher comes from the routing library (better-call), which is
    not under src/; [src/shop-service.ts] hands it the endpoints and the
    documentation settings. *)

(** A registry: the object whose properties are the named endpoints. *)
Definition Registry : Type := list (string * Endpoint).



Definition storeEntries (s : StoreEndpoints) : Registry :=
  [("getInfo", getInfo s); ("clearInfoCache", clearInfoCache s);
   ("determineStoreType", determineStoreType s)].

Definition productEntries (p : ProductEndpoints) : Registry :=
  [("getAllProducts", getAllProducts p);
   ("getPaginatedProducts", getPaginatedProducts p);
   ("getShowcasedProducts", getShowcasedProducts p);
   ("getProductFilters", getProductFilters p);
   ("getProduct", getProduct p);
   ("getEnrichedProduct", getEnrichedProduct p);
   ("classifyProduct", classifyProduct p);
   ("generateProductSEO", generateProductSEO p)].

Definition collectionEntries (c : CollectionEndpoints) : Registry :=
  [("getAllCollections", getAllCollections c);
   ("getPaginatedCollections", getPaginatedCollections c);
   ("getShowcasedCollections", getShowcasedCollections c);
   ("getCollection", getCollection c);
   ("getCollectionProductsAll", getCollectionProductsAll c);
   ("getCollectionProductsPaginated", getCollectionProductsPaginated c);
   ("getCollectionProductSlugs", getCollectionProductSlugs c)].

Definition checkoutEntries (c : CheckoutEndpoints) : Registry :=
  [("createCheckoutUrl", createCheckoutUrl c)].

Definition utilsEntries (u : UtilsEndpoints) : Registry :=
  [("detectCountry", detectCountry u); ("getStoreSlug", getStoreSlug u);
   ("getProductSlug", getProductSlug u)].

(** The [openapi] settings of the router. *)
Record OpenAPI : Type := mkOpenAPI {
  disabled : bool;
  referencePath : string;
  title : string;
}.

Inductive Seg : Type :=
  | Lit (s : string)
  | Param (name : string).

(** Modelled from the spec: paths belong to the routing library.  A path
    is read as the non-empty segments between its slashes, and a segment of
    a pattern that starts with a colon is a named one. *)
Fixpoint splitAcc (l : list ascii) (cur : list ascii) : list string :=
  match l with
  | c :: l' =>
      if Ascii.eqb c "/" then
        match cur with
        | [] => splitAcc l' []
        | _ => string_of_list_ascii (rev cur) :: splitAcc l' []
        end
      else splitAcc l' (c :: cur)
  | [] =>
      match cur with
      | [] => []
      | _ => [string_of_list_ascii (rev cur)]
      end
  end.

Definition splitPath (p : string) : list string :=
  splitAcc (list_ascii_of_string p) [].

Definition toSeg (s : string) : Seg :=
  match s with
  | String ":" name => Param name
  | _ => Lit s
  end.

Definition pattern (p : string) : list Seg := map toSeg (splitPath p).

(** What a route leads to: an operation, or the API reference page. *)
Inductive Target : Type :=
  | Operation (e : Endpoint)
  | ApiReference (title : string).

Record Route : Type := mkRoute {
  routeMethod : Method;
  routePath : string;
  target : Target;
}.

Record Router : Type := mkRouter {
  routes : list Route;
}.

Definition endpointRoute (e : Endpoint) : Route :=
  mkRoute (Options.method (options e)) (path e) (Operation e).

Definition identity (r : Route) : Method * string :=
  (routeMethod r, routePath r).



(** Modelled from the spec: router construction belongs to the routing
    library, which is not under src/.  The routes are the endpoints of the
    registry, in its order, and the reference page when the documentation is
    not disabled (the README: the docs are served at [GET /api/reference]).
    Every entry of the registry becomes a route.  The spec also asks that
    construction refuse two routes with the same method and path; the
    library is handed the registry as it is, nothing under src/ makes or
    expects such a comparison, and none is made here. *)
Definition createRouter (endpoints : Registry) (openapi : OpenAPI)
    : Completion Router :=
  let rs :=
    map (fun ke => endpointRoute (snd ke)) endpoints ++
    (if disabled openapi then []
     else [mkRoute GET (referencePath openapi)
             (ApiReference (title openapi))]) in
  Returned (mkRouter rs).

(** A candidate during the look-up: what is left of its pattern, the
    parameters bound so far, and its target. *)
Definition Candidate : Type := list Seg * list (string * value) * Target.

Definition stepLit (s : string) (c : Candidate) : option Candidate :=
  match c with
  | (Lit l :: p, ps, t) => if String.eqb s l then Some (p, ps, t) else None
  | _ => None
  end.

Definition stepParam (s : string) (c : Candidate) : option Candidate :=
  match c with
  | (Param n :: p, ps, t) => Some (p, ps ++ [(n, VStr s)], t)
  | _ => None
  end.

Definition atEnd (c : Candidate) : option (Target * value) :=
  match c with
  | ([], ps, t) => Some (t, VObj ps)
  | _ => None
  end.

(** Modelled from the spec: route matching belongs to the routing
    library.  Following the spec, a path matches a pattern segment by
    segment, a named segment matching any segment, and a literal segment
    is preferred to a named one. *)
Fixpoint lookup (cands : list Candidate) (segs : list string)
    : option (Target * value) :=
  match segs with
  | [] => head (omap atEnd cands)
  | s :: rest =>
      match lookup (omap (stepLit s) cands) rest with
      | Some r => Some r
      | None => lookup (omap (stepParam s) cands) rest
      end
  end.

Definition findRoute (r : Router) (m : Method) (p : string)
    : option (Target * value) :=
  lookup
    (map (fun rt => (pattern (routePath rt), [], target rt))
       (filter (fun rt => sameMethod (routeMethod rt) m = true) (routes r)))
    (splitPath p).

(** Modelled from the spec: input validation belongs to the routing
    library.  Following the spec, the body and the query are parsed by
    the schemas of the operation before its handler runs; the handler
    sees the parsed values; a failure is a client error that carries the
    diagnostics. *)
Definition runValidation (o : Options.t) (ctx : Context)
    : list Issue + Context :=
  match
    match Options.body o with
    | Some t => parse t (body ctx)
    | None => inr (body ctx)
    end
  with
  | inl issues => inl issues
  | inr b =>
      match
        match Options.query o with
        | Some t => parse t (query ctx)
        | None => inr (query ctx)
        end
      with
      | inl issues => inl issues
      | inr q => inr (mkContext (headers ctx) (params ctx) q b)
      end
  end.

(** Calling an endpoint: validation, then the handler. *)
Definition invoke (e : Endpoint) (ctx : Context) : M value :=
  match runValidation (options e) ctx with
  | inl issues => throw (APIError 400 issues)
  | inr ctx' => handler e ctx'
  end.

(** The response to what an operation returned or threw: the result as
    the body of a 200 response, a validation failure with its status and
    diagnostics, any other failure as 500. *)
Definition toResponse (c : Completion value) : Response :=
  match c with
  | Returned v => Json v
  | Threw (APIError code issues) => ErrorResponse code issues
  | Threw (Error _) => Empty 500
  end.

(** Modelled from the spec: the request handler of the router (the
    state machine of the dispatcher).  No route: 404.  Otherwise the
    operation is called on the request, and what it returns or throws is
    answered by [toResponse]. *)
Definition handle (r : Router) (req : Request.t)
    : World -> Response * World * list External :=
  fun w =>
    match findRoute r (Request.method req) (Request.path req) with
    | None => (Empty 404, w, [])
    | Some (ApiReference t, _) => (Reference t, w, [])
    | Some (Operation e, ps) =>
        let ctx :=
          mkContext (Some (Request.headers req)) ps
            (Request.query req) (Request.body req) in
        let '(c, w', t) := invoke e ctx w in (toResponse c, w', t)
    end.

(** ** src/shop-service.ts *)

Definition betterShop (options : option ShopClientOptions)
    : Completion Router :=
  let getShop := makeGetShop options in
  let store := buildStoreEndpoints getShop in
  let products := buildProductEndpoints getShop in
  let collections := buildCollectionEndpoints getShop in
  let checkout := buildCheckoutEndpoints getShop in
  createRouter
    [("getInfo", getInfo store);
     ("clearInfoCache", clearInfoCache store);
     ("determineStoreType", determineStoreType store);
     ("getAllProducts", getAllProducts products);
     ("getPaginatedProducts", getPaginatedProducts products);
     ("getShowcasedProducts", getShowcasedProducts products);
     ("getProductFilters", getProductFilters products);
     ("getProduct", getProduct products);
     ("getEnrichedProduct", getEnrichedProduct products);
     ("classifyProduct", classifyProduct products);
     ("generateProductSEO", generateProductSEO products);
     ("getAllCollections", getAllCollections collections);
     ("getPaginatedCollections", getPaginatedCollections collections);
     ("getShowcasedCollections", getShowcasedCollections collections);
     ("getCollection", getCollection collections);
     ("getCollectionProductsAll", getCollectionProductsAll collections);
     ("getCollectionProductsPaginated",
        getCollectionProductsPaginated collections);
     ("getCollectionProductSlugs", getCollectionProductSlugs collections);
     ("createCheckoutUrl", createCheckoutUrl checkout)]
    (mkOpenAPI false "/api/reference" "Better Shop API").

(** The service on a request: the router is built, then serves. *)
Definition serve (options : option ShopClientOptions) (req : Request.t)
    (w : World) : option (Response * World * list External) :=
  match betterShop options with
  | Returned r => Some (handle r req w)
  | Threw _ => None
  end.

End Service.

Arguments Returned {A} a.
Arguments Threw {A} f.

End Shop.

Import Shop.

(* ================================================================== *)
(** * A router of one's own *)
(* ================================================================== *)

(** The README's router of two endpoints, made from the builders.  Its
    settings give the reference page a path and no title; [title] stands
    for the one that the routing library takes then. *)
Module Readme.

Section Composed.

Context {World : Type}.
Variable delegate : External -> World -> Completion value * World.

Definition myShop (options : option ShopClientOptions) (title : string)
    : Completion (Router (World := World)) :=
  let getShop := makeGetShop options in
  let getInfo := getInfo (buildStoreEndpoints delegate getShop) in
  let getShowcasedProducts :=
    getShowcasedProducts (buildProductEndpoints delegate getShop) in
  createRouter
    [("getInfo", getInfo); ("getShowcasedProducts", getShowcasedProducts)]
    (mkOpenAPI false "/api/reference" title).

End Composed.

End Readme.

(* ================================================================== *)
(** * The service in one file *)
(* ================================================================== *)

(** The service as one function: the tenant look-up and the nineteen
    endpoints are written out in it, without summaries, and the router is
    made without settings.  [defaults] stands for the settings that the
    routing library takes then. *)
Module Legacy.

Section Service.

Context {World : Type}.
Variable delegate : External -> World -> Completion value * World.

Local Notation "'let*' x ':=' m 'in' k" := (bind m (fun x => k))
  (at level 10, x name, m at level 100, k at level 200).
Local Notation "m ';;' k" := (bind m (fun _ => k))
  (at level 100, k at level 200, right associativity).

(** An endpoint made without [metadata]. *)
Definition noSummary : string := "".

Definition endpoints (options : option ShopClientOptions)
    : Registry (World := World) :=
  let getShop (headers : option Headers) : M ShopClient :=
    let domain := headers ≫= (.!! "x-shop-domain") in
    match domain with
    | None | Some "" => throw (Error "x-shop-domain header is required")
    | Some d => ret (mkShopClient d options)
    end in
  let getInfo := createEndpoint "/info"
    (Options.mk GET
       (Some (pipe (type (SObject (FCons "force" true SString FNil)))
                (fun v => obj [("force", VBool (strictEqStr (prop v "force") "true"))])))
       None noSummary)
    (fun ctx =>
       let* shop := getShop (headers ctx) in
       call delegate (Client shop (GetInfo (obj [("force", prop (query ctx) "force")])))) in
  let clearInfoCache := createEndpoint "/info/clear-cache"
    (Options.mk POST None None noSummary)
    (fun ctx =>
       let* shop := getShop (headers ctx) in
       call delegate (Client shop ClearInfoCache);;
       ret (obj [("success", VBool true)])) in
  let determineStoreType := createEndpoint "/store-type"
    (Options.mk POST None
       (Some (type (SObject
          (FCons "apiKey" true SString
          (FCons "model" true SString
          (FCons "maxShowcaseProducts" true SNumber
          (FCons "maxShowcaseCollections" true SNumber FNil)))))))
       noSummary)
    (fun ctx =>
       let* shop := getShop (headers ctx) in
       call delegate (Client shop (DetermineStoreType (body ctx)))) in
  let getAllProducts := createEndpoint "/products/all"
    (Options.mk GET (Some currencyQuery) None noSummary)
    (fun ctx =>
       let* shop := getShop (headers ctx) in
       call delegate (Client shop
         (ProductsAll (obj [("currency", prop (query ctx) "currency")])))) in
  let getPaginatedProducts := createEndpoint "/products/paginated"
    (Options.mk GET
       (Some (pipe
          (type (SObject
             (FCons "page" true stringOrNumber
             (FCons "limit" true stringOrNumber
             (FCons "currency" true SString FNil)))))
          (fun v => obj [("page", numberIfTruthy (prop v "page"));
                         ("limit", numberIfTruthy (prop v "limit"));
                         ("currency", prop v "currency")])))
       None noSummary)
    (fun ctx =>
       let* shop := getShop (headers ctx) in
       call delegate (Client shop
         (ProductsPaginated (obj [("page", prop (query ctx) "page");
                                  ("limit", prop (query ctx) "limit");
                                  ("currency", prop (query ctx) "currency")])))) in
  let getShowcasedProducts := createEndpoint "/products/showcased"
    (Options.mk GET None None noSummary)
    (fun ctx =>
       let* shop := getShop (headers ctx) in
       call delegate (Client shop ProductsShowcased)) in
  let getProductFilters := createEndpoint "/products/filters"
    (Options.mk GET None None noSummary)
    (fun ctx =>
       let* shop := getShop (headers ctx) in
       call delegate (Client shop ProductsFilter)) in
  let getProduct := createEndpoint "/products/:handle"
    (Options.mk GET (Some currencyQuery) None noSummary)
    (fun ctx =>
       let* shop := getShop (headers ctx) in
       let* product := call delegate (Client shop
         (ProductsFind (prop (params ctx) "handle")
            (obj [("currency", prop (query ctx) "currency")]))) in
       if negb (truthy product) then throw (Error "Product not found")
       else ret product) in
  let getEnrichedProduct := createEndpoint "/products/:handle/enriched"
    (Options.mk POST None
       (Some (type (SObject
          (FCons "apiKey" true SString
          (FCons "useGfm" true SBoolean
          (FCons "inputType" true (SUnion (SLit "markdown") (SLit "html"))
          (FCons "model" true SString
          (FCons "outputFormat" true (SUnion (SLit "markdown") (SLit "json"))
           FNil))))))))
       noSummary)
    (fun ctx =>
       let* shop := getShop (headers ctx) in
       call delegate (Client shop
         (ProductsEnriched (prop (params ctx) "handle") (body ctx)))) in
  let classifyProduct := createEndpoint "/products/:handle/classify"
    (Options.mk POST None (Some llmBody) noSummary)
    (fun ctx =>
       let* shop := getShop (headers ctx) in
       call delegate (Client shop
         (ProductsClassify (prop (params ctx) "handle") (body ctx)))) in
  let generateProductSEO := createEndpoint "/products/:handle/seo"
    (Options.mk POST None (Some llmBody) noSummary)
    (fun ctx =>
       let* shop := getShop (headers ctx) in
       call delegate (Client shop
         (ProductsGenerateSEOContent (prop (params ctx) "handle") (body ctx)))) in
  let getAllCollections := createEndpoint "/collections/all"
    (Options.mk GET None None noSummary)
    (fun ctx =>
       let* shop := getShop (headers ctx) in
       call delegate (Client shop CollectionsAll)) in
  let getPaginatedCollections := createEndpoint "/collections/paginated"
    (Options.mk GET
       (Some (pipe
          (type (SObject
             (FCons "page" true stringOrNumber
             (FCons "limit" true stringOrNumber FNil))))
          (fun v => obj [("page", numberIfTruthy (prop v "page"));
                         ("limit", numberIfTruthy (prop v "limit"))])))
       None noSummary)
    (fun ctx =>
       let* shop := getShop (headers ctx) in
       call delegate (Client shop
         (CollectionsPaginated (obj [("page", prop (query ctx) "page");
                                     ("limit", prop (query ctx) "limit")])))) in
  let getShowcasedCollections := createEndpoint "/collections/showcased"
    (Options.mk GET None None noSummary)
    (fun ctx =>
       let* shop := getShop (headers ctx) in
       call delegate (Client shop CollectionsShowcased)) in
  let getCollection := createEndpoint "/collections/:handle"
    (Options.mk GET None None noSummary)
    (fun ctx =>
       let* shop := getShop (headers ctx) in
       let* collection := call delegate (Client shop
         (CollectionsFind (prop (params ctx) "handle"))) in
       if negb (truthy collection) then throw (Error "Collection not found")
       else ret collection) in
  let getCollectionProductsAll := createEndpoint "/collections/:handle/products/all"
    (Options.mk GET (Some currencyQuery) None noSummary)
    (fun ctx =>
       let* shop := getShop (headers ctx) in
       call delegate (Client shop
         (CollectionsProductsAll (prop (params ctx) "handle")
            (obj [("currency", prop (query ctx) "currency")])))) in
  let getCollectionProductsPaginated :=
    createEndpoint "/collections/:handle/products/paginated"
    (Options.mk GET
       (Some (pipe
          (type (SObject
             (FCons "page" true stringOrNumber
             (FCons "limit" true stringOrNumber
             (FCons "currency" true SString FNil)))))
          (fun v => obj [("page", numberIfTruthy (prop v "page"));
                         ("limit", numberIfTruthy (prop v "limit"));
                         ("currency", prop v "currency")])))
       None noSummary)
    (fun ctx =>
       let* shop := getShop (headers ctx) in
       call delegate (Client shop
         (CollectionsProductsPaginated (prop (params ctx) "handle")
            (obj [("page", prop (query ctx) "page");
                  ("limit", prop (query ctx) "limit");
                  ("currency", prop (query ctx) "currency")])))) in
  let getCollectionProductSlugs := createEndpoint "/collections/:handle/slugs"
    (Options.mk GET None None noSummary)
    (fun ctx =>
       let* shop := getShop (headers ctx) in
       call delegate (Client shop
         (CollectionsProductsSlugs (prop (params ctx) "handle")))) in
  let createCheckoutUrl := createEndpoint "/checkout/url"
    (Options.mk POST None (Some (type checkoutBody)) noSummary)
    (fun ctx =>
       let* shop := getShop (headers ctx) in
       let* url := call delegate (Client shop (CheckoutCreateUrl (body ctx))) in
       ret (obj [("url", url)])) in
  [("getInfo", getInfo);
   ("clearInfoCache", clearInfoCache);
   ("determineStoreType", determineStoreType);
   ("getAllProducts", getAllProducts);
   ("getPaginatedProducts", getPaginatedProducts);
   ("getShowcasedProducts", getShowcasedProducts);
   ("getProductFilters", getProductFilters);
   ("getProduct", getProduct);
   ("getEnrichedProduct", getEnrichedProduct);
   ("classifyProduct", classifyProduct);
   ("generateProductSEO", generateProductSEO);
   ("getAllCollections", getAllCollections);
   ("getPaginatedCollections", getPaginatedCollections);
   ("getShowcasedCollections", getShowcasedCollections);
   ("getCollection", getCollection);
   ("getCollectionProductsAll", getCollectionProductsAll);
   ("getCollectionProductsPaginated", getCollectionProductsPaginated);
   ("getCollectionProductSlugs", getCollectionProductSlugs);
   ("createCheckoutUrl", createCheckoutUrl)].

Definition betterShop (options : option ShopClientOptions)
    (defaults : OpenAPI) : Completion Router :=
  createRouter (endpoints options) defaults.

End Service.

End Legacy.

(* ================================================================== *)
(** * The storefront client of the test-suite *)
(* ================================================================== *)

Module Mock.

(** The [MockShopClient] of the router tests: what each method resolves
    to. *)
Definition mockCapability (c : Capability) : value :=
  match c with
  | GetInfo _ =>
      VObj [("name", VStr "Mock Store"); ("domain", VStr "mock.myshopify.com");
            ("country", VStr "US")]
  | ClearInfoCache => VUndefined
  | DetermineStoreType _ =>
      VObj [("vertical", VStr "clothing"); ("audience", VStr "adult_male")]
  | ProductsAll _ => VArr [VObj [("id", VStr "1"); ("title", VStr "Product 1")]]
  | ProductsPaginated opts =>
      VArr [VObj [("id", VStr "1"); ("title", VStr "Product 1");
                  ("page", prop opts "page")]]
  | ProductsShowcased =>
      VArr [VObj [("id", VStr "2"); ("title", VStr "Showcased Product")]]
  | ProductsFilter => VObj [("Size", VArr [VStr "S"; VStr "M"])]
  | ProductsFind handle _ =>
      if strictEqStr handle "exists"
      then VObj [("id", VStr "3"); ("title", VStr "Product 3")]
      else VNull
  | ProductsEnriched _ _ =>
      VObj [("id", VStr "3"); ("title", VStr "Product 3");
            ("enriched_content", VStr "Enriched")]
  | ProductsClassify _ _ => VObj [("vertical", VStr "clothing")]
  | ProductsGenerateSEOContent _ _ => VObj [("metaTitle", VStr "SEO Title")]
  | CollectionsAll =>
      VArr [VObj [("id", VStr "c1"); ("title", VStr "Collection 1")]]
  | CollectionsPaginated _ =>
      VArr [VObj [("id", VStr "c1"); ("title", VStr "Collection 1")]]
  | CollectionsShowcased =>
      VArr [VObj [("id", VStr "c2"); ("title", VStr "Showcased Collection")]]
  | CollectionsFind handle =>
      if strictEqStr handle "exists"
      then VObj [("id", VStr "c3"); ("title", VStr "Collection 3")]
      else VNull
  | CollectionsProductsAll _ _ =>
      VArr [VObj [("id", VStr "p1"); ("title", VStr "Col Product 1")]]
  | CollectionsProductsPaginated _ _ =>
      VArr [VObj [("id", VStr "p1"); ("title", VStr "Col Product 1")]]
  | CollectionsProductsSlugs _ => VArr [VStr "p1-slug"]
  | CheckoutCreateUrl _ => VStr "https://checkout.url"
  end.

(** The mock keeps no state, and the mocked module exports the client
    class only. *)
Definition World : Type := unit.

Definition delegate (e : External) (w : World) : Completion value * World :=
  match e with
  | Client _ c => (Returned (mockCapability c), w)
  | _ => (Threw (Error "not a function"), w)
  end.

(** The headers that the tests send. *)
Definition tenant : gmap string string :=
  {[ "x-shop-domain" := "mock.myshopify.com" ]}.

(** The well-formed checkout payload of the tests. *)
Definition address : value :=
  VObj [("firstName", VStr "John"); ("lastName", VStr "Doe");
        ("address1", VStr "123 St"); ("city", VStr "City");
        ("zip", VStr "12345"); ("country", VStr "US");
        ("province", VStr "CA"); ("phone", VStr "1234567890")].

Definition payload : value :=
  VObj [("email", VStr "test@example.com");
        ("items", VArr [VObj [("productVariantId", VStr "123");
                              ("quantity", VStr "1")]]);
        ("address", address)].

(** The ill-formed payload of the tests. *)
Definition badPayload : value :=
  VObj [("email", VStr "invalid-email"); ("items", VArr [])].

End Mock.

(** A client with a store-info cache, to run the service against a state
    that changes: the state is the cached store info, [getInfo] fills the
    cache (and reads it unless forced), [clearInfoCache] empties it. *)
Module Caching.

Definition World : Type := option value.

Definition fresh (shop : ShopClient) : value :=
  VObj [("name", VStr "Store"); ("domain", VStr (domain shop))].

Definition delegate (e : External) (cache : World) : Completion value * World :=
  match e with
  | Client shop (GetInfo opts) =>
      match cache, truthy (prop opts "force") with
      | Some info, false => (Returned info, cache)
      | _, _ => (Returned (fresh shop), Some (fresh shop))
      end
  | Client _ ClearInfoCache => (Returned VUndefined, None)
  | Client _ c => (Returned (Mock.mockCapability c), cache)
  | _ => (Threw (Error "not a function"), cache)
  end.

End Caching.

(** Stand-ins for the exported utilities, to run the utility operations:
    every utility returns the value it is given ([genProductSlug] the
    handle of its argument), and the page that is fetched is the text
    [<html>]; the state counts the calls. *)
Module Echo.

Definition World : Type := nat.

Definition delegate (e : External) (n : World) : Completion value * World :=
  match e with
  | Client _ c => (Returned (Mock.mockCapability c), S n)
  | SanitizeDomain input _ => (Returned input, S n)
  | GenerateStoreSlug d => (Returned d, S n)
  | GenProductSlug arg => (Returned (prop arg "handle"), S n)
  | FetchText _ _ => (Returned (VStr "<html>"), S n)
  | DetectShopCountry html => (Returned html, S n)
  end.

End Echo.

(* ================================================================== *)
(** * The vocabulary of the statements *)
(* ================================================================== *)

Section Vocabulary.

Context {World : Type}.
Variable delegate : External -> World -> Completion value * World.
Variable options : option ShopClientOptions.

(** The operations of the assembled router, in the order of the
    registry. *)
Definition operations : list (Endpoint (World := World)) :=
  let getShop := makeGetShop options in
  map snd
    (storeEntries (buildStoreEndpoints delegate getShop) ++
     productEntries (buildProductEndpoints delegate getShop) ++
     collectionEntries (buildCollectionEndpoints delegate getShop) ++
     checkoutEntries (buildCheckoutEndpoints delegate getShop)).

(** Their methods and paths. *)
Definition routeTable : list (Method * string) :=
  [(GET, "/info"); (POST, "/info/clear-cache"); (POST, "/store-type");
   (GET, "/products/all"); (GET, "/products/paginated");
   (GET, "/products/showcased"); (GET, "/products/filters");
   (GET, "/products/:handle"); (POST, "/products/:handle/enriched");
   (POST, "/products/:handle/classify"); (POST, "/products/:handle/seo");
   (GET, "/collections/all"); (GET, "/collections/paginated");
   (GET, "/collections/showcased"); (GET, "/collections/:handle");
   (GET, "/collections/:handle/products/all");
   (GET, "/collections/:handle/products/paginated");
   (GET, "/collections/:handle/slugs"); (POST, "/checkout/url")].

Definition theRouter : Router (World := World) :=
  mkRouter
    (map endpointRoute operations ++
     [mkRoute GET "/api/reference" (ApiReference "Better Shop API")]).

(** The operations whose handler resolves the tenant, makes one call and
    returns what the call returns: all but the two find-by-handle
    operations, the cache clearing and the checkout. *)
Definition plainOperations : list (Endpoint (World := World)) :=
  let getShop := makeGetShop options in
  let store := buildStoreEndpoints delegate getShop in
  let products := buildProductEndpoints delegate getShop in
  let collections := buildCollectionEndpoints delegate getShop in
  [getInfo store; determineStoreType store;
   getAllProducts products; getPaginatedProducts products;
   getShowcasedProducts products; getProductFilters products;
   getEnrichedProduct products; classifyProduct products;
   generateProductSEO products;
   getAllCollections collections; getPaginatedCollections collections;
   getShowcasedCollections collections; getCollectionProductsAll collections;
   getCollectionProductsPaginated collections;
   getCollectionProductSlugs collections].

(** The domain that the slug operations work on: the [domain] of the
    query, or else the tenant header, or else the empty string. *)
Definition slugDomain (fields : list (string * value)) (h : option Headers)
    : string :=
  match assoc "domain" fields with
  | Some (VStr s) => s
  | _ => default "" (h ≫= (.!! "x-shop-domain"))
  end.

(** [{ stripWWW: true }]. *)
Definition stripWWW : value := VObj [("stripWWW", VBool true)].

(** Two calls in a row, the second on the result of the first, and a last
    step on the result of the second; a failure ends the sequence. *)
Definition twoCalls (first : External) (second : value -> External)
    (last : value -> value) (w : World)
    : Completion value * World * list External :=
  match delegate first w with
  | (Threw f, w1) => (Threw f, w1, [first])
  | (Returned x, w1) =>
      match delegate (second x) w1 with
      | (Threw f, w2) => (Threw f, w2, [first; second x])
      | (Returned y, w2) => (Returned (last y), w2, [first; second x])
      end
  end.

(** Three calls in a row, each on the result of the one before. *)
Definition threeCalls (first : External) (second third : value -> External)
    (w : World) : Completion value * World * list External :=
  match delegate first w with
  | (Threw f, w1) => (Threw f, w1, [first])
  | (Returned x, w1) =>
      match delegate (second x) w1 with
      | (Threw f, w2) => (Threw f, w2, [first; second x])
      | (Returned y, w2) =>
          match delegate (third y) w2 with
          | (r, w3) => (r, w3, [first; second x; third y])
          end
      end
  end.

(** The operations at the literal paths under [/products] and
    [/collections]. *)
Definition listOperations : list (Endpoint (World := World)) :=
  let getShop := makeGetShop options in
  let products := buildProductEndpoints delegate getShop in
  let collections := buildCollectionEndpoints delegate getShop in
  [getAllProducts products; getPaginatedProducts products;
   getShowcasedProducts products; getProductFilters products;
   getAllCollections collections; getPaginatedCollections collections;
   getShowcasedCollections collections].

(** The calls of the two find-by-handle handlers. *)
Definition findProduct (shop : ShopClient) (ctx : Context) : External :=
  Client shop
    (ProductsFind (prop (params ctx) "handle")
       (VObj [("currency", prop (query ctx) "currency")])).

Definition findCollection (shop : ShopClient) (ctx : Context) : External :=
  Client shop (CollectionsFind (prop (params ctx) "handle")).

(** One call, answered as it completes. *)
Definition run (c : External) (w : World) : Response * World * list External :=
  (toResponse (fst (delegate c w)), snd (delegate c w), [c]).

End Vocabulary.

(** An endpoint with its summary taken away. *)
Definition withoutSummary {World : Type} (e : Endpoint (World := World))
    : Endpoint (World := World) :=
  createEndpoint (path e)
    (Options.mk (Options.method (options e)) (Options.query (options e))
       (Options.body (options e)) "")
    (handler e).

(** The same without summaries: a target, a route, a candidate of the
    look-up, an entry of a registry. *)
Definition bareTarget {World : Type} (t : Target (World := World))
    : Target (World := World) :=
  match t with
  | Operation e => Operation (withoutSummary e)
  | ApiReference title => ApiReference title
  end.

Definition bareRoute {World : Type} (r : Route (World := World))
    : Route (World := World) :=
  mkRoute (routeMethod r) (routePath r) (bareTarget (target r)).

Definition bareCandidate {World : Type} (c : Candidate (World := World))
    : Candidate (World := World) :=
  (fst (fst c), snd (fst c), bareTarget (snd c)).

Definition bareResult {World : Type} (r : Target (World := World) * value)
    : Target (World := World) * value :=
  (bareTarget (fst r), snd r).

Definition bareEntry {World : Type} (ke : string * Endpoint (World := World))
    : string * Endpoint (World := World) :=
  (fst ke, withoutSummary (snd ke)).

(** The registry of the service: the entries of the four builders. *)
Definition registry {World : Type}
    (delegate : External -> World -> Completion value * World)
    (options : option ShopClientOptions) : Registry (World := World) :=
  let getShop := makeGetShop options in
  storeEntries (buildStoreEndpoints delegate getShop) ++
  productEntries (buildProductEndpoints delegate getShop) ++
  collectionEntries (buildCollectionEndpoints delegate getShop) ++
  checkoutEntries (buildCheckoutEndpoints delegate getShop).

(** What a router, if it could be made, answers to a request. *)
Definition answer {World : Type} (r : Completion (Router (World := World)))
    (req : Request.t) (w : World) : option (Response * World * list External) :=
  match r with
  | Returned r => Some (handle r req w)
  | Threw _ => None
  end.

(** The response is the reference page. *)
Definition isReference (r : Response) : bool :=
  match r with
  | Reference _ => true
  | _ => false
  end.

(** A call of one of the two find capabilities. *)
Definition isFind (x : External) : bool :=
  match x with
  | Client _ (ProductsFind _ _) | Client _ (CollectionsFind _) => true
  | _ => false
  end.

(** The result of the find capability is absent. *)
Definition absent (v : value) : Prop := v = VNull \/ v = VUndefined.

(** ** The checkout payload *)

(** The payload shape in the words of the interface description: an
    email-format string [email], an array [items] of objects with strings
    [productVariantId] and [quantity], and an object [address] whose eight
    fields are strings. *)
Definition hasString (o : value) (k : string) : bool :=
  match o with
  | VObj fields =>
      match assoc k fields with
      | Some (VStr _) => true
      | _ => false
      end
  | _ => false
  end.

Definition wellFormedItem (v : value) : bool :=
  hasString v "productVariantId" && hasString v "quantity".

Definition wellFormedAddress (v : value) : bool :=
  forallb (hasString v)
    ["firstName"; "lastName"; "address1"; "city"; "zip"; "country";
     "province"; "phone"].

Definition wellFormedCheckout (b : value) : bool :=
  match b with
  | VObj fields =>
      match assoc "email" fields with
      | Some (VStr e) => emailMatcher e
      | _ => false
      end
      && match assoc "items" fields with
         | Some (VArr items) => forallb wellFormedItem items
         | _ => false
         end
      && match assoc "address" fields with
         | Some a => wellFormedAddress a
         | None => false
         end
  | _ => false
  end.

Definition noIssue (l : list Issue) : bool :=
  match l with
  | [] => true
  | _ => false
  end.

(** ** Numeric strings

    The strings that [Number] converts, as the language defines them
    (StringNumericLiteral), with what each writes; and the number that
    stands for what is written.  [StringToNumber] is compared with this
    syntax. *)

(** White space and line terminators. *)
Definition whiteSpace : list ascii :=
  ["009"; "010"; "011"; "012"; "013"; " "; "160"]%char.

(** The digits, with their values. *)
Definition binaryDigits : list (ascii * N) :=
  [("0"%char, 0%N); ("1"%char, 1%N)].

Definition octalDigits : list (ascii * N) :=
  binaryDigits ++
  [("2"%char, 2%N); ("3"%char, 3%N); ("4"%char, 4%N); ("5"%char, 5%N);
   ("6"%char, 6%N); ("7"%char, 7%N)].

Definition decimalDigits : list (ascii * N) :=
  octalDigits ++ [("8"%char, 8%N); ("9"%char, 9%N)].

Definition hexDigits : list (ascii * N) :=
  decimalDigits ++
  [("a"%char, 10%N); ("b"%char, 11%N); ("c"%char, 12%N); ("d"%char, 13%N);
   ("e"%char, 14%N); ("f"%char, 15%N);
   ("A"%char, 10%N); ("B"%char, 11%N); ("C"%char, 12%N); ("D"%char, 13%N);
   ("E"%char, 14%N); ("F"%char, 15%N)].

(** The characters [l] are digits, and [ds] are their values. *)
Definition Numeral (digits : list (ascii * N)) (l : list ascii) (ds : list N)
    : Prop :=
  Forall2 (fun c d => In (c, d) digits) l ds.

(** The value of the digits [ds] in a radix: each digit times the power of
    the radix of its place. *)
Fixpoint positional (radix : N) (ds : list N) : N :=
  match ds with
  | d :: ds' => (d * radix ^ N.of_nat (length ds') + positional radix ds')%N
  | [] => 0%N
  end.

(** What a literal writes: an infinity, or the quantity [±m × 10^e]. *)
Inductive Quantity : Type :=
  | Infinite (neg : bool)
  | Finite (neg : bool) (m : N) (e : Z).

(** An optional sign. *)
Inductive Sign : list ascii -> bool -> Prop :=
  | sign_none : Sign [] false
  | sign_plus : Sign ["+"%char] false
  | sign_minus : Sign ["-"%char] true.

(** An optional ExponentPart: [e] or [E], an optional sign, digits. *)
Inductive ExponentPart : list ascii -> Z -> Prop :=
  | exponent_none : ExponentPart [] 0
  | exponent_some c sg neg l ds :
      In c ["e"%char; "E"%char] -> Sign sg neg ->
      l <> [] -> Numeral decimalDigits l ds ->
      ExponentPart (c :: sg ++ l)
        (if neg then - Z.of_N (positional 10 ds)
         else Z.of_N (positional 10 ds)).

(** StrUnsignedDecimalLiteral, [Infinity] apart: digits with a point among
    them, before them or after them, or digits alone; then an optional
    exponent.  The literal writes [m × 10^e]. *)
Inductive StrUnsignedDecimalLiteral : list ascii -> N -> Z -> Prop :=
  | decimal_point ip fp ex iv fv e :
      Numeral decimalDigits ip iv -> Numeral decimalDigits fp fv ->
      ip ++ fp <> [] -> ExponentPart ex e ->
      StrUnsignedDecimalLiteral (ip ++ "."%char :: fp ++ ex)
        (positional 10 (iv ++ fv)) (e - Z.of_nat (length fp))
  | decimal_integer ip ex iv e :
      Numeral decimalDigits ip iv -> ip <> [] -> ExponentPart ex e ->
      StrUnsignedDecimalLiteral (ip ++ ex) (positional 10 iv) e.

(** The prefixes of the integers in another radix. *)
Definition radixPrefixes : list (ascii * (N * list (ascii * N))) :=
  [("x"%char, (16%N, hexDigits)); ("X"%char, (16%N, hexDigits));
   ("o"%char, (8%N, octalDigits)); ("O"%char, (8%N, octalDigits));
   ("b"%char, (2%N, binaryDigits)); ("B"%char, (2%N, binaryDigits))].

(** StrNumericLiteral: a signed decimal literal or infinity, or an
    unsigned integer in radix 16, 8 or 2. *)
Inductive StrNumericLiteral : list ascii -> Quantity -> Prop :=
  | literal_infinity sg neg :
      Sign sg neg ->
      StrNumericLiteral (sg ++ list_ascii_of_string "Infinity") (Infinite neg)
  | literal_decimal sg neg l m e :
      Sign sg neg -> StrUnsignedDecimalLiteral l m e ->
      StrNumericLiteral (sg ++ l) (Finite neg m e)
  | literal_radix p radix digits l ds :
      In (p, (radix, digits)) radixPrefixes ->
      l <> [] -> Numeral digits l ds ->
      StrNumericLiteral ("0"%char :: p :: l) (Finite false (positional radix ds) 0).

(** StringNumericLiteral: white space, or a literal with white space
    around it.  White space alone writes zero. *)
Definition StringNumericLiteral (s : string) (q : Quantity) : Prop :=
  exists before l after,
    list_ascii_of_string s = before ++ l ++ after
    /\ Forall (fun c => In c whiteSpace) before
    /\ Forall (fun c => In c whiteSpace) after
    /\ ((l = [] /\ q = Finite false 0 0) \/ StrNumericLiteral l q).

(** The magnitudes of the numbers: the naturals [q × 2^k] with [q] on 53
    bits.  (The largest exponent is left to [Represents].) *)
Definition binary64 (v : N) : Prop :=
  exists q k, (v = q * 2 ^ k /\ q < 2 ^ 53)%N.

(** A magnitude whose 53-bit significand is even. *)
Definition evenSignificand (v : N) : Prop :=
  exists q k, (v = q * 2 ^ k /\ 2 ^ 52 <= q < 2 ^ 53)%N /\ N.even q = true.

Definition distance (a b : N) : N := (N.max a b - N.min a b)%N.

(** [v] is the magnitude nearest to the natural [a], the one whose
    significand is even when two are as near. *)
Definition nearest (a v : N) : Prop :=
  binary64 v /\
  forall v', binary64 v' -> v' <> v ->
    (distance a v < distance a v')%N
    \/ (distance a v = distance a v' /\ evenSignificand v).

(** [m × 10^e] is the natural [a]. *)
Definition integerValue (m : N) (e : Z) (a : N) : Prop :=
  ((0 <= e)%Z /\ a = (m * 10 ^ Z.to_N e)%N)
  \/ ((e < 0)%Z /\ m = (a * 10 ^ Z.to_N (- e))%N).

(** The number that stands for a quantity: the infinities; the two zeros;
    for an integer the nearest magnitude with its sign, or an infinity
    from [2^1024] on; for a fraction its decimal [m' × 10^-k'] with [m'] not
    a multiple of ten (a [Dec] value, which stands for the double nearest
    to that decimal). *)
Inductive Represents : Quantity -> number -> Prop :=
  | represents_infinity neg : Represents (Infinite neg) (Infinity neg)
  | represents_zero neg e :
      Represents (Finite neg 0 e) (if neg then NegZero else Int 0)
  | represents_integer neg m e a v :
      m <> 0%N -> integerValue m e a -> nearest a v -> (v < 2 ^ 1024)%N ->
      Represents (Finite neg m e)
        (Int (if neg then - Z.of_N v else Z.of_N v))
  | represents_overflow neg m e a v :
      m <> 0%N -> integerValue m e a -> nearest a v -> (2 ^ 1024 <= v)%N ->
      Represents (Finite neg m e) (Infinity neg)
  | represents_fraction neg m e m' k' :
      m <> 0%N -> (e < 0)%Z ->
      (m * 10 ^ Npos k' = Npos m' * 10 ^ Z.to_N (- e))%N ->
      (Npos m' mod 10 <> 0)%N ->
      Represents (Finite neg m e) (Dec neg m' k').

(** ** Queries *)

(** The diagnostics of a query against the query schema of an endpoint. *)
Definition queryIssues {World : Type} (e : Endpoint (World := World))
    (q : value) : list Issue :=
  match Options.query (options e) with
  | Some t => validate (schema t) [] q
  | None => []
  end.

(** The options that the paginated operations hand over. *)
Definition pageOptions (q : value) : value :=
  VObj [("page", numberIfTruthy (prop q "page"));
        ("limit", numberIfTruthy (prop q "limit"));
        ("currency", prop q "currency")].

Definition pageOptions2 (q : value) : value :=
  VObj [("page", numberIfTruthy (prop q "page"));
        ("limit", numberIfTruthy (prop q "limit"))].

(** A query parameter that is missing, or a string. *)
Definition optionalString (fields : list (string * value)) (k : string) : Prop :=
  assoc k fields = None \/ exists s, assoc k fields = Some (VStr s).

(** A query parameter that is missing, or a string or a number. *)
Definition optionalStringOrNumber (fields : list (string * value)) (k : string)
    : Prop :=
  match assoc k fields with
  | Some v => asStringOrNumber v <> None
  | None => True
  end.

(** The options object among the arguments of a call. *)
Definition optionsOf (c : Capability) : value :=
  match c with
  | GetInfo o | ProductsAll o | ProductsPaginated o | ProductsFind _ o
  | CollectionsPaginated o | CollectionsProductsAll _ o
  | CollectionsProductsPaginated _ o => o
  | _ => VUndefined
  end.

(** What the one call of a request was handed as option [k]. *)
Definition handedOver (calls : list External) (k : string) : option value :=
  match calls with
  | [Client _ c] => Some (prop (optionsOf c) k)
  | _ => None
  end.

(** The operations that read optional query parameters, by the segments
    of their paths, and the parameters that each reads. *)
Inductive optionalParameter : list string -> string -> Prop :=
  | info_force : optionalParameter ["info"] "force"
  | products_all_currency : optionalParameter ["products"; "all"] "currency"
  | products_paginated k :
      In k ["page"; "limit"; "currency"] ->
      optionalParameter ["products"; "paginated"] k
  | product_currency h :
      ~ In h ["all"; "paginated"; "showcased"; "filters"] ->
      optionalParameter ["products"; h] "currency"
  | collections_paginated k :
      In k ["page"; "limit"] ->
      optionalParameter ["collections"; "paginated"] k
  | collection_products_all_currency h :
      optionalParameter ["collections"; h; "products"; "all"] "currency"
  | collection_products_paginated h k :
      In k ["page"; "limit"; "currency"] ->
      optionalParameter ["collections"; h; "products"; "paginated"] k.

(** The body [{ success: true }]. *)
Definition success : value := VObj [("success", VBool true)].

(** The operation names of a registry. *)
Definition names {World : Type} (r : Registry (World := World)) : list string :=
  map fst r.

(* ================================================================== *)
(** * Properties *)
(* ================================================================== *)

(** ** The assembled router *)

Section Assembled.

Context {World : Type}.
Variable delegate : External -> World -> Completion value * World.
Variable options : option ShopClientOptions.

Lemma betterShop_router : betterShop delegate options = Returned (theRouter delegate options).
Proof. reflexivity. Qed.

Lemma routes_theRouter :
  routes (theRouter delegate options) =
  map (fun me => mkRoute (fst (fst me)) (snd (fst me)) (Operation (snd me)))
    (combine routeTable (operations delegate options))
  ++ [mkRoute GET "/api/reference" (ApiReference "Better Shop API")].
Proof. reflexivity. Qed.

Lemma serve_handle req w :
  serve delegate options req w = Some (handle (theRouter delegate options) req w).
Proof. unfold serve. rewrite betterShop_router. reflexivity. Qed.

Lemma betterShop_inv router :
  betterShop delegate options = Returned router -> router = theRouter delegate options.
Proof. rewrite betterShop_router. congruence. Qed.

End Assembled.

(** Name the nineteen endpoints, so that a look-up can be computed
    without looking inside them. *)
Ltac abstract_operations :=
  unfold operations, storeEntries, productEntries, collectionEntries,
    checkoutEntries;
  cbn [map snd app];
  repeat match goal with
  | |- context [getInfo ?b] => generalize (getInfo b); intro
  | |- context [clearInfoCache ?b] => generalize (clearInfoCache b); intro
  | |- context [determineStoreType ?b] =>
      generalize (determineStoreType b); intro
  | |- context [getAllProducts ?b] => generalize (getAllProducts b); intro
  | |- context [getPaginatedProducts ?b] =>
      generalize (getPaginatedProducts b); intro
  | |- context [getShowcasedProducts ?b] =>
      generalize (getShowcasedProducts b); intro
  | |- context [getProductFilters ?b] =>
      generalize (getProductFilters b); intro
  | |- context [getProduct ?b] => generalize (getProduct b); intro
  | |- context [getEnrichedProduct ?b] =>
      generalize (getEnrichedProduct b); intro
  | |- context [classifyProduct ?b] => generalize (classifyProduct b); intro
  | |- context [generateProductSEO ?b] =>
      generalize (generateProductSEO b); intro
  | |- context [getAllCollections ?b] =>
      generalize (getAllCollections b); intro
  | |- context [getPaginatedCollections ?b] =>
      generalize (getPaginatedCollections b); intro
  | |- context [getShowcasedCollections ?b] =>
      generalize (getShowcasedCollections b); intro
  | |- context [getCollection ?b] => generalize (getCollection b); intro
  | |- context [getCollectionProductsAll ?b] =>
      generalize (getCollectionProductsAll b); intro
  | |- context [getCollectionProductsPaginated ?b] =>
      generalize (getCollectionProductsPaginated b); intro
  | |- context [getCollectionProductSlugs ?b] =>
      generalize (getCollectionProductSlugs b); intro
  | |- context [createCheckoutUrl ?b] =>
      generalize (createCheckoutUrl b); intro
  end.

Ltac compute_candidates :=
  match goal with
  | |- lookup ?c _ = _ =>
      let c' := eval vm_compute in c in change c with c'
  end.

(** Settle a look-up in the assembled router, given the method and the
    segments of the path; comparisons with a segment that is not known
    are read from the context, or tried both ways. *)
Ltac route Hm Hp :=
  unfold findRoute; rewrite ?Hm; rewrite Hp, routes_theRouter;
  abstract_operations; compute_candidates; cbn;
  repeat match goal with
  | H : String.eqb ?h ?l = _ |- context [String.eqb ?h ?l] => rewrite H; cbn
  end;
  repeat match goal with
  | |- context [String.eqb ?h ?l] => destruct (String.eqb h l); cbn
  end;
  reflexivity.

Section Routing.

Context {World : Type}.
Variable delegate : External -> World -> Completion value * World.
Variable options : option ShopClientOptions.

Local Abbreviation getShop := (makeGetShop (World := World) options).
Let router := theRouter delegate options.
Let store := buildStoreEndpoints delegate getShop.
Let products := buildProductEndpoints delegate getShop.
Let collections := buildCollectionEndpoints delegate getShop.
Let checkout := buildCheckoutEndpoints delegate getShop.

Variable req : Request.t.

Let found := findRoute router (Request.method req) (Request.path req).

Lemma route_info :
  Request.method req = GET -> splitPath (Request.path req) = ["info"] ->
  found = Some (Operation (getInfo store), VObj []).
Proof. intros Hm Hp. subst found router store. route Hm Hp. Qed.

Lemma route_clear_cache :
  Request.method req = POST ->
  splitPath (Request.path req) = ["info"; "clear-cache"] ->
  found = Some (Operation (clearInfoCache store), VObj []).
Proof. intros Hm Hp. subst found router store. route Hm Hp. Qed.

Lemma route_checkout :
  Request.method req = POST ->
  splitPath (Request.path req) = ["checkout"; "url"] ->
  found = Some (Operation (createCheckoutUrl checkout), VObj []).
Proof. intros Hm Hp. subst found router checkout. route Hm Hp. Qed.

Lemma route_products_all :
  Request.method req = GET ->
  splitPath (Request.path req) = ["products"; "all"] ->
  found = Some (Operation (getAllProducts products), VObj []).
Proof. intros Hm Hp. subst found router products. route Hm Hp. Qed.

Lemma route_products_paginated :
  Request.method req = GET ->
  splitPath (Request.path req) = ["products"; "paginated"] ->
  found = Some (Operation (getPaginatedProducts products), VObj []).
Proof. intros Hm Hp. subst found router products. route Hm Hp. Qed.

Lemma route_product h :
  Request.method req = GET ->
  splitPath (Request.path req) = ["products"; h] ->
  h <> "all" -> h <> "paginated" -> h <> "showcased" -> h <> "filters" ->
  found = Some (Operation (getProduct products), VObj [("handle", VStr h)]).
Proof.
  intros Hm Hp H1 H2 H3 H4. apply String.eqb_neq in H1, H2, H3, H4.
  subst found router products. route Hm Hp.
Qed.

Lemma route_collections_paginated :
  Request.method req = GET ->
  splitPath (Request.path req) = ["collections"; "paginated"] ->
  found = Some (Operation (getPaginatedCollections collections), VObj []).
Proof. intros Hm Hp. subst found router collections. route Hm Hp. Qed.

Lemma route_collection h :
  Request.method req = GET ->
  splitPath (Request.path req) = ["collections"; h] ->
  h <> "all" -> h <> "paginated" -> h <> "showcased" ->
  found = Some (Operation (getCollection collections),
                VObj [("handle", VStr h)]).
Proof.
  intros Hm Hp H1 H2 H3. apply String.eqb_neq in H1, H2, H3.
  subst found router collections. route Hm Hp.
Qed.

Lemma route_collection_products_all h :
  Request.method req = GET ->
  splitPath (Request.path req) = ["collections"; h; "products"; "all"] ->
  found = Some (Operation (getCollectionProductsAll collections),
                VObj [("handle", VStr h)]).
Proof. intros Hm Hp. subst found router collections. route Hm Hp. Qed.

Lemma route_collection_products_paginated h :
  Request.method req = GET ->
  splitPath (Request.path req) = ["collections"; h; "products"; "paginated"] ->
  found = Some (Operation (getCollectionProductsPaginated collections),
                VObj [("handle", VStr h)]).
Proof. intros Hm Hp. subst found router collections. route Hm Hp. Qed.

Lemma route_utils name :
  splitPath (Request.path req) = ["utils"; name] -> found = None.
Proof.
  intros Hp. subst found router.
  destruct (Request.method req) eqn:Hm; route Hm Hp.
Qed.

End Routing.

(** ** The dispatcher *)

Section Dispatch.

Context {World : Type}.

Lemma bind_threw {A B} (m : M (World := World) A) (k : A -> M B) w f w1 t1 :
  m w = (Threw f, w1, t1) -> bind m k w = (Threw f, w1, t1).
Proof. intros H. unfold bind. rewrite H. reflexivity. Qed.

Lemma bind_returned {A B} (m : M (World := World) A) (k : A -> M B) w a w1 :
  m w = (Returned a, w1, []) -> bind m k w = k a w1.
Proof.
  intros H. unfold bind. rewrite H. destruct (k a w1) as [[r w2] t2].
  reflexivity.
Qed.

(** The target that a look-up finds is the target of a candidate. *)
Lemma lookup_target segs : forall (cands : list (Candidate (World := World))) t ps,
  lookup cands segs = Some (t, ps) -> In t (map snd cands).
Proof.
  induction segs as [|s rest IH]; intros cands t ps H; cbn in H.
  - induction cands as [|[[p qs] u] cands IHc]; cbn in *; [discriminate|].
    destruct p; cbn in H.
    + injection H as <- _. now left.
    + right. now apply IHc.
  - assert (Hstep : forall (f : Candidate (World := World) -> option Candidate),
        (forall c c', f c = Some c' -> snd c' = snd c) ->
        In t (map snd (omap f cands)) -> In t (map snd cands)).
    { intros f Hf. clear H. induction cands as [|c cands IHc]; cbn; [tauto|].
      destruct (f c) as [c'|] eqn:Hc; cbn.
      - intros [<-|Hin]; [left; symmetry; eauto | right; eauto].
      - intros Hin. right; eauto. }
    destruct (lookup (omap (stepLit s) cands) rest) as [r|] eqn:Hl.
    + injection H as ->. apply IH in Hl. revert Hl. apply Hstep.
      intros [[[|[l|n] p] qs] u] c' Hc; cbn in Hc; try discriminate.
      destruct (String.eqb s l); [|discriminate]. now injection Hc as <-.
    + apply IH in H. revert H. apply Hstep.
      intros [[[|[l|n] p] qs] u] c' Hc; cbn in Hc; try discriminate.
      now injection Hc as <-.
Qed.

Lemma findRoute_target (r : Router (World := World)) m p t ps :
  findRoute r m p = Some (t, ps) -> In t (map target (routes r)).
Proof.
  unfold findRoute. intros H. apply lookup_target in H.
  rewrite map_map in H. cbn in H. apply in_map_iff in H as (rt & <- & Hin).
  apply in_map. apply list_elem_of_In in Hin. apply list_elem_of_In.
  now apply list_elem_of_filter in Hin as [_ Hin].
Qed.

(** What the router answers once the route is known. *)
Lemma handle_operation (r : Router (World := World)) req w e ps :
  findRoute r (Request.method req) (Request.path req)
  = Some (Operation e, ps) ->
  handle r req w =
  let '(c, w', t) :=
    invoke e (mkContext (Some (Request.headers req)) ps
                (Request.query req) (Request.body req)) w in
  (toResponse c, w', t).
Proof. intros H. unfold handle. rewrite H. reflexivity. Qed.

Lemma handle_no_route (r : Router (World := World)) req w :
  findRoute r (Request.method req) (Request.path req) = None ->
  handle r req w = (Empty 404, w, []).
Proof. intros H. unfold handle. rewrite H. reflexivity. Qed.

(** A request that fails validation is answered before the handler. *)
Lemma invoke_invalid (e : Endpoint (World := World)) ctx issues w :
  runValidation (options e) ctx = inl issues ->
  invoke e ctx w = (Threw (APIError 400 issues), w, []).
Proof. intros H. unfold invoke. rewrite H. reflexivity. Qed.

Lemma invoke_valid (e : Endpoint (World := World)) ctx ctx' w :
  runValidation (options e) ctx = inr ctx' ->
  invoke e ctx w = handler e ctx' w.
Proof. intros H. unfold invoke. rewrite H. reflexivity. Qed.

(** The three shapes of endpoint options: a query schema, no schema, a
    body schema. *)
Lemma invoke_query (e : Endpoint (World := World)) h ps q b t w :
  Options.body (options e) = None ->
  Options.query (options e) = Some t ->
  validate (schema t) [] q = [] ->
  invoke e (mkContext h ps q b) w
  = handler e
      (mkContext h ps (match morph t with Some f => f q | None => q end) b) w.
Proof.
  intros Hb Hq Hv. unfold invoke, runValidation, parse. cbn [body query].
  rewrite Hb, Hq, Hv. reflexivity.
Qed.

Lemma invoke_plain (e : Endpoint (World := World)) ctx w :
  Options.body (options e) = None ->
  Options.query (options e) = None ->
  invoke e ctx w = handler e ctx w.
Proof.
  intros Hb Hq. unfold invoke, runValidation. rewrite Hb, Hq.
  destruct ctx; reflexivity.
Qed.

Lemma runValidation_headers o (ctx ctx' : Context) :
  runValidation o ctx = inr ctx' -> headers ctx' = headers ctx.
Proof.
  unfold runValidation. intros H.
  destruct (match Options.body o with Some t => _ | None => _ end);
    [discriminate|].
  destruct (match Options.query o with Some t => _ | None => _ end);
    [discriminate|].
  now injection H as <-.
Qed.

(** Validation does not look at the headers. *)
Lemma runValidation_failure o h h' ps q b issues :
  runValidation o (mkContext h ps q b) = inl issues ->
  runValidation o (mkContext h' ps q b) = inl issues.
Proof.
  unfold runValidation. cbn [body query].
  destruct (match Options.body o with Some t => _ | None => _ end);
    [trivial|].
  destruct (match Options.query o with Some t => _ | None => _ end);
    [trivial | discriminate].
Qed.

(** ** The tenant resolver *)

Variable options : option ShopClientOptions.

Lemma getShop_missing (h : option Headers) (w : World) :
  h ≫= (.!! "x-shop-domain") = None ->
  makeGetShop options h w
  = (Threw (Error "x-shop-domain header is required"), w, []).
Proof. intros H. unfold makeGetShop. rewrite H. reflexivity. Qed.

Lemma getShop_empty (h : option Headers) (w : World) :
  h ≫= (.!! "x-shop-domain") = Some "" ->
  makeGetShop options h w
  = (Threw (Error "x-shop-domain header is required"), w, []).
Proof. intros H. unfold makeGetShop. rewrite H. reflexivity. Qed.

Lemma getShop_present (h : option Headers) d (w : World) :
  h ≫= (.!! "x-shop-domain") = Some d -> d <> "" ->
  makeGetShop options h w = (Returned (mkShopClient d options), w, []).
Proof.
  intros H Hd. unfold makeGetShop. rewrite H.
  destruct d; [congruence | reflexivity].
Qed.

Variable delegate : External -> World -> Completion value * World.

(** Every operation of the assembled router starts with the tenant
    resolver: without the header the handler throws, and calls nothing. *)
Lemma handler_without_tenant e ctx w :
  In e (operations delegate options) ->
  headers ctx ≫= (.!! "x-shop-domain") = None ->
  handler e ctx w
  = (Threw (Error "x-shop-domain header is required"), w, []).
Proof.
  intros Hin Hh. unfold operations in Hin. cbn [map snd app storeEntries
    productEntries collectionEntries checkoutEntries In] in Hin.
  repeat (destruct Hin as [<-|Hin]; [apply bind_threw, getShop_missing, Hh|]).
  destruct Hin.
Qed.

Lemma findRoute_operation req e ps :
  findRoute (theRouter delegate options) (Request.method req)
    (Request.path req) = Some (Operation e, ps) ->
  In e (operations delegate options).
Proof.
  intros H. apply findRoute_target in H. unfold theRouter in H. cbn [routes] in H.
  rewrite map_app, map_map in H. apply in_app_or in H as [H|H].
  - apply in_map_iff in H as (e' & He & Hin). cbn in He. congruence.
  - cbn in H. destruct H as [H|[]]. discriminate.
Qed.

End Dispatch.

(* ================================================================== *)
(** * The router tests of the repository, run on the embedding *)
(* ================================================================== *)

Section Tests.

Let callEndpoint (m : Method) (p : string) (q b : value) :=
  serve Mock.delegate None (Request.mk m p Mock.tenant q b) tt.

Let answers (r : option (Response * Mock.World * list External))
    : option Response :=
  (fun x => fst (fst x)) <$> r.

Example test_missing_header :
  answers (serve Mock.delegate None
             (Request.mk GET "/info" ∅ (VObj []) VUndefined) tt)
  = Some (Empty 500).
Proof. vm_compute. reflexivity. Qed.

Example test_store_info :
  answers (callEndpoint GET "/info" (VObj []) VUndefined)
  = Some (Json (VObj [("name", VStr "Mock Store");
                      ("domain", VStr "mock.myshopify.com");
                      ("country", VStr "US")])).
Proof. vm_compute. reflexivity. Qed.

Example test_paginated_products :
  answers (callEndpoint GET "/products/paginated"
             (VObj [("page", VStr "2"); ("limit", VStr "10")]) VUndefined)
  = Some (Json (VArr [VObj [("id", VStr "1"); ("title", VStr "Product 1");
                            ("page", VNum (Int 2))]])).
Proof. vm_compute. reflexivity. Qed.

Example test_product_not_found :
  answers (callEndpoint GET "/products/missing" (VObj []) VUndefined)
  = Some (Empty 500).
Proof. vm_compute. reflexivity. Qed.

Example test_existing_product :
  answers (callEndpoint GET "/products/exists" (VObj []) VUndefined)
  = Some (Json (VObj [("id", VStr "3"); ("title", VStr "Product 3")])).
Proof. vm_compute. reflexivity. Qed.

Example test_checkout_url :
  answers (callEndpoint POST "/checkout/url" (VObj []) Mock.payload)
  = Some (Json (VObj [("url", VStr "https://checkout.url")])).
Proof. vm_compute. reflexivity. Qed.

Example test_checkout_validation :
  status <$> answers (callEndpoint POST "/checkout/url" (VObj []) Mock.badPayload)
  = Some 400%Z.
Proof. vm_compute. reflexivity. Qed.

End Tests.

(* ================================================================== *)
(** * The statements *)
(* ================================================================== *)

(** ** Requests without the tenant header *)

(** C1, as stated, fails: a request without the [x-shop-domain] header
    whose body does not validate is answered 400, not 500 (the ill-formed
    checkout payload of the tests, sent without the header). *)
Lemma C1_counterexample :
  let req := Request.mk POST "/checkout/url" ∅ (VObj []) Mock.badPayload in
  Request.headers req !! "x-shop-domain" = None /\
  (fun r => status (fst (fst r))) <$> serve Mock.delegate None req tt
  = Some 400%Z.
Proof. split; vm_compute; reflexivity. Qed.

(** C1, amended: for every request without the [x-shop-domain] header,
    the assembled router invokes no capability of the storefront client and
    leaves its state alone, and when the request matches an operation and
    passes the input validation of that operation, the response is the
    identification failure, status 500 with an empty body. *)
Theorem C1_missing_tenant_header {World : Type}
    (delegate : External -> World -> Completion value * World)
    (opts : option ShopClientOptions) router req w :
  betterShop delegate opts = Returned router ->
  Request.headers req !! "x-shop-domain" = None ->
  exists r,
    handle router req w = (r, w, []) /\
    forall e ps ctx',
      findRoute router (Request.method req) (Request.path req)
      = Some (Operation e, ps) ->
      runValidation (options e)
        (mkContext (Some (Request.headers req)) ps
           (Request.query req) (Request.body req)) = inr ctx' ->
      r = Empty 500.
Proof.
  intros Hr Hh. apply betterShop_inv in Hr. subst router.
  destruct (findRoute (theRouter delegate opts) (Request.method req)
              (Request.path req)) as [[[e|t] ps]|] eqn:Hf.
  - rewrite (handle_operation _ _ _ _ _ Hf).
    match goal with
    | |- context [invoke e ?c w] =>
        destruct (runValidation (options e) c) as [issues|ctx'] eqn:Hv
    end.
    + rewrite (invoke_invalid _ _ _ _ Hv). eexists; split; [reflexivity|].
      intros e' ps' ctx' [= <- <-]. congruence.
    + rewrite (invoke_valid _ _ _ _ Hv).
      rewrite (handler_without_tenant opts delegate e ctx' w).
      * eexists; split; [reflexivity|]. reflexivity.
      * eapply findRoute_operation, Hf.
      * rewrite (runValidation_headers _ _ _ Hv). exact Hh.
  - unfold handle. rewrite Hf. eexists; split; [reflexivity|].
    intros e ps' ctx' [=].
  - rewrite (handle_no_route _ _ _ Hf). eexists; split; [reflexivity|].
    intros e ps' ctx' [=].
Qed.

(** [GET /info] without the header: 500, and nothing is called. *)
Lemma C1_missing_tenant_header_witness :
  let req := Request.mk GET "/info" ∅ (VObj []) VUndefined in
  exists r,
    handle (theRouter Mock.delegate None) req tt = (r, tt, []) /\
    forall e ps ctx',
      findRoute (theRouter Mock.delegate None) (Request.method req)
        (Request.path req) = Some (Operation e, ps) ->
      runValidation (options e)
        (mkContext (Some (Request.headers req)) ps
           (Request.query req) (Request.body req)) = inr ctx' ->
      r = Empty 500.
Proof.
  intro req.
  apply (C1_missing_tenant_header Mock.delegate None _ req tt).
  - apply betterShop_router.
  - reflexivity.
Defined.

(** ** Validation comes before tenant resolution *)

(** C7: a request that fails the input validation of its operation and
    has no [x-shop-domain] header is answered with the validation failure,
    status 400 with the diagnostics; the handler does not run, so the
    identification failure is not raised and nothing is called.  The
    answer is the same whatever the headers are: validation is over before
    the tenant is looked for. *)
Theorem C7_validation_before_tenant {World : Type}
    (delegate : External -> World -> Completion value * World)
    (opts : option ShopClientOptions) router req w e ps issues :
  betterShop delegate opts = Returned router ->
  findRoute router (Request.method req) (Request.path req)
  = Some (Operation e, ps) ->
  runValidation (options e)
    (mkContext (Some (Request.headers req)) ps
       (Request.query req) (Request.body req)) = inl issues ->
  Request.headers req !! "x-shop-domain" = None ->
  handle router req w = (ErrorResponse 400 issues, w, []) /\
  status (fst (fst (handle router req w))) = 400%Z /\
  forall h,
    handle router
      (Request.mk (Request.method req) (Request.path req) h
         (Request.query req) (Request.body req)) w
    = (ErrorResponse 400 issues, w, []).
Proof.
  intros _ Hf Hv _.
  assert (H : forall h,
    handle router
      (Request.mk (Request.method req) (Request.path req) h
         (Request.query req) (Request.body req)) w
    = (ErrorResponse 400 issues, w, [])).
  { intros h. rewrite (handle_operation _ _ _ e ps) by exact Hf.
    cbn [Request.headers Request.query Request.body].
    rewrite (invoke_invalid _ _ issues); [reflexivity|].
    eapply runValidation_failure, Hv. }
  specialize (H (Request.headers req)) as H0.
  destruct req; cbn in *. rewrite H0. auto.
Qed.

(** The ill-formed checkout payload of the tests, sent without the
    header. *)
Lemma C7_validation_before_tenant_witness :
  let req := Request.mk POST "/checkout/url" ∅ (VObj []) Mock.badPayload in
  let issues :=
    [mkIssue [Key "email"] "an email address";
     mkIssue [Key "address"] "required"] in
  let router := theRouter Mock.delegate None in
  handle router req tt = (ErrorResponse 400 issues, tt, []) /\
  status (fst (fst (handle router req tt))) = 400%Z /\
  forall h,
    handle router
      (Request.mk (Request.method req) (Request.path req) h
         (Request.query req) (Request.body req)) tt
    = (ErrorResponse 400 issues, tt, []).
Proof.
  intros req issues router.
  apply (C7_validation_before_tenant Mock.delegate None _ req tt
           (createCheckoutUrl
              (buildCheckoutEndpoints Mock.delegate (makeGetShop None)))
           (VObj []) issues).
  - apply betterShop_router.
  - apply route_checkout; reflexivity.
  - reflexivity.
  - reflexivity.
Defined.

(** ** The routes of the assembled router *)

(** C2: the routes of the assembled router are the nineteen operations of
    the store, product, collection and checkout builders and the reference
    page; the three operations of the utilities builder exist, with the
    paths [/utils/detect-country], [/utils/store-slug] and
    [/utils/product-slug], but are not among them, and a request to any of
    the three is answered 404 whatever its method and headers. *)
Theorem C2_utility_routes_unmatched {World : Type}
    (delegate : External -> World -> Completion value * World)
    (opts : option ShopClientOptions) :
  (exists router,
     betterShop delegate opts = Returned router /\
     map identity (routes router) = routeTable ++ [(GET, "/api/reference")]) /\
  map (fun ke => identity (endpointRoute (snd ke)))
    (utilsEntries (buildUtilsEndpoints delegate (makeGetShop opts)))
  = [(GET, "/utils/detect-country"); (GET, "/utils/store-slug");
     (GET, "/utils/product-slug")] /\
  forall m p h q b w,
    In p ["/utils/detect-country"; "/utils/store-slug"; "/utils/product-slug"] ->
    serve delegate opts (Request.mk m p h q b) w = Some (Empty 404, w, []).
Proof.
  split; [|split].
  - exists (theRouter delegate opts). split; [apply betterShop_router|].
    reflexivity.
  - reflexivity.
  - intros m p h q b w Hp. rewrite serve_handle. f_equal.
    apply handle_no_route. cbn [In] in Hp.
    destruct Hp as [<-|[<-|[<-|[]]]];
      eapply route_utils; cbn [Request.path]; reflexivity.
Qed.

(** The request of the utilities test: [GET /utils/store-slug] with the
    tenant header and [domain=Shop.Example.com]. *)
Lemma C2_utility_routes_unmatched_witness :
  serve Mock.delegate None
    (Request.mk GET "/utils/store-slug" Mock.tenant
       (VObj [("domain", VStr "Shop.Example.com")]) VUndefined) tt
  = Some (Empty 404, tt, []).
Proof.
  apply (C2_utility_routes_unmatched Mock.delegate None).
  right; left; reflexivity.
Defined.

(** ** The checkout payload *)

Lemma noIssue_app l1 l2 : noIssue (l1 ++ l2) = noIssue l1 && noIssue l2.
Proof. destruct l1; reflexivity. Qed.

Lemma noIssue_string p v :
  noIssue (validate SString p v)
  = match v with VStr _ => true | _ => false end.
Proof. destruct v; reflexivity. Qed.

(** A required string field. *)
Lemma noIssue_required_string p k props :
  noIssue (match assoc k props with
           | Some x => validate SString (p ++ [Key k]) x
           | None => issue (p ++ [Key k]) "required"
           end)
  = hasString (VObj props) k.
Proof.
  cbn. destruct (assoc k props) as [x|]; [|reflexivity].
  apply noIssue_string.
Qed.

Lemma validate_object fs p props :
  validate (SObject fs) p (VObj props) = validateFields fs p props.
Proof. reflexivity. Qed.

Lemma validateFields_cons k o s rest p props :
  validateFields (FCons k o s rest) p props
  = match assoc k props with
    | Some x => validate s (p ++ [Key k]) x
    | None => if o then [] else issue (p ++ [Key k]) "required"
    end ++ validateFields rest p props.
Proof. reflexivity. Qed.

Lemma validate_item p v :
  noIssue (validate itemSchema p v) = wellFormedItem v.
Proof.
  unfold wellFormedItem. destruct v; try reflexivity.
  unfold itemSchema. rewrite validate_object, !validateFields_cons.
  rewrite !noIssue_app, !noIssue_required_string.
  cbn [validateFields noIssue]. now rewrite andb_true_r.
Qed.

Lemma validate_address p v :
  noIssue (validate addressSchema p v) = wellFormedAddress v.
Proof.
  unfold wellFormedAddress. destruct v; try reflexivity.
  unfold addressSchema. rewrite validate_object, !validateFields_cons.
  rewrite !noIssue_app, !noIssue_required_string.
  cbn [validateFields noIssue forallb]. reflexivity.
Qed.

Lemma validate_items p items : forall i,
  noIssue (concat (imap (fun j x => validate itemSchema (p ++ [Index (i + j)]) x)
                     items))
  = forallb wellFormedItem items.
Proof.
  induction items as [|x items IH]; intros i; [reflexivity|].
  cbn [imap concat forallb]. rewrite noIssue_app, validate_item. f_equal.
  rewrite <- (IH (S i)). f_equal. f_equal. apply imap_ext.
  intros j y _. cbn. now rewrite Nat.add_succ_r.
Qed.

(** The schema of the checkout endpoint accepts the payloads of that
    shape, and no other. *)
Lemma validate_checkout b :
  noIssue (validate checkoutBody [] b) = wellFormedCheckout b.
Proof.
  destruct b; try reflexivity.
  unfold checkoutBody, wellFormedCheckout.
  rewrite validate_object, !validateFields_cons, !noIssue_app.
  cbn [validateFields noIssue]. rewrite andb_true_r, andb_assoc.
  f_equal; [f_equal|].
  - destruct (assoc "email" fields) as [[]|]; try reflexivity.
    cbn. now destruct (emailMatcher s).
  - destruct (assoc "items" fields) as [[]|]; try reflexivity.
    apply (validate_items [Key "items"] items 0).
  - destruct (assoc "address" fields) as [a|]; [|reflexivity].
    apply validate_address.
Qed.

(** C3, as stated, fails: with the tenant header, a well-formed email and
    address, and an empty [items] array, the request is answered 200 and
    the checkout capability is invoked. *)
Lemma C3_counterexample :
  let payload :=
    VObj [("email", VStr "test@example.com"); ("items", VArr []);
          ("address", Mock.address)] in
  serve Mock.delegate None
    (Request.mk POST "/checkout/url" Mock.tenant (VObj []) payload) tt
  = Some (Json (VObj [("url", VStr "https://checkout.url")]), tt,
          [Client (mkShopClient "mock.myshopify.com" None)
             (CheckoutCreateUrl payload)]).
Proof. vm_compute. reflexivity. Qed.

(** C3, amended: a [POST /checkout/url] request whose body is not of the
    payload shape (a required field is missing or is not what the schema
    asks for: the email is not an email-format string, [items] is not an
    array of items, the address lacks one of its strings) is answered 400
    with diagnostics, and nothing is called; an [items] array may be
    empty. *)
Theorem C3_checkout_validation {World : Type}
    (delegate : External -> World -> Completion value * World)
    (opts : option ShopClientOptions) router req w :
  betterShop delegate opts = Returned router ->
  Request.method req = POST ->
  splitPath (Request.path req) = ["checkout"; "url"] ->
  wellFormedCheckout (Request.body req) = false ->
  exists issues,
    issues <> [] /\ handle router req w = (ErrorResponse 400 issues, w, []).
Proof.
  intros Hr Hm Hp Hb. apply betterShop_inv in Hr. subst router.
  rewrite (handle_operation _ _ _ _ _ (route_checkout delegate opts req Hm Hp)).
  rewrite <- validate_checkout in Hb.
  destruct (validate checkoutBody [] (Request.body req)) as [|i issues] eqn:Hv;
    [discriminate|].
  exists (i :: issues). split; [discriminate|].
  rewrite (invoke_invalid _ _ (i :: issues)); [reflexivity|].
  unfold runValidation, parse. cbn -[validate checkoutBody].
  rewrite Hv. reflexivity.
Qed.

(** The ill-formed payload of the tests. *)
Lemma C3_checkout_validation_witness :
  exists issues,
    issues <> [] /\
    handle (theRouter Mock.delegate None)
      (Request.mk POST "/checkout/url" Mock.tenant (VObj []) Mock.badPayload) tt
    = (ErrorResponse 400 issues, tt, []).
Proof.
  apply (C3_checkout_validation Mock.delegate None).
  - apply betterShop_router.
  - reflexivity.
  - reflexivity.
  - reflexivity.
Defined.

(** ** Finding by handle *)

Section FindByHandle.

Context {World : Type}.
Variable delegate : External -> World -> Completion value * World.
Variable opts : option ShopClientOptions.

Local Abbreviation getShop := (makeGetShop (World := World) opts).

(** What a handler that resolves the tenant and then runs [k] does, once
    the header is known. *)
Lemma with_tenant {A} (k : ShopClient -> M A) (h : option Headers) d w :
  h ≫= (.!! "x-shop-domain") = Some d -> d <> "" ->
  bind (getShop h) k w = k (mkShopClient d opts) w.
Proof. intros H Hd. apply bind_returned. now apply getShop_present. Qed.

(** A capability call followed by [k]. *)
Lemma bind_call {A} (c : External) (k : value -> M A) (w : World) :
  bind (call delegate c) k w
  = match delegate c w with
    | (Returned v, w1) => let '(r, w2, t) := k v w1 in (r, w2, c :: t)
    | (Threw f, w1) => (Threw f, w1, [c])
    end.
Proof.
  unfold bind, call. destruct (delegate c w) as [[v|f] w1]; reflexivity.
Qed.

Lemma getProduct_handler ctx d w :
  headers ctx ≫= (.!! "x-shop-domain") = Some d -> d <> "" ->
  handler (getProduct (buildProductEndpoints delegate getShop)) ctx w
  = let c := findProduct (mkShopClient d opts) ctx in
    match delegate c w with
    | (Returned v, w1) =>
        (if truthy v then Returned v else Threw (Error "Product not found"),
         w1, [c])
    | (Threw f, w1) => (Threw f, w1, [c])
    end.
Proof.
  intros H Hd. cbn [handler getProduct buildProductEndpoints].
  rewrite (with_tenant _ _ d w H Hd), bind_call. cbn zeta.
  unfold findProduct, obj.
  destruct (delegate _ w) as [[v|f] w1]; [|reflexivity].
  destruct (truthy v); reflexivity.
Qed.

Lemma getCollection_handler ctx d w :
  headers ctx ≫= (.!! "x-shop-domain") = Some d -> d <> "" ->
  handler (getCollection (buildCollectionEndpoints delegate getShop)) ctx w
  = let c := findCollection (mkShopClient d opts) ctx in
    match delegate c w with
    | (Returned v, w1) =>
        (if truthy v then Returned v else Threw (Error "Collection not found"),
         w1, [c])
    | (Threw f, w1) => (Threw f, w1, [c])
    end.
Proof.
  intros H Hd. cbn [handler getCollection buildCollectionEndpoints].
  rewrite (with_tenant _ _ d w H Hd), bind_call. cbn zeta.
  unfold findCollection.
  destruct (delegate _ w) as [[v|f] w1]; [|reflexivity].
  destruct (truthy v); reflexivity.
Qed.

(** Whatever the headers, a find-by-handle handler returns what the
    capability returned, and that is not a falsy value. *)
Lemma getProduct_returns ctx w v w1 t :
  handler (getProduct (buildProductEndpoints delegate getShop)) ctx w
  = (Returned v, w1, t) -> truthy v = true.
Proof.
  destruct (headers ctx ≫= (.!! "x-shop-domain")) as [d|] eqn:H.
  - destruct (decide (d = "")) as [->|Hd].
    + cbn [handler getProduct buildProductEndpoints].
      rewrite (bind_threw _ _ _ _ _ _ (getShop_empty opts _ w H)). discriminate.
    + rewrite (getProduct_handler _ _ _ H Hd). cbn zeta.
      destruct (delegate _ w) as [[v'|f] w']; [|discriminate].
      destruct (truthy v') eqn:Hv; [|discriminate]. congruence.
  - cbn [handler getProduct buildProductEndpoints].
    rewrite (bind_threw _ _ _ _ _ _ (getShop_missing opts _ w H)). discriminate.
Qed.

Lemma getCollection_returns ctx w v w1 t :
  handler (getCollection (buildCollectionEndpoints delegate getShop)) ctx w
  = (Returned v, w1, t) -> truthy v = true.
Proof.
  destruct (headers ctx ≫= (.!! "x-shop-domain")) as [d|] eqn:H.
  - destruct (decide (d = "")) as [->|Hd].
    + cbn [handler getCollection buildCollectionEndpoints].
      rewrite (bind_threw _ _ _ _ _ _ (getShop_empty opts _ w H)). discriminate.
    + rewrite (getCollection_handler _ _ _ H Hd). cbn zeta.
      destruct (delegate _ w) as [[v'|f] w']; [|discriminate].
      destruct (truthy v') eqn:Hv; [|discriminate]. congruence.
  - cbn [handler getCollection buildCollectionEndpoints].
    rewrite (bind_threw _ _ _ _ _ _ (getShop_missing opts _ w H)). discriminate.
Qed.

(** A response of the router to an operation whose handler returns truthy
    values only is not a 200 with a falsy body. *)
Lemma handle_never_falsy (r : Router (World := World)) req w e ps :
  findRoute r (Request.method req) (Request.path req)
  = Some (Operation e, ps) ->
  (forall ctx w0 v w1 t,
     handler e ctx w0 = (Returned v, w1, t) -> truthy v = true) ->
  forall v, fst (fst (handle r req w)) = Json v -> truthy v = true.
Proof.
  intros Hf He v. rewrite (handle_operation _ _ _ _ _ Hf).
  unfold invoke. destruct (runValidation _ _) as [issues|ctx'].
  - cbn. discriminate.
  - destruct (handler e ctx' w) as [[[v'|[code issues|msg]] w1] t] eqn:Hh;
      cbn; try discriminate.
    intros [= <-]. eapply He, Hh.
Qed.

End FindByHandle.

(** C4: on [GET /products/:handle] and [GET /collections/:handle], when
    the find capability of the client returns an absent result (null or
    undefined) for the handle, the handler throws its "not found" error and
    the response is 500; and whatever the request, the response of these
    two operations is never a 200 whose body is null, undefined or any
    other falsy value. *)
Theorem C4_find_by_handle_not_found {World : Type}
    (delegate : External -> World -> Completion value * World)
    (opts : option ShopClientOptions) router req w h :
  betterShop delegate opts = Returned router ->
  Request.method req = GET ->
  let getShop := makeGetShop opts in
  let shopOf d := mkShopClient d opts in
  let ctx :=
    mkContext (Some (Request.headers req)) (VObj [("handle", VStr h)])
      (Request.query req) (Request.body req) in
  (splitPath (Request.path req) = ["products"; h] ->
   ~ In h ["all"; "paginated"; "showcased"; "filters"] ->
   (forall d v w1,
      Request.headers req !! "x-shop-domain" = Some d -> d <> "" ->
      validate (schema currencyQuery) [] (Request.query req) = [] ->
      delegate (findProduct (shopOf d) ctx) w = (Returned v, w1) ->
      absent v ->
      invoke (getProduct (buildProductEndpoints delegate getShop)) ctx w
      = (Threw (Error "Product not found"), w1, [findProduct (shopOf d) ctx])
      /\ handle router req w = (Empty 500, w1, [findProduct (shopOf d) ctx]))
   /\ (forall v, fst (fst (handle router req w)) = Json v -> truthy v = true))
  /\
  (splitPath (Request.path req) = ["collections"; h] ->
   ~ In h ["all"; "paginated"; "showcased"] ->
   (forall d v w1,
      Request.headers req !! "x-shop-domain" = Some d -> d <> "" ->
      delegate (findCollection (shopOf d) ctx) w = (Returned v, w1) ->
      absent v ->
      invoke (getCollection (buildCollectionEndpoints delegate getShop)) ctx w
      = (Threw (Error "Collection not found"), w1,
         [findCollection (shopOf d) ctx])
      /\ handle router req w = (Empty 500, w1, [findCollection (shopOf d) ctx]))
   /\ (forall v, fst (fst (handle router req w)) = Json v -> truthy v = true)).
Proof.
  intros Hr Hm getShop shopOf ctx. apply betterShop_inv in Hr.
  subst router getShop. split.
  - intros Hp Hh.
    assert (Hf := route_product delegate opts req h Hm Hp).
    cbn [In] in Hh.
    specialize (Hf ltac:(intro; subst; tauto) ltac:(intro; subst; tauto)
      ltac:(intro; subst; tauto) ltac:(intro; subst; tauto)).
    split.
    + intros d v w1 Hd Hne Hq Hc Hv.
      assert (Hi : invoke
                     (getProduct (buildProductEndpoints delegate (makeGetShop opts)))
                     ctx w
                   = (Threw (Error "Product not found"), w1,
                      [findProduct (shopOf d) ctx])).
      { unfold ctx at 1.
        rewrite (invoke_query (getProduct (buildProductEndpoints delegate _))
                   _ _ _ _ currencyQuery w eq_refl eq_refl Hq).
        change (mkContext _ _ _ _) with ctx.
        rewrite (getProduct_handler delegate opts ctx d w Hd Hne). cbn zeta.
        fold (shopOf d). rewrite Hc.
        destruct Hv as [-> | ->]; reflexivity. }
      split; [exact Hi|].
      rewrite (handle_operation _ _ _ _ _ Hf). fold ctx.
      rewrite Hi. reflexivity.
    + eapply handle_never_falsy; [exact Hf|].
      intros c w0 v w1 t. apply getProduct_returns.
  - intros Hp Hh.
    assert (Hf := route_collection delegate opts req h Hm Hp).
    cbn [In] in Hh.
    specialize (Hf ltac:(intro; subst; tauto) ltac:(intro; subst; tauto)
      ltac:(intro; subst; tauto)).
    split.
    + intros d v w1 Hd Hne Hc Hv.
      assert (Hi : invoke
                     (getCollection
                        (buildCollectionEndpoints delegate (makeGetShop opts)))
                     ctx w
                   = (Threw (Error "Collection not found"), w1,
                      [findCollection (shopOf d) ctx])).
      { rewrite (invoke_plain
                   (getCollection (buildCollectionEndpoints delegate _))
                   ctx w eq_refl eq_refl).
        rewrite (getCollection_handler delegate opts ctx d w Hd Hne). cbn zeta.
        fold (shopOf d). rewrite Hc.
        destruct Hv as [-> | ->]; reflexivity. }
      split; [exact Hi|].
      rewrite (handle_operation _ _ _ _ _ Hf). fold ctx.
      rewrite Hi. reflexivity.
    + eapply handle_never_falsy; [exact Hf|].
      intros c w0 v w1 t. apply getCollection_returns.
Qed.

(** The products and collections named [missing] of the mocked client. *)
Lemma C4_find_by_handle_not_found_witness :
  let product := Request.mk GET "/products/missing" Mock.tenant (VObj []) VUndefined in
  let collection :=
    Request.mk GET "/collections/missing" Mock.tenant (VObj []) VUndefined in
  let shop := mkShopClient "mock.myshopify.com" None in
  handle (theRouter Mock.delegate None) product tt
  = (Empty 500, tt,
     [Client shop
        (ProductsFind (VStr "missing") (VObj [("currency", VUndefined)]))])
  /\
  handle (theRouter Mock.delegate None) collection tt
  = (Empty 500, tt, [Client shop (CollectionsFind (VStr "missing"))]).
Proof.
  intros product collection shop. split.
  - destruct (C4_find_by_handle_not_found Mock.delegate None _ product tt
                "missing" (betterShop_router _ _) eq_refl) as [H _].
    destruct (H eq_refl) as [Hnf _].
    { intros [E|[E|[E|[E|[]]]]]; discriminate E. }
    apply (Hnf "mock.myshopify.com" VNull tt);
      [reflexivity | discriminate | reflexivity | reflexivity
      | left; reflexivity].
  - destruct (C4_find_by_handle_not_found Mock.delegate None _ collection tt
                "missing" (betterShop_router _ _) eq_refl) as [_ H].
    destruct (H eq_refl) as [Hnf _].
    { intros [E|[E|[E|[]]]]; discriminate E. }
    apply (Hnf "mock.myshopify.com" VNull tt);
      [reflexivity | discriminate | reflexivity | left; reflexivity].
Defined.

(** ** Numeric strings *)

(** ** Characters *)

Ltac each_character c := destruct c as [[] [] [] [] [] [] [] []].

Ltac found := repeat first [left; reflexivity | right].

(** The values of given digits. *)
Ltac digits :=
  repeat (apply List.Forall2_cons; [cbn; found|]); apply List.Forall2_nil.

Ltac listed H :=
  cbn in H;
  repeat (destruct H as [H|H]; [injection H as <- <-; reflexivity|]);
  destruct H.

Lemma whiteSpace_spec c : isWhiteSpace c = true <-> In c whiteSpace.
Proof.
  split.
  - intros H. each_character c; vm_compute in H;
      first [discriminate H | cbn; found].
  - intros H. cbn in H.
    repeat (destruct H as [<-|H]; [reflexivity|]). destruct H.
Qed.

Lemma digitVal_spec c d : digitVal c = Some d <-> In (c, d) decimalDigits.
Proof.
  split.
  - intros H. each_character c; vm_compute in H;
      first [discriminate H | injection H as <-; cbn; found].
  - intros H. listed H.
Qed.

Lemma hexVal_spec c d : hexVal c = Some d <-> In (c, d) hexDigits.
Proof.
  split.
  - intros H. each_character c; vm_compute in H;
      first [discriminate H | injection H as <-; cbn; found].
  - intros H. listed H.
Qed.

Lemma octVal_spec c d : octVal c = Some d <-> In (c, d) octalDigits.
Proof.
  split.
  - intros H. each_character c; vm_compute in H;
      first [discriminate H | injection H as <-; cbn; found].
  - intros H. listed H.
Qed.

Lemma binVal_spec c d : binVal c = Some d <-> In (c, d) binaryDigits.
Proof.
  split.
  - intros H. each_character c; vm_compute in H;
      first [discriminate H | injection H as <-; cbn; found].
  - intros H. listed H.
Qed.

(** ** The nearest magnitude *)

Section Rounding.

Local Open Scope N_scope.

Lemma nearest_exact a : a < 2 ^ 53 -> nearest a a.
Proof.
  intros Ha. split.
  - exists a, 0. rewrite N.pow_0_r. lia.
  - intros v' _ Hne. left. unfold distance. lia.
Qed.

Lemma pow2_pos k : 0 < 2 ^ k.
Proof. apply N.neq_0_lt_0, N.pow_nonzero. discriminate. Qed.

Lemma pow2_split k e : e <= k -> 2 ^ k = 2 ^ (k - e) * 2 ^ e.
Proof. intros H. rewrite <- N.pow_add_r. f_equal. lia. Qed.

Lemma pow2_succ e : 1 <= e -> 2 ^ e = 2 * 2 ^ (e - 1).
Proof.
  intros H. rewrite <- N.pow_succ_r by lia. f_equal. lia.
Qed.

(** From [2^52 × 2^e] on, the magnitudes are multiples of [2^e]. *)
Lemma multiple_of_power q k e :
  q < 2 ^ 53 -> 2 ^ 52 * 2 ^ e <= q * 2 ^ k ->
  exists t, q * 2 ^ k = t * 2 ^ e.
Proof.
  intros Hq Hle. destruct (N.le_gt_cases e k) as [H|H].
  - exists (q * 2 ^ (k - e)). rewrite (pow2_split k e H). lia.
  - exfalso.
    assert (H1 : 2 * 2 ^ k <= 2 ^ e).
    { rewrite <- N.pow_succ_r by lia. apply N.pow_le_mono_r; lia. }
    pose proof (pow2_pos k) as Hk.
    assert (H2 : q * 2 ^ k < 2 ^ 53 * 2 ^ k)
      by (apply N.mul_lt_mono_pos_r; assumption).
    assert (H3 : 2 ^ 53 * 2 ^ k <= 2 ^ 52 * 2 ^ e).
    { change (2 ^ 53) with (2 ^ 52 * 2). rewrite <- N.mul_assoc.
      apply N.mul_le_mono_l. exact H1. }
    lia.
Qed.

(** Rounding in a binade: [a] is [q × P + r] with [q] on 53 bits and
    [r < P = 2^e]; the nearest magnitude is [q × P] or [(q + 1) × P]. *)
Lemma nearest_in_binade e q r a q' :
  1 <= e -> a = q * 2 ^ e + r -> r < 2 ^ e -> 2 ^ 52 <= q < 2 ^ 53 ->
  q' = (if r <? 2 ^ (e - 1) then q
        else if 2 ^ (e - 1) <? r then q + 1
        else if N.even q then q else q + 1) ->
  nearest a (q' * 2 ^ e).
Proof.
  intros He Ha Hr Hq Hq'.
  pose proof (pow2_succ e He) as HP.
  pose proof (pow2_pos (e - 1)) as Hhalf.
  set (P := 2 ^ e) in *. set (half := 2 ^ (e - 1)) in *.
  assert (Hq'le : q' = q \/ q' = q + 1).
  { subst q'. destruct (r <? half); [now left|].
    destruct (half <? r); [now right|]. destruct (N.even q); tauto. }
  assert (Hbin : q' < 2 ^ 53 \/ q' = 2 ^ 53) by lia.
  assert (Heven : r = half -> evenSignificand (q' * P)).
  { intros Er.
    assert (E : N.even q' = true).
    { subst q'. rewrite Er, N.ltb_irrefl.
      destruct (N.even q) eqn:Eq; [exact Eq|].
      replace (q + 1) with (N.succ q) by lia.
      rewrite N.even_succ, <- N.negb_even, Eq. reflexivity. }
    destruct Hbin as [Hlt|Heq].
    - exists q', e. repeat split; [lia | exact Hlt | exact E].
    - exists (2 ^ 52), (e + 1). repeat split; try reflexivity; try lia.
      rewrite Heq. replace (e + 1) with (N.succ e) by lia.
      rewrite N.pow_succ_r by lia. unfold P.
      change (2 ^ 53) with (2 ^ 52 * 2). lia. }
  split.
  - destruct Hbin as [Hlt|Heq].
    + exists q', e. split; [reflexivity | exact Hlt].
    + exists (2 ^ 52), (e + 1). split; [|reflexivity].
      rewrite Heq. replace (e + 1) with (N.succ e) by lia.
      rewrite N.pow_succ_r by lia. unfold P.
      change (2 ^ 53) with (2 ^ 52 * 2). lia.
  - intros v' [q2 [k [-> Hq2]]] Hne.
    set (A := q * P) in *. set (B := q2 * 2 ^ k) in *.
    assert (HB : B < A \/ B = A \/ B = A + P \/ A + 2 * P <= B).
    { destruct (N.le_gt_cases (2 ^ 52 * P) B) as [Hge|Hlt].
      - destruct (multiple_of_power q2 k e Hq2 Hge) as [t Ht].
        fold B in Ht. fold P in Ht. rewrite Ht. unfold A.
        destruct (N.lt_trichotomy t q) as [H|[H|H]].
        + left. apply N.mul_lt_mono_pos_r; [unfold P; apply pow2_pos | exact H].
        + right; left. now subst t.
        + destruct (N.eq_dec t (q + 1)) as [->|Hne'].
          * right; right; left. lia.
          * right; right; right.
            assert (H2 : (q + 2) * P <= t * P)
              by (apply N.mul_le_mono_r; lia).
            lia.
      - left. assert (H2 : 2 ^ 52 * P <= q * P)
          by (apply N.mul_le_mono_r; lia).
        unfold A. lia. }
    assert (Hv : q' * P = A \/ q' * P = A + P).
    { destruct Hq'le as [->| ->]; [now left | right; unfold A; lia]. }
    assert (Hgoal : distance a (q' * P) < distance a B
                    \/ (distance a (q' * P) = distance a B /\ r = half)).
    { unfold distance. subst a. fold A.
      destruct (N.ltb_spec r half) as [H1|H1].
      - subst q'. fold A in Hne. lia.
      - destruct (N.ltb_spec half r) as [H2|H2].
        + subst q'. replace ((q + 1) * P) with (A + P) in * by (unfold A; lia).
          lia.
        + destruct (N.even q).
          * subst q'. fold A in Hne. lia.
          * subst q'.
            replace ((q + 1) * P) with (A + P) in * by (unfold A; lia).
            lia. }
    destruct Hgoal as [H|[H Er]]; [now left | right].
    split; [exact H | exact (Heven Er)].
Qed.

Lemma pow2_53_1024 : 2 ^ 53 < 2 ^ 1024.
Proof. apply N.pow_lt_mono_r; lia. Qed.

(** [roundInt] rounds to the nearest magnitude. *)
Lemma roundInt_nearest neg a :
  exists v,
    nearest a v /\
    roundInt neg a
    = if v <? 2 ^ 1024 then Int (if neg then - Z.of_N v else Z.of_N v)
      else Infinity neg.
Proof.
  unfold roundInt. destruct (N.ltb_spec a (2 ^ 53)) as [Ha|Ha].
  - exists a. split; [now apply nearest_exact|].
    pose proof pow2_53_1024 as H.
    destruct (N.ltb_spec a (2 ^ 1024)) as [_|H']; [reflexivity | lia].
  - set (L := N.log2 a).
    assert (Hpos : 0 < a) by (pose proof (pow2_pos 53); lia).
    pose proof (N.log2_spec a Hpos) as [Hlo Hhi]. fold L in Hlo, Hhi.
    assert (HL : 53 <= L).
    { unfold L. rewrite <- (N.log2_pow2 53) by lia.
      now apply N.log2_le_mono. }
    set (e := L - 52) in *.
    assert (He : 1 <= e) by lia.
    pose proof (pow2_pos e) as HP.
    assert (E1 : 2 ^ L = 2 ^ 52 * 2 ^ e).
    { rewrite <- N.pow_add_r. f_equal. lia. }
    assert (E2 : 2 ^ N.succ L = 2 ^ 53 * 2 ^ e).
    { rewrite <- N.pow_add_r. f_equal. lia. }
    rewrite !N.shiftl_mul_pow2, !N.shiftr_div_pow2, N.mul_1_l.
    assert (Hdiv : a = 2 ^ e * (a / 2 ^ e) + a mod 2 ^ e)
      by (apply N.div_mod; lia).
    assert (Hmod : a mod 2 ^ e < 2 ^ e) by (apply N.mod_lt; lia).
    assert (Hq : 2 ^ 52 <= a / 2 ^ e < 2 ^ 53).
    { split.
      - apply N.div_le_lower_bound; [lia|]. lia.
      - apply N.Div0.div_lt_upper_bound. lia. }
    remember (a / 2 ^ e) as q eqn:Eq. remember (a mod 2 ^ e) as m eqn:Em.
    set (r := a - q * 2 ^ e).
    match goal with
    | |- context [(?x * 2 ^ e <? 2 ^ 1024)] => set (q' := x)
    end.
    exists (q' * 2 ^ e). split; [|reflexivity].
    apply (nearest_in_binade e q r a q' He);
      [unfold r; lia | unfold r; lia | exact Hq | reflexivity].
Qed.

(** There is one nearest magnitude. *)
Lemma nearest_between a v v' :
  nearest a v -> nearest a v' -> v < v' -> False.
Proof.
  intros [Hb H1] [Hb' H2] Hlt.
  destruct (H1 v' Hb' ltac:(lia)) as [D1|[D1 E1]];
    destruct (H2 v Hb ltac:(lia)) as [D2|[D2 E2]]; try lia.
  assert (Hmid : v < a /\ a < v' /\ a - v = v' - a)
    by (unfold distance in *; lia).
  destruct E1 as (q & k & [-> Hq] & Eq).
  destruct E2 as (q' & k' & [-> Hq'] & Eq').
  apply N.even_spec in Eq as [j ->]. apply N.even_spec in Eq' as [j' ->].
  pose proof (pow2_pos k) as Pk. pose proof (pow2_pos k') as Pk'.
  (* the magnitude above [v] *)
  assert (U : 2 * j' * 2 ^ k' <= 2 * j * 2 ^ k + 2 ^ k).
  { destruct (N.le_gt_cases (2 * j' * 2 ^ k') (2 * j * 2 ^ k + 2 ^ k))
      as [H|H]; [exact H | exfalso].
    assert (Hu : binary64 ((2 * j + 1) * 2 ^ k)).
    { exists (2 * j + 1), k. split; [reflexivity|].
      change (2 ^ 53) with (2 * 2 ^ 52) in *. lia. }
    destruct (H1 _ Hu ltac:(lia)) as [D|[D _]]; unfold distance in *; lia. }
  (* the magnitude below [v'] *)
  assert (U' : 2 * j' * 2 ^ k' <= 2 * j * 2 ^ k + 2 ^ k').
  { destruct (N.le_gt_cases (2 * j' * 2 ^ k') (2 * j * 2 ^ k + 2 ^ k'))
      as [H|H]; [exact H | exfalso].
    assert (Hj' : 1 <= j') by (change (2 ^ 52) with (2 * 2 ^ 51) in *; lia).
    assert (Hu : binary64 ((2 * j' - 1) * 2 ^ k')).
    { exists (2 * j' - 1), k'. split; [reflexivity | lia]. }
    assert (Eu : (2 * j' - 1) * 2 ^ k' = 2 * j' * 2 ^ k' - 2 ^ k') by nia.
    destruct (H2 _ Hu ltac:(nia)) as [D|[D _]];
      unfold distance in *; rewrite Eu in *; nia. }
  destruct (N.le_gt_cases k k') as [Hk|Hk].
  - rewrite (pow2_split k' k Hk) in *.
    set (X := 2 ^ (k' - k)) in *. set (P := 2 ^ k) in *.
    assert (HX : 2 * j' * X * P <= (2 * j + 1) * P) by lia.
    assert (HX' : 2 * j * P < 2 * j' * X * P) by lia.
    assert (G1 : 2 * j' * X <= 2 * j + 1)
      by (apply (N.mul_le_mono_pos_r _ _ P Pk); lia).
    assert (G2 : 2 * j < 2 * j' * X)
      by (apply (N.mul_lt_mono_pos_r P); [exact Pk | lia]).
    lia.
  - assert (Hk' : k' + 1 <= k) by lia.
    rewrite (pow2_split k (k' + 1) Hk') in *.
    replace (2 ^ (k' + 1)) with (2 * 2 ^ k') in *
      by (replace (k' + 1) with (N.succ k') by lia;
          now rewrite N.pow_succ_r by lia).
    set (X := 2 ^ (k - (k' + 1))) in *. set (P := 2 ^ k') in *.
    assert (HX : 2 * j' * P <= (2 * j * X * 2 + 1) * P) by lia.
    assert (HX' : (2 * j * X * 2) * P < 2 * j' * P) by lia.
    assert (G1 : 2 * j' <= 2 * j * X * 2 + 1)
      by (apply (N.mul_le_mono_pos_r _ _ P Pk'); lia).
    assert (G2 : 2 * j * X * 2 < 2 * j')
      by (apply (N.mul_lt_mono_pos_r P); [exact Pk' | lia]).
    lia.
Qed.

Lemma nearest_unique a v v' : nearest a v -> nearest a v' -> v = v'.
Proof.
  intros H H'. destruct (N.lt_trichotomy v v') as [Hlt|[E|Hlt]];
    [exfalso | exact E | exfalso].
  - exact (nearest_between a v v' H H' Hlt).
  - exact (nearest_between a v' v H' H Hlt).
Qed.

(** ** The number of a quantity *)

Lemma stripZeros_spec fuel : forall m k,
  let '(m', k') := stripZeros fuel m k in
  m = m' * 10 ^ (k - k') /\ k' <= k
  /\ (k' = 0 \/ m' mod 10 <> 0 \/ k - k' = N.of_nat fuel).
Proof.
  induction fuel as [|fuel IH]; intros m k; cbn [stripZeros].
  - rewrite N.sub_diag, N.pow_0_r. repeat split; try lia.
  - destruct (N.eqb_spec k 0) as [->|Hk].
    + rewrite N.sub_diag, N.pow_0_r. repeat split; try lia.
    + destruct (N.eqb_spec (m mod 10) 0) as [Hm|Hm].
      * specialize (IH (m / 10) (k - 1)).
        destruct (stripZeros fuel (m / 10) (k - 1)) as [m' k'].
        destruct IH as (E & Hle & H).
        assert (Em : m = 10 * (m / 10)).
        { pose proof (N.div_mod m 10 ltac:(lia)) as D. rewrite Hm in D. lia. }
        repeat split; [|lia|lia].
        replace (k - k') with (N.succ (k - 1 - k')) by lia.
        rewrite N.pow_succ_r by lia. rewrite Em at 1. rewrite E at 1. lia.
      * rewrite N.sub_diag, N.pow_0_r. repeat split; try lia.
Qed.

Lemma roundInt_represents neg m e a :
  m <> 0 -> integerValue m e a ->
  Represents (Finite neg m e) (roundInt neg a).
Proof.
  intros Hm Ha. destruct (roundInt_nearest neg a) as (v & Hv & ->).
  destruct (N.ltb_spec v (2 ^ 1024)) as [H|H].
  - now apply represents_integer with (a := a).
  - now apply represents_overflow with (a := a) (v := v).
Qed.

(** [mkDecimal neg m e] stands for [±m × 10^e]. *)
Lemma mkDecimal_represents neg m e :
  Represents (Finite neg m e) (mkDecimal neg m e).
Proof.
  unfold mkDecimal. destruct (N.eqb_spec m 0) as [->|Hm].
  - apply represents_zero.
  - destruct (Z.leb_spec 0 e) as [He|He].
    + apply roundInt_represents; [exact Hm|]. left. split; [exact He | reflexivity].
    + pose proof (stripZeros_spec (Z.to_nat (- e)) m (Z.to_N (- e))) as H.
      destruct (stripZeros _ m _) as [m' k'].
      destruct H as (E & Hle & H).
      assert (Hm' : m' <> 0) by (intros ->; apply Hm; rewrite E; lia).
      destruct k' as [|pk].
      * assert (Ha : integerValue m e m').
        { right. split; [exact He|]. rewrite N.sub_0_r in E. exact E. }
        destruct m'; now apply roundInt_represents.
      * destruct m' as [|pm]; [contradiction|].
        apply represents_fraction; [exact Hm | exact He | |].
        -- rewrite E at 1. rewrite <- N.mul_assoc, <- N.pow_add_r.
           f_equal. f_equal. lia.
        -- destruct H as [H|[H|H]]; [discriminate | exact H | exfalso; lia].
Qed.

Lemma integerValue_unique m e a a' :
  integerValue m e a -> integerValue m e a' -> a = a'.
Proof.
  intros [[H ->]|[H E]] [[H' ->]|[H' E']]; try lia.
  rewrite E in E'. apply N.mul_cancel_r in E'; [exact E'|].
  apply N.pow_nonzero. discriminate.
Qed.

Lemma not_multiple_of_ten x k : (x * 10 ^ Npos k) mod 10 = 0.
Proof.
  replace (Npos k) with (N.succ (N.pred (Npos k))) by lia.
  rewrite N.pow_succ_r by lia.
  replace (x * (10 * 10 ^ N.pred (N.pos k)))
    with (x * 10 ^ N.pred (N.pos k) * 10) by lia.
  apply N.Div0.mod_mul.
Qed.

(** A quantity has one number. *)
Lemma Represents_unique q n n' : Represents q n -> Represents q n' -> n = n'.
Proof.
  intros H H'.
  destruct H as [neg|neg e|neg m e a v Hm Ha Hv Hlt|neg m e a v Hm Ha Hv Hge
                |neg m e pm pk Hm He E Hpm];
    inversion H' as [|? ?|? ? ? a' v' Hm' Ha' Hv' Hlt'|? ? ? a' v' Hm' Ha' Hv' Hge'
                    |? ? ? pm' pk' Hm' He' E' Hpm']; subst;
    try reflexivity; try contradiction.
  - rewrite (integerValue_unique _ _ _ _ Ha' Ha) in Hv'.
    now rewrite (nearest_unique _ _ _ Hv Hv').
  - rewrite (integerValue_unique _ _ _ _ Ha' Ha) in Hv'.
    rewrite (nearest_unique _ _ _ Hv Hv') in Hlt. lia.
  - exfalso. destruct Ha as [[H _]|[_ Ea]]; [lia|].
    rewrite Ea in E'. apply Hpm'.
    assert (E2 : N.pos pm' = a * 10 ^ N.pos pk').
    { apply (N.mul_cancel_r _ _ (10 ^ Z.to_N (- e)));
        [apply N.pow_nonzero; discriminate | lia]. }
    rewrite E2. apply not_multiple_of_ten.
  - rewrite (integerValue_unique _ _ _ _ Ha' Ha) in Hv'.
    rewrite (nearest_unique _ _ _ Hv Hv') in Hge. lia.
  - exfalso. destruct Ha as [[H _]|[_ Ea]]; [lia|].
    rewrite Ea in E'. apply Hpm'.
    assert (E2 : N.pos pm' = a * 10 ^ N.pos pk').
    { apply (N.mul_cancel_r _ _ (10 ^ Z.to_N (- e)));
        [apply N.pow_nonzero; discriminate | lia]. }
    rewrite E2. apply not_multiple_of_ten.
  - exfalso. destruct Ha' as [[H _]|[_ Ea]]; [lia|].
    rewrite Ea in E. apply Hpm.
    assert (E2 : N.pos pm = a' * 10 ^ N.pos pk).
    { apply (N.mul_cancel_r _ _ (10 ^ Z.to_N (- e)));
        [apply N.pow_nonzero; discriminate | lia]. }
    rewrite E2. apply not_multiple_of_ten.
  - exfalso. destruct Ha' as [[H _]|[_ Ea]]; [lia|].
    rewrite Ea in E. apply Hpm.
    assert (E2 : N.pos pm = a' * 10 ^ N.pos pk).
    { apply (N.mul_cancel_r _ _ (10 ^ Z.to_N (- e)));
        [apply N.pow_nonzero; discriminate | lia]. }
    rewrite E2. apply not_multiple_of_ten.
  - (* two decimals of one quantity *)
    assert (G : forall (p p' k k' : positive),
              m * 10 ^ N.pos k = N.pos p * 10 ^ Z.to_N (- e) ->
              m * 10 ^ N.pos k' = N.pos p' * 10 ^ Z.to_N (- e) ->
              N.pos p' mod 10 <> 0 -> (k <= k')%positive -> k = k' /\ p = p').
    { intros p p' k k' F F' Hp Hk.
      destruct (Pos.eq_dec k k') as [->|Hne].
      - split; [reflexivity|]. rewrite F in F'.
        apply N.mul_cancel_r in F'; [now injection F' |].
        apply N.pow_nonzero. discriminate.
      - exfalso. apply Hp.
        assert (Hd : exists j, N.pos k' = N.pos k + N.pos j).
        { exists (k' - k)%positive. lia. }
        destruct Hd as [j Hj]. rewrite Hj, N.pow_add_r in F'.
        assert (F2 : N.pos p' = N.pos p * 10 ^ N.pos j).
        { apply (N.mul_cancel_r _ _ (10 ^ Z.to_N (- e)));
            [apply N.pow_nonzero; discriminate|].
          rewrite <- F'. rewrite N.mul_assoc, F. lia. }
        rewrite F2. apply not_multiple_of_ten. }
    destruct (Pos.leb_spec pk pk') as [Hk|Hk].
    + destruct (G pm pm' pk pk' E E' Hpm' Hk) as [-> ->]. reflexivity.
    + destruct (G pm' pm pk' pk E' E Hpm ltac:(lia)) as [-> ->]. reflexivity.
Qed.

Lemma Represents_number q n : Represents q n -> n <> NaN.
Proof. intros H. destruct H; try discriminate. destruct neg; discriminate. Qed.

End Rounding.

(** ** Reading a literal *)

Section Reading.

Lemma positional_app radix ds ds' :
  positional radix (ds ++ ds')
  = (positional radix ds * radix ^ N.of_nat (length ds')
     + positional radix ds')%N.
Proof.
  induction ds as [|d ds IH]; cbn [positional app]; [lia|].
  rewrite IH, length_app, Nat2N.inj_add, N.pow_add_r. lia.
Qed.

Lemma Numeral_length digits l ds : Numeral digits l ds -> length l = length ds.
Proof. intros H. induction H; cbn; congruence. Qed.

Lemma readDigits_numeral l ds :
  Numeral decimalDigits l ds ->
  forall rest acc n,
    (forall c r, rest = c :: r -> digitVal c = None) ->
    readDigits (l ++ rest) acc n
    = ((acc * 10 ^ N.of_nat (length ds) + positional 10 ds)%N,
       (n + N.of_nat (length ds))%N, rest).
Proof.
  induction 1 as [|c d l ds Hc Hl IH]; intros rest acc n Hrest.
  - cbn [app length positional N.of_nat].
    rewrite N.pow_0_r, N.mul_1_r, !N.add_0_r.
    destruct rest as [|c r]; [reflexivity|].
    cbn [readDigits]. now rewrite (Hrest c r eq_refl).
  - cbn [app readDigits]. apply digitVal_spec in Hc. rewrite Hc.
    rewrite (IH rest _ _ Hrest). cbn [length positional].
    rewrite Nat2N.inj_succ, N.pow_succ_r by lia. f_equal. f_equal; lia.
Qed.

Lemma readRadix_numeral val radix digits :
  (forall c d, In (c, d) digits -> val c = Some d) ->
  forall l ds, Numeral digits l ds ->
  forall acc,
    readRadix val radix l acc
    = Some (acc * radix ^ N.of_nat (length ds) + positional radix ds)%N.
Proof.
  intros Hval l ds H.
  induction H as [|c d l ds Hc Hl IH]; intros acc.
  - cbn. f_equal. lia.
  - cbn [readRadix]. rewrite (Hval c d Hc), IH. cbn [length positional].
    rewrite Nat2N.inj_succ, N.pow_succ_r by lia. f_equal. lia.
Qed.

(** A decimal digit is none of the other characters of a literal. *)
Lemma digit_apart c d x :
  In (c, d) decimalDigits ->
  In x ["."; "e"; "E"; "+"; "-"; "x"; "X"; "o"; "O"; "b"; "B"; "I"]%char ->
  Ascii.eqb c x = false.
Proof.
  intros Hc Hx. cbn in Hc, Hx.
  repeat (destruct Hc as [Hc|Hc]; [injection Hc as <- <-|]);
    try destruct Hc;
    repeat (destruct Hx as [<-|Hx]; [reflexivity|]); destruct Hx.
Qed.

Lemma exponent_start ex e c r :
  ExponentPart ex e -> ex = c :: r ->
  digitVal c = None /\ Ascii.eqb c "." = false.
Proof.
  intros H E. destruct H as [|c' sg neg l ds Hc _ _ _]; [discriminate|].
  injection E as -> _. destruct Hc as [<-|[<-|[]]]; split; reflexivity.
Qed.

Lemma readExponent_spec ex e : ExponentPart ex e -> readExponent ex = Some e.
Proof.
  intros H. destruct H as [|c sg neg l ds Hc Hs Hl Hd]; [reflexivity|].
  assert (Hread : readDigits l 0 0
                  = (positional 10 ds, N.of_nat (length ds), [])).
  { rewrite <- (app_nil_r l) at 1.
    rewrite (readDigits_numeral l ds Hd [] 0%N 0%N) by discriminate.
    rewrite N.mul_0_l, !N.add_0_l. reflexivity. }
  assert (Hn : (N.of_nat (length ds) =? 0)%N = false).
  { apply N.eqb_neq. rewrite <- (Numeral_length _ _ _ Hd).
    destruct l; [contradiction | cbn; lia]. }
  assert (Hc' : (Ascii.eqb c "e" || Ascii.eqb c "E")%char = true)
    by (destruct Hc as [<-|[<-|[]]]; reflexivity).
  cbn [readExponent]. rewrite Hc'.
  destruct Hs; cbn [app].
  - destruct Hd as [|c0 d0 l ds Hc0 Hd]; [contradiction|].
    rewrite (digit_apart c0 d0 "-" Hc0), (digit_apart c0 d0 "+" Hc0)
      by (cbn; tauto).
    rewrite Hread, Hn. reflexivity.
  - cbn. rewrite Hread, Hn. reflexivity.
  - cbn. rewrite Hread, Hn. reflexivity.
Qed.

Lemma not_Infinity c l :
  Ascii.eqb c "I" = false ->
  String.eqb (string_of_list_ascii (c :: l)) "Infinity" = false.
Proof. intros H. cbn. now rewrite H. Qed.

(** [readUnsignedDecimal] on a literal. *)
Lemma readUnsignedDecimal_spec neg l m e :
  StrUnsignedDecimalLiteral l m e ->
  readUnsignedDecimal neg l = mkDecimal neg m e.
Proof.
  intros H. unfold readUnsignedDecimal.
  destruct H as [ip fp ex iv fv e Hi Hf Hne He|ip ex iv e Hi Hne He].
  - assert (Hinf : String.eqb (string_of_list_ascii (ip ++ "."%char :: fp ++ ex))
                     "Infinity" = false).
    { destruct Hi as [|c d ip iv Hc Hi]; cbn [app].
      - now apply not_Infinity.
      - apply not_Infinity. apply (digit_apart c d _ Hc). cbn; tauto. }
    rewrite Hinf.
    rewrite (readDigits_numeral ip iv Hi) by (intros c r [= <- _]; reflexivity).
    rewrite Ascii.eqb_refl.
    rewrite (readDigits_numeral fp fv Hf)
      by (intros c r E; exact (proj1 (exponent_start ex e c r He E))).
    assert (Hn : ((0 + N.of_nat (length iv) + (0 + N.of_nat (length fv))) =? 0)%N
                 = false).
    { apply N.eqb_neq. rewrite <- (Numeral_length _ _ _ Hi),
        <- (Numeral_length _ _ _ Hf).
      destruct ip; [destruct fp; [contradiction|]|]; cbn; lia. }
    rewrite Hn, (readExponent_spec ex e He), positional_app.
    rewrite <- (Numeral_length _ _ _ Hf). f_equal; lia.
  - assert (Hinf : String.eqb (string_of_list_ascii (ip ++ ex)) "Infinity"
                   = false).
    { destruct Hi as [|c d ip iv Hc Hi]; [contradiction|]. cbn [app].
      apply not_Infinity. apply (digit_apart c d _ Hc). cbn; tauto. }
    rewrite Hinf.
    rewrite (readDigits_numeral ip iv Hi)
      by (intros c r E; exact (proj1 (exponent_start ex e c r He E))).
    assert (Hn : ((0 + N.of_nat (length iv)) =? 0)%N = false).
    { apply N.eqb_neq. rewrite <- (Numeral_length _ _ _ Hi).
      destruct ip; [contradiction | cbn; lia]. }
    rewrite Hn.
    destruct ex as [|c r].
    + inversion He; subst. f_equal; lia.
    + rewrite (proj2 (exponent_start _ e c r He eq_refl)).
      rewrite (readExponent_spec _ e He). f_equal; lia.
Qed.

End Reading.

(** ** White space around a literal *)

Section Trimming.

Implicit Types l before after : list ascii.

Lemma trimStart_space before l :
  Forall (fun c => In c whiteSpace) before ->
  trimStart (before ++ l) = trimStart l.
Proof.
  induction 1 as [|c before Hc _ IH]; [reflexivity|].
  cbn [app trimStart]. now rewrite (proj2 (whiteSpace_spec c) Hc).
Qed.

Lemma trimStart_start c l : isWhiteSpace c = false -> trimStart (c :: l) = c :: l.
Proof. intros H. cbn. now rewrite H. Qed.

Lemma trim_spaces before :
  Forall (fun c => In c whiteSpace) before -> trim before = [].
Proof.
  intros H. unfold trim. rewrite <- (app_nil_r before), trimStart_space by exact H.
  reflexivity.
Qed.

(** Trimming gives back a text that neither starts nor ends with white
    space. *)
Lemma trim_text before l after :
  Forall (fun c => In c whiteSpace) before ->
  Forall (fun c => In c whiteSpace) after ->
  l <> [] -> Forall (fun c => isWhiteSpace c = false) l ->
  trim (before ++ l ++ after) = l.
Proof.
  intros Hb Ha Hl Hns. unfold trim. rewrite trimStart_space by exact Hb.
  destruct l as [|c l]; [contradiction|].
  cbn [app]. rewrite trimStart_start by (now inversion Hns).
  change (c :: l ++ after) with ((c :: l) ++ after).
  rewrite rev_app_distr, trimStart_space by (now apply List.Forall_rev).
  assert (Hrev : Forall (fun c => isWhiteSpace c = false) (rev (c :: l)))
    by (now apply List.Forall_rev).
  destruct (rev (c :: l)) as [|x r] eqn:E.
  - apply (f_equal (@length ascii)) in E. rewrite length_rev in E. discriminate.
  - rewrite trimStart_start by (now inversion Hrev).
    rewrite <- E. apply rev_involutive.
Qed.

Lemma trimStart_decompose l :
  exists before,
    l = before ++ trimStart l /\ Forall (fun c => In c whiteSpace) before.
Proof.
  induction l as [|c l (b & E & Hb)]; [now exists []|].
  cbn [trimStart]. destruct (isWhiteSpace c) eqn:Hc.
  - exists (c :: b). split; [cbn; now f_equal|].
    constructor; [now apply whiteSpace_spec | exact Hb].
  - now exists [].
Qed.

Lemma trim_decompose l :
  exists before after,
    l = before ++ trim l ++ after
    /\ Forall (fun c => In c whiteSpace) before
    /\ Forall (fun c => In c whiteSpace) after.
Proof.
  destruct (trimStart_decompose l) as (b & E & Hb).
  destruct (trimStart_decompose (rev (trimStart l))) as (a & E' & Ha).
  exists b, (rev a). split; [|split; [exact Hb|]].
  - rewrite E at 1. f_equal. unfold trim.
    rewrite <- rev_app_distr, <- E'. now rewrite rev_involutive.
  - now apply List.Forall_rev.
Qed.

End Trimming.

(** ** [Number] on the numeric strings *)

Section Conversion.

Lemma hex_not_space c d : In (c, d) hexDigits -> isWhiteSpace c = false.
Proof.
  intros H. cbn in H.
  repeat (destruct H as [H|H]; [injection H as <- _; reflexivity|]).
  destruct H.
Qed.

Lemma octal_hex c d : In (c, d) octalDigits -> In (c, d) hexDigits.
Proof.
  intros H. unfold hexDigits, decimalDigits. apply in_or_app. left.
  apply in_or_app. now left.
Qed.

Lemma binary_hex c d : In (c, d) binaryDigits -> In (c, d) hexDigits.
Proof. intros H. apply octal_hex. apply in_or_app. now left. Qed.

Lemma decimal_hex c d : In (c, d) decimalDigits -> In (c, d) hexDigits.
Proof. intros H. apply in_or_app. now left. Qed.

Lemma Numeral_not_space digits l ds :
  (forall c d, In (c, d) digits -> In (c, d) hexDigits) ->
  Numeral digits l ds -> Forall (fun c => isWhiteSpace c = false) l.
Proof.
  intros Hd H. induction H as [|c d l ds Hc _ IH]; constructor; [|exact IH].
  exact (hex_not_space c d (Hd c d Hc)).
Qed.

Lemma Sign_not_space sg neg :
  Sign sg neg -> Forall (fun c => isWhiteSpace c = false) sg.
Proof. intros []; repeat constructor. Qed.

Lemma ExponentPart_not_space ex e :
  ExponentPart ex e -> Forall (fun c => isWhiteSpace c = false) ex.
Proof.
  intros [|c sg neg l ds Hc Hs _ Hd]; [constructor|].
  constructor; [destruct Hc as [<-|[<-|[]]]; reflexivity|].
  apply Forall_app. split; [exact (Sign_not_space _ _ Hs)|].
  exact (Numeral_not_space _ _ _ decimal_hex Hd).
Qed.

Lemma decimal_not_space l m e :
  StrUnsignedDecimalLiteral l m e ->
  l <> [] /\ Forall (fun c => isWhiteSpace c = false) l.
Proof.
  intros [ip fp ex iv fv e' Hi Hf Hne He|ip ex iv e' Hi Hne He].
  - split; [now destruct ip|].
    apply Forall_app. split; [exact (Numeral_not_space _ _ _ decimal_hex Hi)|].
    constructor; [reflexivity|]. apply Forall_app.
    split; [exact (Numeral_not_space _ _ _ decimal_hex Hf)|].
    exact (ExponentPart_not_space _ _ He).
  - split; [now destruct ip|].
    apply Forall_app. split; [exact (Numeral_not_space _ _ _ decimal_hex Hi)|].
    exact (ExponentPart_not_space _ _ He).
Qed.

Lemma literal_not_space l q :
  StrNumericLiteral l q ->
  l <> [] /\ Forall (fun c => isWhiteSpace c = false) l.
Proof.
  intros [sg neg Hs|sg neg l' m e Hs Hl|p radix digits l' ds Hp Hne Hd].
  - split; [now destruct Hs|].
    apply Forall_app. split; [exact (Sign_not_space _ _ Hs)|].
    repeat constructor.
  - destruct (decimal_not_space _ _ _ Hl) as [Hne Hns].
    split; [destruct sg; [exact Hne | discriminate]|].
    apply Forall_app. split; [exact (Sign_not_space _ _ Hs) | exact Hns].
  - split; [discriminate|].
    constructor; [reflexivity|]. cbn in Hp.
    constructor.
    + repeat (destruct Hp as [Hp|Hp]; [injection Hp as <- _ _; reflexivity|]).
      destruct Hp.
    + repeat (destruct Hp as [Hp|Hp];
                [injection Hp as _ _ <-;
                 first [exact (Numeral_not_space _ _ _ (fun c d H => H) Hd)
                       |exact (Numeral_not_space _ _ _ octal_hex Hd)
                       |exact (Numeral_not_space _ _ _ binary_hex Hd)]|]).
      destruct Hp.
Qed.

(** The characters of an unsigned decimal literal. *)
Lemma decimal_characters l m e :
  StrUnsignedDecimalLiteral l m e ->
  Forall (fun c => (exists d, In (c, d) decimalDigits)
                   \/ In c ["."; "e"; "E"; "+"; "-"]%char) l.
Proof.
  assert (Hnum : forall l ds, Numeral decimalDigits l ds ->
            Forall (fun c => (exists d, In (c, d) decimalDigits)
                             \/ In c ["."; "e"; "E"; "+"; "-"]%char) l).
  { intros l0 ds H. induction H as [|c d l0 ds Hc _ IH]; constructor;
      [left; now exists d | exact IH]. }
  assert (Hexp : forall ex e, ExponentPart ex e ->
            Forall (fun c => (exists d, In (c, d) decimalDigits)
                             \/ In c ["."; "e"; "E"; "+"; "-"]%char) ex).
  { intros ex e0 [|c sg neg l0 ds Hc Hs _ Hd]; [constructor|].
    constructor; [right; cbn in *; tauto|].
    apply Forall_app. split; [|exact (Hnum _ _ Hd)].
    destruct Hs; repeat constructor; right; cbn; tauto. }
  intros [ip fp ex iv fv e' Hi Hf Hne He|ip ex iv e' Hi Hne He].
  - apply Forall_app. split; [exact (Hnum _ _ Hi)|].
    constructor; [right; cbn; tauto|].
    apply Forall_app. split; [exact (Hnum _ _ Hf) | exact (Hexp _ _ He)].
  - apply Forall_app. split; [exact (Hnum _ _ Hi) | exact (Hexp _ _ He)].
Qed.

Lemma decimal_first l m e :
  StrUnsignedDecimalLiteral l m e ->
  exists c r, l = c :: r
    /\ ((exists d, In (c, d) decimalDigits) \/ c = "."%char).
Proof.
  intros [ip fp ex iv fv e' Hi Hf Hne He|ip ex iv e' Hi Hne He].
  - destruct Hi as [|c d ip iv Hc Hi].
    + eexists _, _. split; [reflexivity | now right].
    + eexists _, _. split; [reflexivity | left; now exists d].
  - destruct Hi as [|c d ip iv Hc Hi]; [contradiction|].
    eexists _, _. split; [reflexivity | left; now exists d].
Qed.

(** The characters of a decimal literal are none of the radix prefixes. *)
Lemma decimal_no_prefix c :
  (exists d, In (c, d) decimalDigits) \/ In c ["."; "e"; "E"; "+"; "-"]%char ->
  (Ascii.eqb c "x" || Ascii.eqb c "X")%char = false
  /\ (Ascii.eqb c "o" || Ascii.eqb c "O")%char = false
  /\ (Ascii.eqb c "b" || Ascii.eqb c "B")%char = false.
Proof.
  intros [[d H]|H]; cbn in H.
  - repeat (destruct H as [H|H]; [injection H as <- _; repeat split; reflexivity|]).
    destruct H.
  - repeat (destruct H as [<-|H]; [repeat split; reflexivity|]). destruct H.
Qed.

(** What [StringToNumber] does with a string once trimmed. *)
Lemma unsigned_decimal_number s l m e :
  trim (list_ascii_of_string s) = l ->
  StrUnsignedDecimalLiteral l m e ->
  StringToNumber s = mkDecimal false m e.
Proof.
  intros Ht Hl. unfold StringToNumber. rewrite Ht.
  rewrite <- (readUnsignedDecimal_spec false l m e Hl).
  destruct (decimal_first l m e Hl) as (c & r & -> & Hc).
  pose proof (decimal_characters _ _ _ Hl) as Hall.
  assert (Hsign : Ascii.eqb c "-" = false /\ Ascii.eqb c "+" = false).
  { destruct Hc as [[d Hd]| ->]; [|split; reflexivity].
    split; apply (digit_apart c d _ Hd); cbn; tauto. }
  destruct Hsign as [-> ->].
  destruct (Ascii.eqb c "0"); [|reflexivity].
  destruct r as [|p r]; [reflexivity|].
  inversion Hall as [|? ? _ Hr]; subst. inversion Hr as [|? ? Hp _]; subst.
  destruct (decimal_no_prefix p Hp) as (-> & -> & ->). reflexivity.
Qed.

(** [Number] of a numeric string stands for what the string writes. *)
Lemma StringToNumber_complete s q :
  StringNumericLiteral s q -> Represents q (StringToNumber s).
Proof.
  intros (before & l & after & E & Hb & Ha & [[-> ->]|Hl]).
  - unfold StringToNumber. rewrite E. cbn [app].
    assert (Ht : trim (before ++ after) = []).
    { apply trim_spaces. apply Forall_app. now split. }
    rewrite Ht. apply (represents_zero false).
  - destruct (literal_not_space l q Hl) as [Hne Hns].
    assert (Ht : trim (list_ascii_of_string s) = l)
      by (rewrite E; now apply trim_text).
    destruct Hl as [sg neg Hs|sg neg l m e Hs Hl|p radix digits l ds Hp Hl Hd].
    + unfold StringToNumber. rewrite Ht.
      destruct Hs; cbn; constructor.
    + destruct Hs.
      * rewrite (unsigned_decimal_number s l m e Ht Hl).
        apply mkDecimal_represents.
      * unfold StringToNumber. rewrite Ht. cbn.
        rewrite (readUnsignedDecimal_spec false l m e Hl).
        apply mkDecimal_represents.
      * unfold StringToNumber. rewrite Ht. cbn.
        rewrite (readUnsignedDecimal_spec true l m e Hl).
        apply mkDecimal_represents.
    + unfold StringToNumber. rewrite Ht.
      assert (Hgoal : forall val,
                (forall c d, In (c, d) digits -> val c = Some d) ->
                Represents (Finite false (positional radix ds) 0)
                  (readNonDecimal val radix l)).
      { intros val Hval. unfold readNonDecimal.
        destruct l as [|c l]; [contradiction|].
        rewrite (readRadix_numeral val radix digits Hval _ ds Hd).
        rewrite N.mul_0_l, N.add_0_l.
        destruct (N.eqb_spec (positional radix ds) 0) as [->|Hv].
        - apply (represents_zero false).
        - apply roundInt_represents; [exact Hv|]. left.
          split; [lia|]. cbn. lia. }
      cbn in Hp.
      repeat (destruct Hp as [Hp|Hp];
                [injection Hp as <- <- <-; cbn;
                 first [apply Hgoal; intros c d H; now apply hexVal_spec
                       |apply Hgoal; intros c d H; now apply octVal_spec
                       |apply Hgoal; intros c d H; now apply binVal_spec]|]).
      destruct Hp.
Qed.

End Conversion.

(** ** The strings that [Number] converts are the numeric strings *)

Section Soundness.

Lemma readDigits_decompose l : forall acc n v n' rest,
  readDigits l acc n = (v, n', rest) ->
  exists ip iv,
    l = ip ++ rest /\ Numeral decimalDigits ip iv
    /\ n' = (n + N.of_nat (length ip))%N.
Proof.
  induction l as [|c l IH]; intros acc n v n' rest H; cbn [readDigits] in H.
  - injection H as <- <- <-. exists [], []. split; [reflexivity|]. split; [apply List.Forall2_nil | cbn; lia].
  - destruct (digitVal c) as [d|] eqn:Hc.
    + destruct (IH _ _ _ _ _ H) as (ip & iv & -> & Hi & ->).
      exists (c :: ip), (d :: iv). split; [reflexivity|]. split.
      * apply List.Forall2_cons; [now apply digitVal_spec | exact Hi].
      * cbn [length]. lia.
    + injection H as <- <- <-. exists [], []. split; [reflexivity|]. split; [apply List.Forall2_nil | cbn; lia].
Qed.

Lemma readRadix_decompose val radix digits :
  (forall c d, val c = Some d -> In (c, d) digits) ->
  forall l acc v, readRadix val radix l acc = Some v ->
  exists ds, Numeral digits l ds.
Proof.
  intros Hval l. induction l as [|c l IH]; intros acc v H; cbn [readRadix] in H.
  - exists []. apply List.Forall2_nil.
  - destruct (val c) as [d|] eqn:Hc; [|discriminate].
    destruct (IH _ _ H) as [ds Hd]. exists (d :: ds).
    apply List.Forall2_cons; [now apply Hval | exact Hd].
Qed.

Lemma exponent_letter c :
  (Ascii.eqb c "e" || Ascii.eqb c "E")%char = true ->
  In c ["e"; "E"]%char.
Proof.
  intros [H|H]%orb_true_iff; apply Ascii.eqb_eq in H; subst; cbn; tauto.
Qed.

Lemma readExponent_sound r e :
  readExponent r = Some e -> exists e', ExponentPart r e'.
Proof.
  destruct r as [|c l1]; [intros _; eexists; constructor|].
  cbn [readExponent].
  destruct (Ascii.eqb c "e" || Ascii.eqb c "E")%char eqn:Hc; [|discriminate].
  apply exponent_letter in Hc.
  assert (Hdigits : forall sg neg l2,
            Sign sg neg -> l1 = sg ++ l2 ->
            match readDigits l2 0 0 with
            | (v, n, []) => if (n =? 0)%N then None else Some (signed neg v)
            | _ => None
            end = Some e ->
            exists e', ExponentPart (c :: l1) e').
  { intros sg neg l2 Hs -> H.
    destruct (readDigits l2 0 0) as [[v n] rest] eqn:Hr.
    destruct rest; [|discriminate].
    destruct (N.eqb_spec n 0) as [|Hn]; [discriminate|].
    destruct (readDigits_decompose _ _ _ _ _ _ Hr) as (ip & iv & -> & Hi & ->).
    rewrite app_nil_r. eexists.
    apply (exponent_some c sg neg ip iv Hc Hs); [|exact Hi].
    intros ->. apply Hn. reflexivity. }
  destruct l1 as [|s l2].
  - intros H. exact (Hdigits [] false [] sign_none eq_refl H).
  - destruct (Ascii.eqb s "-") eqn:Hm.
    + apply Ascii.eqb_eq in Hm as ->.
      intros H. exact (Hdigits ["-"%char] true l2 sign_minus eq_refl H).
    + destruct (Ascii.eqb s "+") eqn:Hp.
      * apply Ascii.eqb_eq in Hp as ->.
        intros H. exact (Hdigits ["+"%char] false l2 sign_plus eq_refl H).
      * intros H. exact (Hdigits [] false (s :: l2) sign_none eq_refl H).
Qed.

(** What [readUnsignedDecimal] does not refuse is [Infinity] or a
    literal. *)
Lemma readUnsignedDecimal_sound neg l :
  readUnsignedDecimal neg l <> NaN ->
  l = list_ascii_of_string "Infinity"
  \/ exists m e, StrUnsignedDecimalLiteral l m e.
Proof.
  unfold readUnsignedDecimal.
  destruct (String.eqb_spec (string_of_list_ascii l) "Infinity") as [E|_].
  - intros _. left. rewrite <- E. now rewrite list_ascii_of_string_of_list_ascii.
  - destruct (readDigits l 0 0) as [[ip ni] r1] eqn:Hr.
    destruct (readDigits_decompose _ _ _ _ _ _ Hr) as (lp & iv & -> & Hi & ->).
    destruct r1 as [|c r2].
    + destruct (N.eqb_spec (0 + N.of_nat (length lp)) 0) as [|Hn];
        [congruence|].
      intros _. right. eexists _, _. rewrite app_nil_r.
      rewrite <- (app_nil_r lp).
      apply (decimal_integer lp [] iv 0 Hi); [|constructor].
      intros ->. apply Hn. reflexivity.
    + destruct (Ascii.eqb c ".") eqn:Hc.
      * apply Ascii.eqb_eq in Hc as ->.
        destruct (readDigits r2 ip 0) as [[m nf] r3] eqn:Hr'.
        destruct (readDigits_decompose _ _ _ _ _ _ Hr') as (fp & fv & -> & Hf & ->).
        destruct (N.eqb_spec (0 + N.of_nat (length lp) + (0 + N.of_nat (length fp))) 0)
          as [|Hn]; [congruence|].
        destruct (readExponent r3) as [e|] eqn:He; [|congruence].
        destruct (readExponent_sound _ _ He) as [e' He'].
        intros _. right. eexists _, _.
        apply (decimal_point lp fp r3 iv fv e' Hi Hf); [|exact He'].
        intros E. apply Hn. apply app_eq_nil in E as [-> ->]. reflexivity.
      * destruct (N.eqb_spec (0 + N.of_nat (length lp)) 0) as [|Hn];
          [congruence|].
        destruct (readExponent (c :: r2)) as [e|] eqn:He; [|congruence].
        destruct (readExponent_sound _ _ He) as [e' He'].
        intros _. right. eexists _, _.
        apply (decimal_integer lp (c :: r2) iv e' Hi); [|exact He'].
        intros ->. apply Hn. reflexivity.
Qed.

Lemma readNonDecimal_sound val radix digits l :
  (forall c d, val c = Some d -> In (c, d) digits) ->
  readNonDecimal val radix l <> NaN ->
  l <> [] /\ exists ds, Numeral digits l ds.
Proof.
  intros Hval. unfold readNonDecimal. destruct l as [|c l]; [congruence|].
  destruct (readRadix val radix (c :: l) 0) as [v|] eqn:Hr; [|congruence].
  intros _. split; [discriminate|].
  exact (readRadix_decompose val radix digits Hval _ _ _ Hr).
Qed.

Lemma signed_literal sg neg l :
  Sign sg neg ->
  readUnsignedDecimal neg l <> NaN ->
  exists q, StrNumericLiteral (sg ++ l) q.
Proof.
  intros Hs H. destruct (readUnsignedDecimal_sound neg l H) as [->|(m & e & Hl)].
  - exists (Infinite neg). exact (literal_infinity sg neg Hs).
  - exists (Finite neg m e). exact (literal_decimal sg neg l m e Hs Hl).
Qed.

Lemma trimmed_literal c l1 :
  (let l := c :: l1 in
   if Ascii.eqb c "0" then
     match l1 with
     | p :: l2 =>
         if (Ascii.eqb p "x" || Ascii.eqb p "X")%char
         then readNonDecimal hexVal 16 l2
         else if (Ascii.eqb p "o" || Ascii.eqb p "O")%char
         then readNonDecimal octVal 8 l2
         else if (Ascii.eqb p "b" || Ascii.eqb p "B")%char
         then readNonDecimal binVal 2 l2
         else readUnsignedDecimal false l
     | [] => readUnsignedDecimal false l
     end
   else if Ascii.eqb c "-" then readUnsignedDecimal true l1
   else if Ascii.eqb c "+" then readUnsignedDecimal false l1
   else readUnsignedDecimal false l) <> NaN ->
  exists q, StrNumericLiteral (c :: l1) q.
Proof.
  cbn zeta. intros H.
  destruct (Ascii.eqb c "0") eqn:H0.
  - apply Ascii.eqb_eq in H0 as ->.
    destruct l1 as [|p l2];
      [exact (signed_literal [] false _ sign_none H)|].
    destruct (Ascii.eqb p "x" || Ascii.eqb p "X")%char eqn:Hx.
    { destruct (readNonDecimal_sound hexVal 16 hexDigits l2
                  (fun c d => proj1 (hexVal_spec c d)) H) as [Hne [ds Hd]].
      eexists. apply (literal_radix p 16 hexDigits l2 ds); [|exact Hne|exact Hd].
      apply orb_true_iff in Hx as [E|E]; apply Ascii.eqb_eq in E; subst;
        cbn; tauto. }
    destruct (Ascii.eqb p "o" || Ascii.eqb p "O")%char eqn:Ho.
    { destruct (readNonDecimal_sound octVal 8 octalDigits l2
                  (fun c d => proj1 (octVal_spec c d)) H) as [Hne [ds Hd]].
      eexists. apply (literal_radix p 8 octalDigits l2 ds); [|exact Hne|exact Hd].
      apply orb_true_iff in Ho as [E|E]; apply Ascii.eqb_eq in E; subst;
        cbn; tauto. }
    destruct (Ascii.eqb p "b" || Ascii.eqb p "B")%char eqn:Hb.
    { destruct (readNonDecimal_sound binVal 2 binaryDigits l2
                  (fun c d => proj1 (binVal_spec c d)) H) as [Hne [ds Hd]].
      eexists. apply (literal_radix p 2 binaryDigits l2 ds); [|exact Hne|exact Hd].
      apply orb_true_iff in Hb as [E|E]; apply Ascii.eqb_eq in E; subst;
        cbn; tauto. }
    exact (signed_literal [] false _ sign_none H).
  - destruct (Ascii.eqb c "-") eqn:Hm.
    + apply Ascii.eqb_eq in Hm as ->.
      exact (signed_literal ["-"%char] true l1 sign_minus H).
    + destruct (Ascii.eqb c "+") eqn:Hp.
      * apply Ascii.eqb_eq in Hp as ->.
        exact (signed_literal ["+"%char] false l1 sign_plus H).
      * exact (signed_literal [] false _ sign_none H).
Qed.

(** A string that [Number] does not turn into [NaN] is a numeric
    string. *)
Lemma StringToNumber_sound s :
  StringToNumber s <> NaN -> exists q, StringNumericLiteral s q.
Proof.
  intros H.
  destruct (trim_decompose (list_ascii_of_string s)) as (b & a & E & Hb & Ha).
  unfold StringToNumber in H.
  destruct (trim (list_ascii_of_string s)) as [|c l1].
  - exists (Finite false 0 0), b, [], a. split; [exact E|].
    split; [exact Hb|]. split; [exact Ha|]. now left.
  - destruct (trimmed_literal c l1 H) as [q Hq].
    exists q, b, (c :: l1), a. split; [exact E|].
    split; [exact Hb|]. split; [exact Ha|]. now right.
Qed.

(** [Number] of a string that is not numeric is [NaN]. *)
Lemma StringToNumber_NaN s :
  (forall q, ~ StringNumericLiteral s q) -> StringToNumber s = NaN.
Proof.
  intros H. destruct (StringToNumber s) eqn:E; [reflexivity|..];
    exfalso; (destruct (StringToNumber_sound s) as [q Hq];
              [rewrite E; discriminate | exact (H q Hq)]).
Qed.

End Soundness.

Lemma numberIfTruthy_string s :
  s <> "" -> numberIfTruthy (VStr s) = VNum (StringToNumber s).
Proof.
  intros H. unfold numberIfTruthy. cbn.
  now rewrite (proj2 (String.eqb_neq s "") H).
Qed.

(** ** Query parameters *)

Section Queries.

Context {World : Type}.
Variable delegate : External -> World -> Completion value * World.
Variable opts : option ShopClientOptions.

Local Abbreviation getShop := (makeGetShop (World := World) opts).
Local Abbreviation router := (theRouter delegate opts).

Lemma call_run c w :
  (let '(r, w', t) := call delegate c w in (toResponse r, w', t)) = run delegate c w.
Proof. unfold call, run. destruct (delegate c w); reflexivity. Qed.

Variable req : Request.t.
Variable w : World.
Variable d : string.
Hypothesis tenant : Request.headers req !! "x-shop-domain" = Some d.
Hypothesis tenant_named : d <> "".

Let shop := mkShopClient d opts.
Let q := Request.query req.

(** A handler that resolves the tenant and makes one call. *)
Ltac one_call Hroute e Hq :=
  rewrite (handle_operation _ _ _ _ _ Hroute);
  rewrite (invoke_query e _ _ _ _ _ w eq_refl eq_refl Hq);
  cbn [handler getInfo getAllProducts getPaginatedProducts
       getPaginatedCollections getCollectionProductsAll
       getCollectionProductsPaginated buildStoreEndpoints
       buildProductEndpoints buildCollectionEndpoints];
  rewrite with_tenant with (d := d) by (cbn; auto using tenant, tenant_named);
  apply call_run.

Lemma handle_info :
  Request.method req = GET -> splitPath (Request.path req) = ["info"] ->
  queryIssues (getInfo (buildStoreEndpoints delegate getShop)) q = [] ->
  handle router req w
  = run delegate (Client shop
           (GetInfo (VObj [("force",
                            VBool (strictEqStr (prop q "force") "true"))]))) w.
Proof.
  intros Hm Hp Hq.
  one_call (route_info delegate opts req Hm Hp)
           (getInfo (buildStoreEndpoints delegate getShop)) Hq.
Qed.

Lemma handle_products_all :
  Request.method req = GET ->
  splitPath (Request.path req) = ["products"; "all"] ->
  queryIssues (getAllProducts (buildProductEndpoints delegate getShop)) q = [] ->
  handle router req w
  = run delegate (Client shop (ProductsAll (VObj [("currency", prop q "currency")]))) w.
Proof.
  intros Hm Hp Hq.
  one_call (route_products_all delegate opts req Hm Hp)
           (getAllProducts (buildProductEndpoints delegate getShop)) Hq.
Qed.

Lemma handle_products_paginated :
  Request.method req = GET ->
  splitPath (Request.path req) = ["products"; "paginated"] ->
  queryIssues (getPaginatedProducts (buildProductEndpoints delegate getShop)) q
  = [] ->
  handle router req w
  = run delegate (Client shop (ProductsPaginated (pageOptions q))) w.
Proof.
  intros Hm Hp Hq.
  one_call (route_products_paginated delegate opts req Hm Hp)
           (getPaginatedProducts (buildProductEndpoints delegate getShop)) Hq.
Qed.

Lemma handle_collections_paginated :
  Request.method req = GET ->
  splitPath (Request.path req) = ["collections"; "paginated"] ->
  queryIssues
    (getPaginatedCollections (buildCollectionEndpoints delegate getShop)) q
  = [] ->
  handle router req w
  = run delegate (Client shop (CollectionsPaginated (pageOptions2 q))) w.
Proof.
  intros Hm Hp Hq.
  one_call (route_collections_paginated delegate opts req Hm Hp)
           (getPaginatedCollections
              (buildCollectionEndpoints delegate getShop)) Hq.
Qed.

Lemma handle_collection_products_all h :
  Request.method req = GET ->
  splitPath (Request.path req) = ["collections"; h; "products"; "all"] ->
  queryIssues
    (getCollectionProductsAll (buildCollectionEndpoints delegate getShop)) q
  = [] ->
  handle router req w
  = run delegate (Client shop
           (CollectionsProductsAll (VStr h)
              (VObj [("currency", prop q "currency")]))) w.
Proof.
  intros Hm Hp Hq.
  one_call (route_collection_products_all delegate opts req h Hm Hp)
           (getCollectionProductsAll
              (buildCollectionEndpoints delegate getShop)) Hq.
Qed.

Lemma handle_collection_products_paginated h :
  Request.method req = GET ->
  splitPath (Request.path req) = ["collections"; h; "products"; "paginated"] ->
  queryIssues
    (getCollectionProductsPaginated (buildCollectionEndpoints delegate getShop))
    q = [] ->
  handle router req w
  = run delegate (Client shop (CollectionsProductsPaginated (VStr h) (pageOptions q))) w.
Proof.
  intros Hm Hp Hq.
  one_call (route_collection_products_paginated delegate opts req h Hm Hp)
           (getCollectionProductsPaginated
              (buildCollectionEndpoints delegate getShop)) Hq.
Qed.

Lemma handle_product h :
  Request.method req = GET ->
  splitPath (Request.path req) = ["products"; h] ->
  ~ In h ["all"; "paginated"; "showcased"; "filters"] ->
  queryIssues (getProduct (buildProductEndpoints delegate getShop)) q = [] ->
  snd (handle router req w)
  = [Client shop
       (ProductsFind (VStr h) (VObj [("currency", prop q "currency")]))].
Proof.
  intros Hm Hp Hh Hq. cbn [In] in Hh.
  rewrite (handle_operation _ _ _ _ _
             (route_product delegate opts req h Hm Hp
                ltac:(intro; subst; tauto) ltac:(intro; subst; tauto)
                ltac:(intro; subst; tauto) ltac:(intro; subst; tauto))).
  rewrite (invoke_query (getProduct (buildProductEndpoints delegate getShop))
             _ _ _ _ _ w eq_refl eq_refl Hq).
  rewrite getProduct_handler with (d := d)
    by (cbn; auto using tenant, tenant_named).
  cbn zeta. unfold findProduct. cbn [params query morph currencyQuery type].
  destruct (delegate _ w) as [[v|f] w1]; reflexivity.
Qed.

End Queries.

Section PageQueries.

Context {World : Type}.
Variable delegate : External -> World -> Completion value * World.
Variable opts : option ShopClientOptions.
Variable fields : list (string * value).
Hypothesis pages :
  forall k, In k ["page"; "limit"] -> optionalStringOrNumber fields k.

Local Abbreviation getShop := (makeGetShop (World := World) opts).

(** The schema [string|number] of [page] and of [limit] accepts them. *)
Lemma page_accepted k p :
  In k ["page"; "limit"] ->
  match assoc k fields with
  | Some x => validate stringOrNumber p x
  | None => []
  end = [].
Proof.
  intros Hk. specialize (pages k Hk). unfold optionalStringOrNumber in pages.
  destruct (assoc k fields) as [v|]; [|reflexivity].
  destruct v; try reflexivity; exfalso; now apply pages.
Qed.

Lemma products_paginated_valid :
  optionalString fields "currency" ->
  queryIssues (getPaginatedProducts (buildProductEndpoints delegate getShop))
    (VObj fields) = [].
Proof.
  intros Hc. unfold queryIssues.
  cbn [options Options.query getPaginatedProducts buildProductEndpoints
       schema pipe type].
  rewrite validate_object, !validateFields_cons.
  rewrite (page_accepted "page") by (cbn; tauto).
  rewrite (page_accepted "limit") by (cbn; tauto).
  destruct Hc as [-> | [c ->]]; reflexivity.
Qed.

Lemma collections_paginated_valid :
  queryIssues
    (getPaginatedCollections (buildCollectionEndpoints delegate getShop))
    (VObj fields) = [].
Proof.
  unfold queryIssues.
  cbn [options Options.query getPaginatedCollections buildCollectionEndpoints
       schema pipe type].
  rewrite validate_object, !validateFields_cons.
  rewrite (page_accepted "page") by (cbn; tauto).
  rewrite (page_accepted "limit") by (cbn; tauto).
  reflexivity.
Qed.

Lemma collection_products_paginated_valid :
  optionalString fields "currency" ->
  queryIssues
    (getCollectionProductsPaginated (buildCollectionEndpoints delegate getShop))
    (VObj fields) = [].
Proof.
  intros Hc. unfold queryIssues.
  cbn [options Options.query getCollectionProductsPaginated
       buildCollectionEndpoints schema pipe type].
  rewrite validate_object, !validateFields_cons.
  rewrite (page_accepted "page") by (cbn; tauto).
  rewrite (page_accepted "limit") by (cbn; tauto).
  destruct Hc as [-> | [c ->]]; reflexivity.
Qed.

(** What is handed over as [page] and as [limit]. *)
Lemma pageOptions_page k s :
  In k ["page"; "limit"] -> assoc k fields = Some (VStr s) ->
  prop (pageOptions (VObj fields)) k = numberIfTruthy (VStr s)
  /\ prop (pageOptions2 (VObj fields)) k = numberIfTruthy (VStr s).
Proof.
  intros [<-|[<-|[]]] Hk; unfold pageOptions, pageOptions2;
    cbn -[numberIfTruthy]; rewrite Hk; split; reflexivity.
Qed.

End PageQueries.

(** [x ? Number(x) : undefined] on a string that is not empty: the number
    that stands for what the string writes, [NaN] when it writes
    nothing. *)
Lemma numberIfTruthy_numeric s q :
  s <> "" -> StringNumericLiteral s q ->
  exists n,
    Represents q n /\ numberIfTruthy (VStr s) = VNum n
    /\ forall n', Represents q n' -> n' = n.
Proof.
  intros Hs Hq. exists (StringToNumber s).
  pose proof (StringToNumber_complete s q Hq) as Hn.
  split; [exact Hn|]. split; [now apply numberIfTruthy_string|].
  intros n' Hn'. exact (Represents_unique q n' _ Hn' Hn).
Qed.

Lemma numberIfTruthy_NaN s :
  s <> "" -> (forall q, ~ StringNumericLiteral s q) ->
  numberIfTruthy (VStr s) = VNum NaN.
Proof.
  intros Hs Hq. rewrite numberIfTruthy_string by exact Hs.
  now rewrite StringToNumber_NaN.
Qed.

(** A string that [Number] turns into [NaN] is not numeric. *)
Lemma NaN_not_numeric s q :
  StringToNumber s = NaN -> ~ StringNumericLiteral s q.
Proof.
  intros E Hq. apply (Represents_number q (StringToNumber s)); [|exact E].
  now apply StringToNumber_complete.
Qed.

(** A string of digits, with the number of its digits below [2^53]. *)
Lemma digits_numeric l ds :
  l <> [] -> Numeral decimalDigits l ds ->
  StringNumericLiteral (string_of_list_ascii l)
    (Finite false (positional 10 ds) 0).
Proof.
  intros Hl Hd. exists [], l, []. rewrite list_ascii_of_string_of_list_ascii.
  split; [now rewrite app_nil_r|]. split; [constructor|].
  split; [constructor|]. right.
  apply (literal_decimal [] false l _ 0 sign_none).
  rewrite <- (app_nil_r l). apply decimal_integer; [exact Hd | exact Hl|].
  constructor.
Qed.

Lemma small_integer a :
  (a <> 0)%N -> (a < 2 ^ 53)%N ->
  Represents (Finite false a 0) (Int (Z.of_N a)).
Proof.
  intros H0 Ha.
  apply (represents_integer false a 0 a a H0).
  - left. split; [lia|]. cbn. lia.
  - now apply nearest_exact.
  - pose proof pow2_53_1024. lia.
Qed.

(** The syntax on three strings: [-1.5e3] writes [-15 × 10^2], which is the
    integer -1500; [ 0x1F ] writes 31; [12abc] writes nothing. *)
Example numeric_strings :
  (StringNumericLiteral "-1.5e3" (Finite true 15 2)
   /\ Represents (Finite true 15 2) (Int (-1500)))
  /\ (StringNumericLiteral " 0x1F " (Finite false 31 0)
      /\ Represents (Finite false 31 0) (Int 31))
  /\ forall q, ~ StringNumericLiteral "12abc" q.
Proof.
  split; [|split].
  - split.
    + exists [], (list_ascii_of_string "-1.5e3"), []. split; [reflexivity|].
      split; [constructor|]. split; [constructor|]. right.
      apply (literal_decimal ["-"%char] true
               (list_ascii_of_string "1.5e3") 15 2 sign_minus).
      apply (decimal_point ["1"%char] ["5"%char] ["e"%char; "3"%char]
               [1%N] [5%N] 3); [digits | digits | discriminate |].
      apply (exponent_some "e"%char [] false ["3"%char] [3%N]);
        [left; reflexivity | constructor | discriminate | digits].
    + apply (represents_integer true 15 2 1500 1500); try reflexivity;
        [discriminate | left; split; [lia | reflexivity]
        | now apply nearest_exact].
  - split.
    + exists [" "%char], (list_ascii_of_string "0x1F"), [" "%char].
      split; [reflexivity|].
      split; [apply List.Forall_cons; [cbn; found | apply List.Forall_nil]|].
      split; [apply List.Forall_cons; [cbn; found | apply List.Forall_nil]|].
      right.
      apply (literal_radix "x"%char 16 hexDigits ["1"%char; "F"%char]
               [1%N; 15%N]); [left; reflexivity | discriminate | digits].
    + exact (small_integer 31 ltac:(discriminate) eq_refl).
  - intros q. now apply NaN_not_numeric.
Qed.

(** C5: on [GET /products/paginated], a [page] or a [limit] that is a
    numeric string, [page=2&limit=10] or any other non-empty string in the
    syntax that [Number] reads (a sign, a fraction, an exponent, white space
    around, an integer in radix 16, 8 or 2, [Infinity], an integer too large
    to be held exactly), reaches the paginated capability as a number, not
    as the string:
    the one number that stands for what the string writes.  The capability
    is called once, and the response is what that call completes with. *)
Theorem C5_page_and_limit_are_numbers {World : Type}
    (delegate : External -> World -> Completion value * World)
    (opts : option ShopClientOptions) router req w d fields k s q :
  betterShop delegate opts = Returned router ->
  Request.method req = GET ->
  splitPath (Request.path req) = ["products"; "paginated"] ->
  Request.headers req !! "x-shop-domain" = Some d -> d <> "" ->
  Request.query req = VObj fields ->
  In k ["page"; "limit"] ->
  assoc k fields = Some (VStr s) -> s <> "" ->
  StringNumericLiteral s q ->
  (forall k', In k' ["page"; "limit"] -> optionalStringOrNumber fields k') ->
  optionalString fields "currency" ->
  exists o n,
    handle router req w
    = run delegate (Client (mkShopClient d opts) (ProductsPaginated o)) w
    /\ prop o k = VNum n
    /\ Represents q n
    /\ forall n', Represents q n' -> n' = n.
Proof.
  intros Hr Hm Hpath Hd Hne Hq Hk Hs Hs' Hnum Hpages Hc.
  apply betterShop_inv in Hr. subst router.
  destruct (numberIfTruthy_numeric s q Hs' Hnum) as (n & Hn & En & Hu).
  exists (pageOptions (VObj fields)), n.
  split; [|split; [|split; [exact Hn | exact Hu]]].
  - rewrite (handle_products_paginated delegate opts req w d Hd Hne Hm Hpath).
    + now rewrite Hq.
    + rewrite Hq. now apply products_paginated_valid.
  - rewrite (proj1 (pageOptions_page fields k s Hk Hs)). exact En.
Qed.

(** The request of the tests: [page=2&limit=10]; the capability is called
    with the numbers 2 and 10. *)
Lemma C5_page_and_limit_are_numbers_witness :
  exists o,
    handle (theRouter Mock.delegate None)
      (Request.mk GET "/products/paginated" Mock.tenant
         (VObj [("page", VStr "2"); ("limit", VStr "10")]) VUndefined) tt
    = run Mock.delegate
        (Client (mkShopClient "mock.myshopify.com" None) (ProductsPaginated o))
        tt
    /\ prop o "page" = VNum (Int 2) /\ prop o "limit" = VNum (Int 10).
Proof.
  pose (fields := [("page", VStr "2"); ("limit", VStr "10")]).
  assert (Hpages : forall k', In k' ["page"; "limit"] ->
                              optionalStringOrNumber fields k')
    by (intros k' [<-|[<-|[]]]; discriminate).
  assert (H : forall k s a,
            In k ["page"; "limit"] -> assoc k fields = Some (VStr s) ->
            s <> "" -> (a <> 0)%N -> (a < 2 ^ 53)%N ->
            StringNumericLiteral s (Finite false a 0) ->
            exists o,
              handle (theRouter Mock.delegate None)
                (Request.mk GET "/products/paginated" Mock.tenant
                   (VObj fields) VUndefined) tt
              = run Mock.delegate
                  (Client (mkShopClient "mock.myshopify.com" None)
                     (ProductsPaginated o)) tt
              /\ prop o k = VNum (Int (Z.of_N a))).
  { intros k s a Hk Hs Hs' Ha0 Ha Hnum.
    destruct (C5_page_and_limit_are_numbers Mock.delegate None _
                (Request.mk GET "/products/paginated" Mock.tenant
                   (VObj fields) VUndefined) tt
                "mock.myshopify.com" fields k s (Finite false a 0)
                (betterShop_router _ _) eq_refl eq_refl eq_refl
                ltac:(discriminate) eq_refl Hk Hs Hs' Hnum Hpages
                (or_introl eq_refl))
      as (o & n & Ho & Hp & _ & Hu).
    exists o. split; [exact Ho|].
    rewrite Hp, <- (Hu _ (small_integer a Ha0 Ha)). reflexivity. }
  assert (N2 : Numeral decimalDigits ["2"%char] [2%N]) by digits.
  assert (N10 : Numeral decimalDigits ["1"%char; "0"%char] [1%N; 0%N])
    by digits.
  destruct (H "page" "2" 2%N) as (o & Ho & Hp);
    [left; reflexivity | reflexivity | discriminate | discriminate
    | reflexivity
    | exact (digits_numeric ["2"%char] [2%N] ltac:(discriminate) N2) |].
  destruct (H "limit" "10" 10%N) as (o' & Ho' & Hl);
    [right; left; reflexivity | reflexivity | discriminate | discriminate
    | reflexivity
    | exact (digits_numeric ["1"%char; "0"%char] [1%N; 0%N]
               ltac:(discriminate) N10) |].
  exists o. split; [exact Ho|]. split; [exact Hp|].
  rewrite Ho in Ho'. unfold run in Ho'. injection Ho' as _ Eo.
  rewrite Eo. exact Hl.
Defined.

(** C10: on the three paginated operations, every string passes as [page]
    and as [limit]: the request is not refused for it, the capability is
    called once and the response is what the call completes with.  The
    capability is handed [v ? Number(v) : undefined]: for a string that is
    not empty a number, which is [NaN] when the string is not numeric
    ([abc], [12abc], [1e], [0x]), and the number that the string writes when
    it is. *)
Theorem C10_page_strings_are_not_validated {World : Type}
    (delegate : External -> World -> Completion value * World)
    (opts : option ShopClientOptions) router req w d fields k s :
  betterShop delegate opts = Returned router ->
  Request.method req = GET ->
  Request.headers req !! "x-shop-domain" = Some d -> d <> "" ->
  Request.query req = VObj fields ->
  In k ["page"; "limit"] ->
  assoc k fields = Some (VStr s) ->
  (forall k', In k' ["page"; "limit"] -> optionalStringOrNumber fields k') ->
  let shop := mkShopClient d opts in
  let coerced o :=
    s <> "" ->
    (exists n, prop o k = VNum n)
    /\ ((forall q, ~ StringNumericLiteral s q) -> prop o k = VNum NaN)
    /\ (forall q, StringNumericLiteral s q ->
        exists n, Represents q n /\ prop o k = VNum n) in
  (splitPath (Request.path req) = ["products"; "paginated"] ->
   optionalString fields "currency" ->
   exists o,
     handle router req w = run delegate (Client shop (ProductsPaginated o)) w
     /\ coerced o)
  /\
  (splitPath (Request.path req) = ["collections"; "paginated"] ->
   exists o,
     handle router req w = run delegate (Client shop (CollectionsPaginated o)) w
     /\ coerced o)
  /\
  (forall h,
     splitPath (Request.path req) = ["collections"; h; "products"; "paginated"] ->
     optionalString fields "currency" ->
     exists o,
       handle router req w
       = run delegate (Client shop (CollectionsProductsPaginated (VStr h) o)) w
       /\ coerced o).
Proof.
  intros Hr Hm Hd Hne Hq Hk Hs Hpages shop coerced.
  apply betterShop_inv in Hr. subst router.
  assert (Hco : forall o, prop o k = numberIfTruthy (VStr s) -> coerced o).
  { intros o Ho Hs'. rewrite Ho. split; [|split].
    - eexists. now apply numberIfTruthy_string.
    - now apply numberIfTruthy_NaN.
    - intros q Hnum.
      destruct (numberIfTruthy_numeric s q Hs' Hnum) as (n & Hn & En & _).
      now exists n. }
  destruct (pageOptions_page fields k s Hk Hs) as [Hp1 Hp2].
  split; [|split].
  - intros Hpath Hc. exists (pageOptions (VObj fields)). split; [|now apply Hco].
    rewrite (handle_products_paginated delegate opts req w d Hd Hne Hm Hpath).
    + now rewrite Hq.
    + rewrite Hq. now apply products_paginated_valid.
  - intros Hpath. exists (pageOptions2 (VObj fields)). split; [|now apply Hco].
    rewrite (handle_collections_paginated delegate opts req w d Hd Hne Hm Hpath).
    + now rewrite Hq.
    + rewrite Hq. now apply collections_paginated_valid.
  - intros h Hpath Hc. exists (pageOptions (VObj fields)).
    split; [|now apply Hco].
    rewrite (handle_collection_products_paginated delegate opts req w d Hd Hne
               h Hm Hpath).
    + now rewrite Hq.
    + rewrite Hq. now apply collection_products_paginated_valid.
Qed.

(** [page=abc] alone on [GET /collections/paginated], and [limit=12abc]
    beside a page on [GET /products/paginated], against the mocked
    client: the capability is handed [NaN]. *)
Lemma C10_page_strings_are_not_validated_witness :
  let shop := mkShopClient "mock.myshopify.com" None in
  (exists o,
     handle (theRouter Mock.delegate None)
       (Request.mk GET "/collections/paginated" Mock.tenant
          (VObj [("page", VStr "abc")]) VUndefined) tt
     = run Mock.delegate (Client shop (CollectionsPaginated o)) tt
     /\ prop o "page" = VNum NaN)
  /\
  (exists o,
     handle (theRouter Mock.delegate None)
       (Request.mk GET "/products/paginated" Mock.tenant
          (VObj [("page", VStr "1"); ("limit", VStr "12abc")]) VUndefined) tt
     = run Mock.delegate (Client shop (ProductsPaginated o)) tt
     /\ prop o "limit" = VNum NaN).
Proof.
  intros shop. split.
  - destruct (C10_page_strings_are_not_validated Mock.delegate None _
                (Request.mk GET "/collections/paginated" Mock.tenant
                   (VObj [("page", VStr "abc")]) VUndefined) tt
                "mock.myshopify.com" [("page", VStr "abc")] "page" "abc"
                (betterShop_router _ _) eq_refl eq_refl ltac:(discriminate)
                eq_refl (or_introl eq_refl) eq_refl)
      as (_ & H & _).
    + intros k' [<-|[<-|[]]]; [discriminate | exact I].
    + destruct (H eq_refl) as (o & Ho & Hco). exists o. split; [exact Ho|].
      apply Hco; [discriminate|].
      intros q. now apply NaN_not_numeric.
  - destruct (C10_page_strings_are_not_validated Mock.delegate None _
                (Request.mk GET "/products/paginated" Mock.tenant
                   (VObj [("page", VStr "1"); ("limit", VStr "12abc")])
                   VUndefined) tt
                "mock.myshopify.com"
                [("page", VStr "1"); ("limit", VStr "12abc")] "limit" "12abc"
                (betterShop_router _ _) eq_refl eq_refl ltac:(discriminate)
                eq_refl (or_intror (or_introl eq_refl)) eq_refl)
      as (H & _).
    + intros k' [<-|[<-|[]]]; discriminate.
    + destruct (H eq_refl (or_introl eq_refl)) as (o & Ho & Hco).
      exists o. split; [exact Ho|].
      apply Hco; [discriminate|].
      intros q. now apply NaN_not_numeric.
Defined.

(** ** Omitted query parameters *)

(** C6, as stated, fails: [GET /info] without a [force] parameter hands
    [force: false] to the store-info capability, not an absent value. *)
Lemma C6_counterexample :
  let req := Request.mk GET "/info" Mock.tenant (VObj []) VUndefined in
  assoc "force" [] = None /\
  (fun r => handedOver (snd r) "force") <$> serve Mock.delegate None req tt
  = Some (Some (VBool false)).
Proof. split; vm_compute; reflexivity. Qed.

(** C6, amended: on every operation with optional query parameters, a
    [page], [limit] or [currency] that the request omits is handed to the
    capability as undefined, and a [force] that the request omits is handed
    to the store-info capability as [false]. *)
Theorem C6_omitted_parameters {World : Type}
    (delegate : External -> World -> Completion value * World)
    (opts : option ShopClientOptions) router req w d fields segs k :
  betterShop delegate opts = Returned router ->
  Request.method req = GET ->
  splitPath (Request.path req) = segs ->
  optionalParameter segs k ->
  Request.headers req !! "x-shop-domain" = Some d -> d <> "" ->
  Request.query req = VObj fields ->
  (forall e ps,
     findRoute router (Request.method req) (Request.path req)
     = Some (Operation e, ps) ->
     queryIssues e (Request.query req) = []) ->
  assoc k fields = None ->
  handedOver (snd (handle router req w)) k
  = Some (if String.eqb k "force" then VBool false else VUndefined).
Proof.
  intros Hr Hm Hp Hop Hd Hne Hq Hvalid Hk.
  apply betterShop_inv in Hr. subst router.
  destruct Hop as [| |k Hin|h Hh|k Hin|h|h k Hin].
  - rewrite (handle_info delegate opts req w d Hd Hne Hm Hp)
      by (eapply Hvalid, route_info; eassumption).
    rewrite Hq. cbn [run snd handedOver optionsOf prop assoc String.eqb
                     Ascii.eqb Bool.eqb]. rewrite Hk. reflexivity.
  - rewrite (handle_products_all delegate opts req w d Hd Hne Hm Hp)
      by (eapply Hvalid, route_products_all; eassumption).
    rewrite Hq. cbn [run snd handedOver optionsOf prop assoc String.eqb
                     Ascii.eqb Bool.eqb]. rewrite Hk. reflexivity.
  - rewrite (handle_products_paginated delegate opts req w d Hd Hne Hm Hp)
      by (eapply Hvalid, route_products_paginated; eassumption).
    rewrite Hq. cbn [In] in Hin.
    destruct Hin as [<-|[<-|[<-|[]]]];
      cbn [run snd handedOver optionsOf pageOptions prop assoc String.eqb
           Ascii.eqb Bool.eqb]; rewrite Hk; reflexivity.
  - rewrite (handle_product delegate opts req w d Hd Hne h Hm Hp Hh).
    + rewrite Hq. cbn [handedOver optionsOf prop assoc String.eqb
                       Ascii.eqb Bool.eqb]. rewrite Hk. reflexivity.
    + eapply Hvalid, route_product; try eassumption;
        intro; subst; cbn [In] in Hh; tauto.
  - rewrite (handle_collections_paginated delegate opts req w d Hd Hne Hm Hp)
      by (eapply Hvalid, route_collections_paginated; eassumption).
    rewrite Hq. cbn [In] in Hin.
    destruct Hin as [<-|[<-|[]]];
      cbn [run snd handedOver optionsOf pageOptions2 prop assoc String.eqb
           Ascii.eqb Bool.eqb]; rewrite Hk; reflexivity.
  - rewrite (handle_collection_products_all delegate opts req w d Hd Hne h Hm Hp)
      by (eapply Hvalid, route_collection_products_all; eassumption).
    rewrite Hq. cbn [run snd handedOver optionsOf prop assoc String.eqb
                     Ascii.eqb Bool.eqb]. rewrite Hk. reflexivity.
  - rewrite (handle_collection_products_paginated delegate opts req w d Hd Hne
               h Hm Hp)
      by (eapply Hvalid, route_collection_products_paginated; eassumption).
    rewrite Hq. cbn [In] in Hin.
    destruct Hin as [<-|[<-|[<-|[]]]];
      cbn [run snd handedOver optionsOf pageOptions prop assoc String.eqb
           Ascii.eqb Bool.eqb]; rewrite Hk; reflexivity.
Qed.

(** [GET /products/paginated?page=2]: no [limit]. *)
Lemma C6_omitted_parameters_witness :
  handedOver
    (snd (handle (theRouter Mock.delegate None)
            (Request.mk GET "/products/paginated" Mock.tenant
               (VObj [("page", VStr "2")]) VUndefined) tt)) "limit"
  = Some VUndefined.
Proof.
  apply (C6_omitted_parameters Mock.delegate None _ _ tt "mock.myshopify.com"
           [("page", VStr "2")] ["products"; "paginated"] "limit").
  - apply betterShop_router.
  - reflexivity.
  - reflexivity.
  - apply products_paginated. right; left; reflexivity.
  - reflexivity.
  - discriminate.
  - reflexivity.
  - intros e ps H.
    match type of H with
    | findRoute _ (Request.method ?r) _ = _ =>
        rewrite (route_products_paginated Mock.delegate None r eq_refl eq_refl)
          in H
    end.
    injection H as <- _. reflexivity.
  - reflexivity.
Defined.

(** ** Clearing the cache *)

(** C9: [POST /info/clear-cache] with the tenant header calls the
    cache-clearing capability of the client and answers 200 with
    [{ success: true }] in every state of the cache, and so again when
    the request is repeated in the state that the first call has left,
    provided that capability completes. *)
Theorem C9_clear_cache_idempotent {World : Type}
    (delegate : External -> World -> Completion value * World)
    (opts : option ShopClientOptions) router req d :
  betterShop delegate opts = Returned router ->
  Request.method req = POST ->
  splitPath (Request.path req) = ["info"; "clear-cache"] ->
  Request.headers req !! "x-shop-domain" = Some d -> d <> "" ->
  let c := Client (mkShopClient d opts) ClearInfoCache in
  (forall w, exists v w', delegate c w = (Returned v, w')) ->
  forall w,
    let w1 := snd (delegate c w) in
    let w2 := snd (delegate c w1) in
    handle router req w = (Json success, w1, [c]) /\
    handle router req w1 = (Json success, w2, [c]).
Proof.
  intros Hr Hm Hp Hd Hne c Hc w w1 w2.
  apply betterShop_inv in Hr. subst router.
  assert (H : forall w0,
    handle (theRouter delegate opts) req w0
    = (Json success, snd (delegate c w0), [c])).
  { intros w0.
    rewrite (handle_operation _ _ _ _ _
               (route_clear_cache delegate opts req Hm Hp)).
    rewrite (invoke_plain
               (clearInfoCache (buildStoreEndpoints delegate (makeGetShop opts)))
               _ w0 eq_refl eq_refl).
    cbn [handler clearInfoCache buildStoreEndpoints].
    rewrite with_tenant with (d := d) by (cbn; assumption).
    rewrite bind_call. fold c. destruct (Hc w0) as (v & w' & ->).
    reflexivity. }
  split; apply H.
Qed.

(** Against the client with a cache: first with the cache filled, then
    with the cache that the first request has emptied. *)
Lemma C9_clear_cache_idempotent_witness :
  let req :=
    Request.mk POST "/info/clear-cache" Mock.tenant (VObj []) VUndefined in
  let c := Client (mkShopClient "mock.myshopify.com" None) ClearInfoCache in
  let filled := Some (VObj [("name", VStr "Store")]) in
  handle (theRouter Caching.delegate None) req filled
  = (Json success, None, [c]) /\
  handle (theRouter Caching.delegate None) req None
  = (Json success, None, [c]).
Proof.
  intros req c filled.
  apply (C9_clear_cache_idempotent Caching.delegate None _ req
           "mock.myshopify.com" (betterShop_router _ _) eq_refl eq_refl
           eq_refl ltac:(discriminate)
           (fun w => ex_intro _ VUndefined (ex_intro _ None eq_refl)) filled).
Defined.

(** ** Merging registries *)

Section Merging.

Context {World : Type}.

Implicit Types a b : Registry (World := World).





End Merging.




(* ================================================================== *)
(** * Further properties of the handlers *)
(* ================================================================== *)

(** Unfold the handler of any of the nineteen operations. *)
Ltac open_handler :=
  cbn [handler getInfo clearInfoCache determineStoreType getAllProducts
       getPaginatedProducts getShowcasedProducts getProductFilters getProduct
       getEnrichedProduct classifyProduct generateProductSEO
       getAllCollections getPaginatedCollections getShowcasedCollections
       getCollection getCollectionProductsAll getCollectionProductsPaginated
       getCollectionProductSlugs createCheckoutUrl buildStoreEndpoints
       buildProductEndpoints buildCollectionEndpoints buildCheckoutEndpoints].

Section Handlers.

Context {World : Type}.
Variable delegate : External -> World -> Completion value * World.
Variable opts : option ShopClientOptions.

Lemma handler_empty_tenant e ctx w :
  In e (operations delegate opts) ->
  headers ctx ≫= (.!! "x-shop-domain") = Some "" ->
  handler e ctx w
  = (Threw (Error "x-shop-domain header is required"), w, []).
Proof.
  intros Hin Hh. unfold operations in Hin. cbn [map snd app storeEntries
    productEntries collectionEntries checkoutEntries In] in Hin.
  repeat (destruct Hin as [<-|Hin]; [apply bind_threw, getShop_empty, Hh|]).
  destruct Hin.
Qed.

(** With the tenant known, a handler makes exactly one call, on the
    client of that tenant. *)
Lemma handler_one_call e ctx w d :
  In e (operations delegate opts) ->
  headers ctx ≫= (.!! "x-shop-domain") = Some d -> d <> "" ->
  exists c, snd (handler e ctx w) = [Client (mkShopClient d opts) c].
Proof.
  intros Hin Hh Hd. unfold operations in Hin. cbn [map snd app storeEntries
    productEntries collectionEntries checkoutEntries In] in Hin.
  repeat (destruct Hin as [<-|Hin];
    [open_handler; rewrite (with_tenant opts _ _ d w Hh Hd);
     first
       [ rewrite bind_call;
         destruct (delegate _ w) as [[v|f] w1]; cbn;
         [ try destruct (truthy v) |]; eexists; reflexivity
       | unfold call; destruct (delegate _ w) as [r w1]; eexists; reflexivity ]
    |]).
  destruct Hin.
Qed.

(** A plain handler is its one call. *)
Lemma handler_plain e ctx d :
  In e (plainOperations delegate opts) ->
  headers ctx ≫= (.!! "x-shop-domain") = Some d -> d <> "" ->
  exists c, forall w,
    handler e ctx w = call delegate (Client (mkShopClient d opts) c) w.
Proof.
  intros Hin Hh Hd. unfold plainOperations in Hin. cbn [In] in Hin.
  repeat (destruct Hin as [<-|Hin];
    [open_handler; eexists; intros w;
     rewrite (with_tenant opts _ _ d w Hh Hd); reflexivity |]).
  destruct Hin.
Qed.

Lemma plain_is_operation e :
  In e (plainOperations delegate opts) -> In e (operations delegate opts).
Proof.
  unfold plainOperations, operations. cbn [map snd app storeEntries
    productEntries collectionEntries checkoutEntries In].
  intros H. repeat (destruct H as [<-|H]; [tauto|]). destruct H.
Qed.

End Handlers.

(** X1: whatever the request, the assembled router makes at most one call,
    and a call it makes is a method of the client built for the domain in
    the [x-shop-domain] header of that request, with the options given to
    [betterShop]: no request reaches the store of another tenant, and none
    calls the exported utilities. *)
Theorem X1_calls_are_scoped_to_the_tenant {World : Type}
    (delegate : External -> World -> Completion value * World)
    (opts : option ShopClientOptions) router req w x :
  betterShop delegate opts = Returned router ->
  In x (snd (handle router req w)) ->
  exists d c,
    Request.headers req !! "x-shop-domain" = Some d /\ d <> "" /\
    x = Client (mkShopClient d opts) c /\
    snd (handle router req w) = [x].
Proof.
  intros Hr Hx. apply betterShop_inv in Hr. subst router.
  destruct (findRoute (theRouter delegate opts) (Request.method req)
              (Request.path req)) as [[[e|t] ps]|] eqn:Hf.
  - rewrite (handle_operation _ _ _ _ _ Hf) in Hx |- *.
    assert (He := findRoute_operation opts delegate req e ps Hf).
    match type of Hx with
    | context [invoke e ?c w] =>
        destruct (runValidation (options e) c) as [issues|ctx'] eqn:Hv
    end.
    + rewrite (invoke_invalid _ _ _ _ Hv) in Hx. destruct Hx.
    + rewrite (invoke_valid _ _ _ _ Hv) in Hx |- *.
      assert (Hh := runValidation_headers _ _ _ Hv). cbn [headers] in Hh.
      destruct (Request.headers req !! "x-shop-domain") as [d|] eqn:Hd.
      * destruct (decide (d = "")) as [->|Hne].
        -- rewrite (handler_empty_tenant delegate opts e ctx' w He) in Hx
             by (rewrite Hh; exact Hd).
           destruct Hx.
        -- destruct (handler_one_call delegate opts e ctx' w d He) as [c Hc];
             [rewrite Hh; exact Hd | exact Hne |].
           destruct (handler e ctx' w) as [[r w1] t]. cbn [snd] in *.
           subst t. destruct Hx as [<-|[]]. now exists d, c.
      * rewrite (handler_without_tenant opts delegate e ctx' w He) in Hx
          by (rewrite Hh; exact Hd).
        destruct Hx.
  - unfold handle in Hx. rewrite Hf in Hx. destruct Hx.
  - rewrite (handle_no_route _ _ _ Hf) in Hx. destruct Hx.
Qed.

(** [GET /collections/shoes/slugs] for the tenant of the tests. *)
Lemma X1_calls_are_scoped_to_the_tenant_witness :
  let req :=
    Request.mk GET "/collections/shoes/slugs" Mock.tenant (VObj []) VUndefined in
  let x :=
    Client (mkShopClient "mock.myshopify.com" None)
      (CollectionsProductsSlugs (VStr "shoes")) in
  exists d c,
    Request.headers req !! "x-shop-domain" = Some d /\ d <> "" /\
    x = Client (mkShopClient d None) c /\
    snd (handle (theRouter Mock.delegate None) req tt) = [x].
Proof.
  intros req x.
  apply (X1_calls_are_scoped_to_the_tenant Mock.delegate None _ req tt x).
  - apply betterShop_router.
  - vm_compute. left. reflexivity.
Defined.

(** X2: an [x-shop-domain] header whose value is the empty string counts
    as no header: nothing is called, the state is left alone, and a request
    that matches an operation and passes its validation is answered 500. *)
Theorem X2_empty_tenant_header {World : Type}
    (delegate : External -> World -> Completion value * World)
    (opts : option ShopClientOptions) router req w :
  betterShop delegate opts = Returned router ->
  Request.headers req !! "x-shop-domain" = Some "" ->
  exists r,
    handle router req w = (r, w, []) /\
    forall e ps ctx',
      findRoute router (Request.method req) (Request.path req)
      = Some (Operation e, ps) ->
      runValidation (options e)
        (mkContext (Some (Request.headers req)) ps
           (Request.query req) (Request.body req)) = inr ctx' ->
      r = Empty 500.
Proof.
  intros Hr Hh. apply betterShop_inv in Hr. subst router.
  destruct (findRoute (theRouter delegate opts) (Request.method req)
              (Request.path req)) as [[[e|t] ps]|] eqn:Hf.
  - rewrite (handle_operation _ _ _ _ _ Hf).
    match goal with
    | |- context [invoke e ?c w] =>
        destruct (runValidation (options e) c) as [issues|ctx'] eqn:Hv
    end.
    + rewrite (invoke_invalid _ _ _ _ Hv). eexists; split; [reflexivity|].
      intros e' ps' ctx' [= <- <-]. congruence.
    + rewrite (invoke_valid _ _ _ _ Hv).
      rewrite (handler_empty_tenant delegate opts e ctx' w).
      * eexists; split; reflexivity.
      * eapply findRoute_operation, Hf.
      * rewrite (runValidation_headers _ _ _ Hv). exact Hh.
  - unfold handle. rewrite Hf. eexists; split; [reflexivity|].
    intros e ps' ctx' [=].
  - rewrite (handle_no_route _ _ _ Hf). eexists; split; [reflexivity|].
    intros e ps' ctx' [=].
Qed.

(** [GET /products/showcased] with an empty header value. *)
Lemma X2_empty_tenant_header_witness :
  let req :=
    Request.mk GET "/products/showcased" {[ "x-shop-domain" := "" ]}
      (VObj []) VUndefined in
  exists r,
    handle (theRouter Mock.delegate None) req tt = (r, tt, []) /\
    forall e ps ctx',
      findRoute (theRouter Mock.delegate None) (Request.method req)
        (Request.path req) = Some (Operation e, ps) ->
      runValidation (options e)
        (mkContext (Some (Request.headers req)) ps
           (Request.query req) (Request.body req)) = inr ctx' ->
      r = Empty 500.
Proof.
  intro req.
  apply (X2_empty_tenant_header Mock.delegate None _ req tt).
  - apply betterShop_router.
  - reflexivity.
Defined.

(** X3: fifteen of the operations add nothing to the capability they call:
    for a validated request with the tenant header, the response is the
    completion of one call (its result as the body of a 200, its failure as
    an error response) and the state is the one that call leaves. *)
Theorem X3_plain_operations_are_transparent {World : Type}
    (delegate : External -> World -> Completion value * World)
    (opts : option ShopClientOptions) router req w e ps ctx' d :
  betterShop delegate opts = Returned router ->
  findRoute router (Request.method req) (Request.path req)
  = Some (Operation e, ps) ->
  In e (plainOperations delegate opts) ->
  runValidation (options e)
    (mkContext (Some (Request.headers req)) ps
       (Request.query req) (Request.body req)) = inr ctx' ->
  Request.headers req !! "x-shop-domain" = Some d -> d <> "" ->
  exists c,
    let call := Client (mkShopClient d opts) c in
    handle router req w
    = (toResponse (fst (delegate call w)), snd (delegate call w), [call]).
Proof.
  intros _ Hf He Hv Hd Hne.
  destruct (handler_plain delegate opts e ctx' d He) as [c Hc];
    [rewrite (runValidation_headers _ _ _ Hv); exact Hd | exact Hne |].
  exists c. cbn zeta.
  rewrite (handle_operation _ _ _ _ _ Hf), (invoke_valid _ _ _ _ Hv), Hc.
  apply call_run.
Qed.

Section MoreRoutes.

Context {World : Type}.
Variable delegate : External -> World -> Completion value * World.
Variable options : option ShopClientOptions.

Local Abbreviation getShop := (makeGetShop (World := World) options).
Let router := theRouter delegate options.
Let store := buildStoreEndpoints delegate getShop.
Let products := buildProductEndpoints delegate getShop.
Let collections := buildCollectionEndpoints delegate getShop.

Variable req : Request.t.

Let found := findRoute router (Request.method req) (Request.path req).

Lemma route_products_showcased :
  Request.method req = GET ->
  splitPath (Request.path req) = ["products"; "showcased"] ->
  found = Some (Operation (getShowcasedProducts products), VObj []).
Proof. intros Hm Hp. subst found router products. route Hm Hp. Qed.

Lemma route_products_filters :
  Request.method req = GET ->
  splitPath (Request.path req) = ["products"; "filters"] ->
  found = Some (Operation (getProductFilters products), VObj []).
Proof. intros Hm Hp. subst found router products. route Hm Hp. Qed.

Lemma route_collections_all :
  Request.method req = GET ->
  splitPath (Request.path req) = ["collections"; "all"] ->
  found = Some (Operation (getAllCollections collections), VObj []).
Proof. intros Hm Hp. subst found router collections. route Hm Hp. Qed.

Lemma route_collections_showcased :
  Request.method req = GET ->
  splitPath (Request.path req) = ["collections"; "showcased"] ->
  found = Some (Operation (getShowcasedCollections collections), VObj []).
Proof. intros Hm Hp. subst found router collections. route Hm Hp. Qed.

Lemma route_collection_slugs h :
  Request.method req = GET ->
  splitPath (Request.path req) = ["collections"; h; "slugs"] ->
  found = Some (Operation (getCollectionProductSlugs collections),
                VObj [("handle", VStr h)]).
Proof. intros Hm Hp. subst found router collections. route Hm Hp. Qed.

Lemma route_store_type :
  Request.method req = POST ->
  splitPath (Request.path req) = ["store-type"] ->
  found = Some (Operation (determineStoreType store), VObj []).
Proof. intros Hm Hp. subst found router store. route Hm Hp. Qed.

Lemma route_product_enriched h :
  Request.method req = POST ->
  splitPath (Request.path req) = ["products"; h; "enriched"] ->
  found = Some (Operation (getEnrichedProduct products),
                VObj [("handle", VStr h)]).
Proof. intros Hm Hp. subst found router products. route Hm Hp. Qed.

End MoreRoutes.

(** [GET /products/showcased] against the mocked client. *)
Lemma X3_plain_operations_are_transparent_witness :
  let req :=
    Request.mk GET "/products/showcased" Mock.tenant (VObj []) VUndefined in
  exists c,
    let call := Client (mkShopClient "mock.myshopify.com" None) c in
    handle (theRouter Mock.delegate None) req tt
    = (toResponse (fst (Mock.delegate call tt)), snd (Mock.delegate call tt),
       [call]).
Proof.
  intro req.
  apply (X3_plain_operations_are_transparent Mock.delegate None _ req tt
           (getShowcasedProducts
              (buildProductEndpoints Mock.delegate (makeGetShop None)))
           (VObj [])
           (mkContext (Some Mock.tenant) (VObj []) (VObj []) VUndefined)).
  - apply betterShop_router.
  - apply route_products_showcased; reflexivity.
  - unfold plainOperations. cbn [In]. tauto.
  - reflexivity.
  - reflexivity.
  - discriminate.
Defined.

Section MoreDispatch.

Context {World : Type}.

Lemma invoke_body (e : Endpoint (World := World)) h ps q b t w :
  Options.body (options e) = Some t ->
  Options.query (options e) = None ->
  validate (schema t) [] b = [] ->
  invoke e (mkContext h ps q b) w
  = handler e
      (mkContext h ps q (match morph t with Some f => f b | None => b end)) w.
Proof.
  intros Hb Hq Hv. unfold invoke, runValidation, parse. cbn [body query].
  rewrite Hb, Hq, Hv. reflexivity.
Qed.

Lemma invoke_body_invalid (e : Endpoint (World := World)) h ps q b t w :
  Options.body (options e) = Some t ->
  noIssue (validate (schema t) [] b) = false ->
  exists issues,
    issues <> [] /\
    invoke e (mkContext h ps q b) w = (Threw (APIError 400 issues), w, []).
Proof.
  intros Hb Hv. unfold invoke, runValidation, parse. cbn [body query].
  rewrite Hb. destruct (validate (schema t) [] b) as [|i l]; [discriminate|].
  exists (i :: l). split; [discriminate | reflexivity].
Qed.

Lemma invoke_query_invalid (e : Endpoint (World := World)) h ps q b t w :
  Options.body (options e) = None ->
  Options.query (options e) = Some t ->
  noIssue (validate (schema t) [] q) = false ->
  exists issues,
    issues <> [] /\
    invoke e (mkContext h ps q b) w = (Threw (APIError 400 issues), w, []).
Proof.
  intros Hb Hq Hv. unfold invoke, runValidation, parse. cbn [body query].
  rewrite Hb, Hq. destruct (validate (schema t) [] q) as [|i l]; [discriminate|].
  exists (i :: l). split; [discriminate | reflexivity].
Qed.

Lemma handle_invalid (r : Router (World := World)) req w e ps :
  findRoute r (Request.method req) (Request.path req)
  = Some (Operation e, ps) ->
  (exists issues,
     issues <> [] /\
     invoke e (mkContext (Some (Request.headers req)) ps (Request.query req)
                 (Request.body req)) w
     = (Threw (APIError 400 issues), w, [])) ->
  exists issues,
    issues <> [] /\ handle r req w = (ErrorResponse 400 issues, w, []).
Proof.
  intros Hf (issues & Hne & Hi). exists issues. split; [exact Hne|].
  rewrite (handle_operation _ _ _ _ _ Hf), Hi. reflexivity.
Qed.

(** A value that is neither a string nor a number fails [string|number]. *)
Lemma noIssue_stringOrNumber p v :
  asStringOrNumber v = None ->
  noIssue (validate stringOrNumber p v) = false.
Proof. destruct v; cbn; intros H; try reflexivity; discriminate H. Qed.

(** A value that is none of two literals fails their union. *)
Lemma noIssue_literals p a b v :
  v <> VStr a -> v <> VStr b ->
  noIssue (validate (SUnion (SLit a) (SLit b)) p v) = false.
Proof.
  intros Ha Hb. cbn [validate].
  assert (H : forall l, v <> VStr l -> strictEqStr v l = false).
  { intros l Hl. destruct v; try reflexivity. cbn.
    destruct (String.eqb_spec s l); [subst; congruence | reflexivity]. }
  rewrite (H a Ha), (H b Hb). reflexivity.
Qed.

End MoreDispatch.

(** X4: a [POST /checkout/url] request with the tenant header and a
    payload of the right shape calls the checkout capability once with the
    body as it came, keys that the schema does not name included, and
    answers [{ url: u }] for the [u] that the capability returns; a failure
    of the capability is answered as an error. *)
Theorem X4_checkout_wraps_the_url {World : Type}
    (delegate : External -> World -> Completion value * World)
    (opts : option ShopClientOptions) router req w d :
  betterShop delegate opts = Returned router ->
  Request.method req = POST ->
  splitPath (Request.path req) = ["checkout"; "url"] ->
  wellFormedCheckout (Request.body req) = true ->
  Request.headers req !! "x-shop-domain" = Some d -> d <> "" ->
  let c := Client (mkShopClient d opts) (CheckoutCreateUrl (Request.body req)) in
  handle router req w
  = match delegate c w with
    | (Returned u, w1) => (Json (VObj [("url", u)]), w1, [c])
    | (Threw f, w1) => (toResponse (Threw f), w1, [c])
    end.
Proof.
  intros Hr Hm Hp Hb Hd Hne c. apply betterShop_inv in Hr. subst router.
  rewrite (handle_operation _ _ _ _ _ (route_checkout delegate opts req Hm Hp)).
  rewrite <- validate_checkout in Hb.
  rewrite (invoke_body
             (createCheckoutUrl (buildCheckoutEndpoints delegate (makeGetShop opts)))
             _ _ _ _ (type checkoutBody) w eq_refl eq_refl)
    by (destruct (validate _ _ _); [reflexivity | discriminate]).
  open_handler. rewrite with_tenant with (d := d) by (cbn; assumption).
  rewrite bind_call. cbn [body morph type]. fold c.
  destruct (delegate c w) as [[u|f] w1]; reflexivity.
Qed.

(** The well-formed payload of the tests with one more key. *)
Lemma X4_checkout_wraps_the_url_witness :
  let payload :=
    VObj [("email", VStr "test@example.com"); ("items", VArr []);
          ("address", Mock.address); ("note", VStr "gift")] in
  handle (theRouter Mock.delegate None)
    (Request.mk POST "/checkout/url" Mock.tenant (VObj []) payload) tt
  = (Json (VObj [("url", VStr "https://checkout.url")]), tt,
     [Client (mkShopClient "mock.myshopify.com" None)
        (CheckoutCreateUrl payload)]).
Proof.
  intro payload.
  apply (X4_checkout_wraps_the_url Mock.delegate None _
           (Request.mk POST "/checkout/url" Mock.tenant (VObj []) payload) tt
           "mock.myshopify.com" (betterShop_router _ _) eq_refl eq_refl
           eq_refl eq_refl ltac:(discriminate)).
Defined.

(** X5: on the two find-by-handle operations, what the find capability
    returns for the handle, when it is a truthy value, is the body of the
    200 response, unchanged. *)
Theorem X5_found_is_returned {World : Type}
    (delegate : External -> World -> Completion value * World)
    (opts : option ShopClientOptions) router req w h d v w1 :
  betterShop delegate opts = Returned router ->
  Request.method req = GET ->
  Request.headers req !! "x-shop-domain" = Some d -> d <> "" ->
  truthy v = true ->
  let ctx :=
    mkContext (Some (Request.headers req)) (VObj [("handle", VStr h)])
      (Request.query req) (Request.body req) in
  let shop := mkShopClient d opts in
  (splitPath (Request.path req) = ["products"; h] ->
   ~ In h ["all"; "paginated"; "showcased"; "filters"] ->
   validate (schema currencyQuery) [] (Request.query req) = [] ->
   delegate (findProduct shop ctx) w = (Returned v, w1) ->
   handle router req w = (Json v, w1, [findProduct shop ctx]))
  /\
  (splitPath (Request.path req) = ["collections"; h] ->
   ~ In h ["all"; "paginated"; "showcased"] ->
   delegate (findCollection shop ctx) w = (Returned v, w1) ->
   handle router req w = (Json v, w1, [findCollection shop ctx])).
Proof.
  intros Hr Hm Hd Hne Hv ctx shop. apply betterShop_inv in Hr. subst router.
  split.
  - intros Hp Hh Hq Hc. cbn [In] in Hh.
    rewrite (handle_operation _ _ _ _ _
               (route_product delegate opts req h Hm Hp
                  ltac:(intro; subst; tauto) ltac:(intro; subst; tauto)
                  ltac:(intro; subst; tauto) ltac:(intro; subst; tauto))).
    rewrite (invoke_query (getProduct (buildProductEndpoints delegate _))
               _ _ _ _ currencyQuery w eq_refl eq_refl Hq).
    rewrite getProduct_handler with (d := d) by (cbn; assumption).
    cbn zeta. fold shop. change (mkContext _ _ _ _) with ctx.
    rewrite Hc, Hv. reflexivity.
  - intros Hp Hh Hc. cbn [In] in Hh.
    rewrite (handle_operation _ _ _ _ _
               (route_collection delegate opts req h Hm Hp
                  ltac:(intro; subst; tauto) ltac:(intro; subst; tauto)
                  ltac:(intro; subst; tauto))).
    rewrite (invoke_plain
               (getCollection (buildCollectionEndpoints delegate _))
               _ w eq_refl eq_refl).
    rewrite getCollection_handler with (d := d) by (cbn; assumption).
    cbn zeta. fold shop. fold ctx. rewrite Hc, Hv. reflexivity.
Qed.

(** The product and the collection named [exists] of the mocked client. *)
Lemma X5_found_is_returned_witness :
  let shop := mkShopClient "mock.myshopify.com" None in
  handle (theRouter Mock.delegate None)
    (Request.mk GET "/products/exists" Mock.tenant (VObj []) VUndefined) tt
  = (Json (VObj [("id", VStr "3"); ("title", VStr "Product 3")]), tt,
     [Client shop
        (ProductsFind (VStr "exists") (VObj [("currency", VUndefined)]))])
  /\
  handle (theRouter Mock.delegate None)
    (Request.mk GET "/collections/exists" Mock.tenant (VObj []) VUndefined) tt
  = (Json (VObj [("id", VStr "c3"); ("title", VStr "Collection 3")]), tt,
     [Client shop (CollectionsFind (VStr "exists"))]).
Proof.
  intros shop. split.
  - apply (proj1 (X5_found_is_returned Mock.delegate None _
                    (Request.mk GET "/products/exists" Mock.tenant (VObj [])
                       VUndefined) tt "exists" "mock.myshopify.com"
                    (VObj [("id", VStr "3"); ("title", VStr "Product 3")]) tt
                    (betterShop_router _ _) eq_refl eq_refl
                    ltac:(discriminate) eq_refl));
      [reflexivity | | reflexivity | reflexivity].
    intros [E|[E|[E|[E|[]]]]]; discriminate E.
  - apply (proj2 (X5_found_is_returned Mock.delegate None _
                    (Request.mk GET "/collections/exists" Mock.tenant (VObj [])
                       VUndefined) tt "exists" "mock.myshopify.com"
                    (VObj [("id", VStr "c3"); ("title", VStr "Collection 3")])
                    tt (betterShop_router _ _) eq_refl eq_refl
                    ltac:(discriminate) eq_refl));
      [reflexivity | | reflexivity].
    intros [E|[E|[E|[]]]]; discriminate E.
Defined.

(** X6: [GET /info] forces a refresh for [force=true] and for nothing
    else: the store-info capability is handed [force: true] when the
    parameter is the string [true], and [force: false] for every other
    string ([1], [TRUE], [yes], the empty string). *)
Theorem X6_force_is_the_string_true {World : Type}
    (delegate : External -> World -> Completion value * World)
    (opts : option ShopClientOptions) router req w d fields s :
  betterShop delegate opts = Returned router ->
  Request.method req = GET ->
  splitPath (Request.path req) = ["info"] ->
  Request.headers req !! "x-shop-domain" = Some d -> d <> "" ->
  Request.query req = VObj fields ->
  assoc "force" fields = Some (VStr s) ->
  let c :=
    Client (mkShopClient d opts)
      (GetInfo (VObj [("force", VBool (String.eqb s "true"))])) in
  handle router req w
  = (toResponse (fst (delegate c w)), snd (delegate c w), [c]).
Proof.
  intros Hr Hm Hp Hd Hne Hq Hf c. apply betterShop_inv in Hr. subst router.
  rewrite (handle_info delegate opts req w d Hd Hne Hm Hp).
  - rewrite Hq. cbn [prop]. rewrite Hf. reflexivity.
  - rewrite Hq. unfold queryIssues.
    cbn [options Options.query getInfo buildStoreEndpoints schema pipe type].
    rewrite validate_object, validateFields_cons, Hf. reflexivity.
Qed.

(** [force=1] does not force. *)
Lemma X6_force_is_the_string_true_witness :
  snd (handle (theRouter Mock.delegate None)
         (Request.mk GET "/info" Mock.tenant (VObj [("force", VStr "1")])
            VUndefined) tt)
  = [Client (mkShopClient "mock.myshopify.com" None)
       (GetInfo (VObj [("force", VBool false)]))].
Proof.
  rewrite (X6_force_is_the_string_true Mock.delegate None _
             (Request.mk GET "/info" Mock.tenant (VObj [("force", VStr "1")])
                VUndefined) tt
             "mock.myshopify.com" [("force", VStr "1")] "1"
             (betterShop_router _ _) eq_refl eq_refl eq_refl
             ltac:(discriminate) eq_refl eq_refl).
  reflexivity.
Defined.

(** X7: on every operation that reads [currency], a currency given in the
    query is handed to the capability as the same string. *)
Theorem X7_currency_is_passed_on {World : Type}
    (delegate : External -> World -> Completion value * World)
    (opts : option ShopClientOptions) router req w d fields segs c :
  betterShop delegate opts = Returned router ->
  Request.method req = GET ->
  splitPath (Request.path req) = segs ->
  optionalParameter segs "currency" ->
  Request.headers req !! "x-shop-domain" = Some d -> d <> "" ->
  Request.query req = VObj fields ->
  (forall e ps,
     findRoute router (Request.method req) (Request.path req)
     = Some (Operation e, ps) ->
     queryIssues e (Request.query req) = []) ->
  assoc "currency" fields = Some (VStr c) ->
  handedOver (snd (handle router req w)) "currency" = Some (VStr c).
Proof.
  intros Hr Hm Hp Hop Hd Hne Hq Hvalid Hk.
  apply betterShop_inv in Hr. subst router.
  remember "currency" as k eqn:Ek in Hop.
  destruct Hop as [| |k Hin|h Hh|k Hin|h|h k Hin]; try discriminate Ek;
    subst.
  - rewrite (handle_products_all delegate opts req w d Hd Hne Hm Hp)
      by (eapply Hvalid, route_products_all; eassumption).
    rewrite Hq. cbn [run snd handedOver optionsOf prop assoc String.eqb
                     Ascii.eqb Bool.eqb]. rewrite Hk. reflexivity.
  - rewrite (handle_products_paginated delegate opts req w d Hd Hne Hm Hp)
      by (eapply Hvalid, route_products_paginated; eassumption).
    rewrite Hq.
    cbn [run snd handedOver optionsOf pageOptions prop assoc String.eqb
         Ascii.eqb Bool.eqb]. rewrite Hk. reflexivity.
  - rewrite (handle_product delegate opts req w d Hd Hne h Hm Hp Hh).
    + rewrite Hq. cbn [handedOver optionsOf prop assoc String.eqb
                       Ascii.eqb Bool.eqb]. rewrite Hk. reflexivity.
    + eapply Hvalid, route_product; try eassumption;
        intro; subst; cbn [In] in Hh; tauto.
  - exfalso. cbn [In] in Hin. destruct Hin as [E|[E|[]]]; discriminate E.
  - rewrite (handle_collection_products_all delegate opts req w d Hd Hne h Hm Hp)
      by (eapply Hvalid, route_collection_products_all; eassumption).
    rewrite Hq. cbn [run snd handedOver optionsOf prop assoc String.eqb
                     Ascii.eqb Bool.eqb]. rewrite Hk. reflexivity.
  - rewrite (handle_collection_products_paginated delegate opts req w d Hd Hne
               h Hm Hp)
      by (eapply Hvalid, route_collection_products_paginated; eassumption).
    rewrite Hq.
    cbn [run snd handedOver optionsOf pageOptions prop assoc String.eqb
         Ascii.eqb Bool.eqb]. rewrite Hk. reflexivity.
Qed.

(** [GET /collections/shoes/products/all?currency=EUR]. *)
Lemma X7_currency_is_passed_on_witness :
  handedOver
    (snd (handle (theRouter Mock.delegate None)
            (Request.mk GET "/collections/shoes/products/all" Mock.tenant
               (VObj [("currency", VStr "EUR")]) VUndefined) tt)) "currency"
  = Some (VStr "EUR").
Proof.
  apply (X7_currency_is_passed_on Mock.delegate None _ _ tt
           "mock.myshopify.com" [("currency", VStr "EUR")]
           ["collections"; "shoes"; "products"; "all"] "EUR").
  - apply betterShop_router.
  - reflexivity.
  - reflexivity.
  - apply collection_products_all_currency.
  - reflexivity.
  - discriminate.
  - reflexivity.
  - intros e ps H.
    match type of H with
    | findRoute _ (Request.method ?r) _ = _ =>
        rewrite (route_collection_products_all Mock.delegate None r "shoes"
                   eq_refl eq_refl) in H
    end.
    injection H as <- _. reflexivity.
  - reflexivity.
Defined.

(** X8: on the three paginated operations a [page] or [limit] that is
    falsy (the empty string of [page=], the numbers 0 and NaN) is handed to
    the capability as undefined, as if it had been omitted: the empty
    string does not become the 0 that [Number] makes of it. *)
Theorem X8_falsy_page_is_dropped {World : Type}
    (delegate : External -> World -> Completion value * World)
    (opts : option ShopClientOptions) router req w d fields segs k v :
  betterShop delegate opts = Returned router ->
  Request.method req = GET ->
  splitPath (Request.path req) = segs ->
  optionalParameter segs k -> In k ["page"; "limit"] ->
  Request.headers req !! "x-shop-domain" = Some d -> d <> "" ->
  Request.query req = VObj fields ->
  (forall e ps,
     findRoute router (Request.method req) (Request.path req)
     = Some (Operation e, ps) ->
     queryIssues e (Request.query req) = []) ->
  assoc k fields = Some v -> truthy v = false ->
  handedOver (snd (handle router req w)) k = Some VUndefined
  /\ Number (inl "") = Int 0.
Proof.
  intros Hr Hm Hp Hop Hk2 Hd Hne Hq Hvalid Hk Hv. split; [|reflexivity].
  apply betterShop_inv in Hr. subst router. cbn [In] in Hk2.
  destruct Hop as [| |k Hin|h Hh|k Hin|h|h k Hin];
    try (exfalso; destruct Hk2 as [E|[E|[]]]; discriminate E).
  - rewrite (handle_products_paginated delegate opts req w d Hd Hne Hm Hp)
      by (eapply Hvalid, route_products_paginated; eassumption).
    rewrite Hq.
    destruct Hk2 as [<-|[<-|[]]];
      cbn [run snd handedOver optionsOf pageOptions prop assoc String.eqb
           Ascii.eqb Bool.eqb]; rewrite Hk; cbn -[numberIfTruthy];
      unfold numberIfTruthy; rewrite Hv; reflexivity.
  - rewrite (handle_collections_paginated delegate opts req w d Hd Hne Hm Hp)
      by (eapply Hvalid, route_collections_paginated; eassumption).
    rewrite Hq.
    destruct Hk2 as [<-|[<-|[]]];
      cbn [run snd handedOver optionsOf pageOptions2 prop assoc String.eqb
           Ascii.eqb Bool.eqb]; rewrite Hk; cbn -[numberIfTruthy];
      unfold numberIfTruthy; rewrite Hv; reflexivity.
  - rewrite (handle_collection_products_paginated delegate opts req w d Hd Hne
               h Hm Hp)
      by (eapply Hvalid, route_collection_products_paginated; eassumption).
    rewrite Hq.
    destruct Hk2 as [<-|[<-|[]]];
      cbn [run snd handedOver optionsOf pageOptions prop assoc String.eqb
           Ascii.eqb Bool.eqb]; rewrite Hk; cbn -[numberIfTruthy];
      unfold numberIfTruthy; rewrite Hv; reflexivity.
Qed.

(** [GET /collections/paginated] with the page [page=] of a query string,
    and with the pages [NaN] and [0] of a query object. *)
Lemma X8_falsy_page_is_dropped_witness :
  let dropped v :=
    handedOver
      (snd (handle (theRouter Mock.delegate None)
              (Request.mk GET "/collections/paginated" Mock.tenant
                 (VObj [("page", v); ("limit", VStr "5")]) VUndefined) tt))
      "page"
    = Some VUndefined in
  dropped (VStr "") /\ dropped (VNum NaN) /\ dropped (VNum (Int 0)).
Proof.
  intros dropped.
  assert (H : forall v, asStringOrNumber v <> None -> truthy v = false ->
                        dropped v).
  { intros v Hx Hv.
    apply (X8_falsy_page_is_dropped Mock.delegate None _
             (Request.mk GET "/collections/paginated" Mock.tenant
                (VObj [("page", v); ("limit", VStr "5")]) VUndefined) tt
             "mock.myshopify.com" [("page", v); ("limit", VStr "5")]
             ["collections"; "paginated"] "page" v
             (betterShop_router _ _) eq_refl eq_refl
             (collections_paginated "page" (or_introl eq_refl))
             (or_introl eq_refl) eq_refl ltac:(discriminate) eq_refl);
      [|reflexivity|exact Hv].
    intros e ps Hf.
    match type of Hf with
    | findRoute _ (Request.method ?r) _ = _ =>
        rewrite (route_collections_paginated Mock.delegate None r
                   eq_refl eq_refl) in Hf
    end.
    injection Hf as <- _.
    destruct v; try (exfalso; now apply Hx); reflexivity. }
  split; [|split]; apply H; (discriminate || reflexivity).
Defined.

(** X9: on the three paginated operations a [page] or [limit] that is
    neither a string nor a number (the array that a repeated parameter
    makes, a boolean, null, an object) is a validation failure: 400 with
    diagnostics, whatever the headers, and nothing is called. *)
Theorem X9_page_must_be_string_or_number {World : Type}
    (delegate : External -> World -> Completion value * World)
    (opts : option ShopClientOptions) router req w fields segs k v :
  betterShop delegate opts = Returned router ->
  Request.method req = GET ->
  splitPath (Request.path req) = segs ->
  optionalParameter segs k -> In k ["page"; "limit"] ->
  Request.query req = VObj fields ->
  assoc k fields = Some v -> asStringOrNumber v = None ->
  exists issues,
    issues <> [] /\ handle router req w = (ErrorResponse 400 issues, w, []).
Proof.
  intros Hr Hm Hp Hop Hk2 Hq Hk Hv.
  apply betterShop_inv in Hr. subst router. cbn [In] in Hk2.
  destruct Hop as [| |k Hin|h Hh|k Hin|h|h k Hin];
    try (exfalso; destruct Hk2 as [E|[E|[]]]; discriminate E).
  - apply (handle_invalid _ _ _ _ _
             (route_products_paginated delegate opts req Hm Hp)).
    rewrite Hq.
    apply (invoke_query_invalid
             (getPaginatedProducts
                (buildProductEndpoints delegate (makeGetShop opts)))
             _ _ _ _ _ w eq_refl eq_refl).
    cbn [schema pipe type].
    rewrite validate_object, !validateFields_cons, !noIssue_app.
    destruct Hk2 as [<-|[<-|[]]]; rewrite Hk, noIssue_stringOrNumber by exact Hv;
      cbn [andb]; rewrite ?andb_false_r; reflexivity.
  - apply (handle_invalid _ _ _ _ _
             (route_collections_paginated delegate opts req Hm Hp)).
    rewrite Hq.
    apply (invoke_query_invalid
             (getPaginatedCollections
                (buildCollectionEndpoints delegate (makeGetShop opts)))
             _ _ _ _ _ w eq_refl eq_refl).
    cbn [schema pipe type].
    rewrite validate_object, !validateFields_cons, !noIssue_app.
    destruct Hk2 as [<-|[<-|[]]]; rewrite Hk, noIssue_stringOrNumber by exact Hv;
      cbn [andb]; rewrite ?andb_false_r; reflexivity.
  - apply (handle_invalid _ _ _ _ _
             (route_collection_products_paginated delegate opts req h Hm Hp)).
    rewrite Hq.
    apply (invoke_query_invalid
             (getCollectionProductsPaginated
                (buildCollectionEndpoints delegate (makeGetShop opts)))
             _ _ _ _ _ w eq_refl eq_refl).
    cbn [schema pipe type].
    rewrite validate_object, !validateFields_cons, !noIssue_app.
    destruct Hk2 as [<-|[<-|[]]]; rewrite Hk, noIssue_stringOrNumber by exact Hv;
      cbn [andb]; rewrite ?andb_false_r; reflexivity.
Qed.

(** [GET /products/paginated?page=1&page=2], without the tenant header. *)
Lemma X9_page_must_be_string_or_number_witness :
  exists issues,
    issues <> [] /\
    handle (theRouter Mock.delegate None)
      (Request.mk GET "/products/paginated" ∅
         (VObj [("page", VArr [VStr "1"; VStr "2"])]) VUndefined) tt
    = (ErrorResponse 400 issues, tt, []).
Proof.
  apply (X9_page_must_be_string_or_number Mock.delegate None _ _ tt
           [("page", VArr [VStr "1"; VStr "2"])] ["products"; "paginated"]
           "page" (VArr [VStr "1"; VStr "2"])).
  - apply betterShop_router.
  - reflexivity.
  - reflexivity.
  - apply products_paginated. left; reflexivity.
  - left; reflexivity.
  - reflexivity.
  - reflexivity.
  - reflexivity.
Defined.

(** X10: [POST /products/:handle/enriched] takes [inputType] among
    [markdown] and [html], and [outputFormat] among [markdown] and [json]:
    any other value of either is a validation failure, 400 with
    diagnostics whatever the headers, and the enrichment is not called. *)
Theorem X10_enriched_formats_are_checked {World : Type}
    (delegate : External -> World -> Completion value * World)
    (opts : option ShopClientOptions) router req w h fields k a b v :
  betterShop delegate opts = Returned router ->
  Request.method req = POST ->
  splitPath (Request.path req) = ["products"; h; "enriched"] ->
  Request.body req = VObj fields ->
  In (k, a, b)
    [("inputType", "markdown", "html"); ("outputFormat", "markdown", "json")] ->
  assoc k fields = Some v -> v <> VStr a -> v <> VStr b ->
  exists issues,
    issues <> [] /\ handle router req w = (ErrorResponse 400 issues, w, []).
Proof.
  intros Hr Hm Hp Hb Hin Hk Ha Hnb.
  apply betterShop_inv in Hr. subst router.
  apply (handle_invalid _ _ _ _ _
           (route_product_enriched delegate opts req h Hm Hp)).
  rewrite Hb.
  apply (invoke_body_invalid
           (getEnrichedProduct
              (buildProductEndpoints delegate (makeGetShop opts)))
           _ _ _ _ _ w eq_refl).
  cbn [schema type].
  rewrite validate_object, !validateFields_cons, !noIssue_app.
  cbn [In] in Hin.
  destruct Hin as [[= <- <- <-]|[[= <- <- <-]|[]]];
    rewrite Hk, noIssue_literals by assumption;
    cbn [andb]; rewrite ?andb_false_r; reflexivity.
Qed.

(** [inputType: "text"]. *)
Lemma X10_enriched_formats_are_checked_witness :
  exists issues,
    issues <> [] /\
    handle (theRouter Mock.delegate None)
      (Request.mk POST "/products/shirt/enriched" Mock.tenant (VObj [])
         (VObj [("inputType", VStr "text")])) tt
    = (ErrorResponse 400 issues, tt, []).
Proof.
  apply (X10_enriched_formats_are_checked Mock.delegate None _ _ tt "shirt"
           [("inputType", VStr "text")] "inputType" "markdown" "html"
           (VStr "text")).
  - apply betterShop_router.
  - reflexivity.
  - reflexivity.
  - reflexivity.
  - left; reflexivity.
  - reflexivity.
  - discriminate.
  - discriminate.
Defined.

(* ================================================================== *)
(** * The utilities *)
(* ================================================================== *)

Ltac open_utility :=
  cbn [handler detectCountry getStoreSlug getProductSlug buildUtilsEndpoints].

Section Utilities.

Context {World : Type}.
Variable delegate : External -> World -> Completion value * World.
Variable getShop : option Headers -> M (World := World) ShopClient.

Lemma bind_ret {A} (m : M (World := World) value) (f : value -> A) w :
  bind m (fun x => ret (f x)) w
  = match m w with
    | (Returned x, w1, t) => (Returned (f x), w1, t)
    | (Threw e, w1, t) => (Threw e, w1, t)
    end.
Proof.
  unfold bind, ret. destruct (m w) as [[[x|e] w1] t]; [|reflexivity].
  now rewrite app_nil_r.
Qed.

(** The domain that the two slug handlers start from. *)
Lemma slug_domain_input fields h :
  optionalString fields "domain" ->
  nullish (prop (VObj fields) "domain")
    (nullish (headerGet h "x-shop-domain") (VStr ""))
  = VStr (slugDomain fields h).
Proof.
  unfold slugDomain, headerGet. cbn [prop].
  intros [-> | [s ->]]; [|reflexivity]. cbn.
  destruct (h ≫= (.!! "x-shop-domain")); reflexivity.
Qed.

Lemma sequence_of_two first second last w :
  bind (call delegate first)
    (fun x => bind (call delegate (second x)) (fun y => ret (last y))) w
  = twoCalls delegate first second last w.
Proof.
  rewrite bind_call. unfold twoCalls.
  destruct (delegate first w) as [[x|f] w1]; [|reflexivity].
  rewrite bind_call.
  destruct (delegate (second x) w1) as [[y|f] w2]; reflexivity.
Qed.

Lemma sequence_of_three first second third w :
  bind (call delegate first)
    (fun x => bind (call delegate (second x))
                (fun y => call delegate (third y))) w
  = threeCalls delegate first second third w.
Proof.
  rewrite bind_call. unfold threeCalls.
  destruct (delegate first w) as [[x|f] w1]; [|reflexivity].
  rewrite bind_call.
  destruct (delegate (second x) w1) as [[y|f] w2]; [|reflexivity].
  unfold call. destruct (delegate (third y) w2); reflexivity.
Qed.

End Utilities.

(** X11: the two slug operations of the utilities builder need no tenant:
    they work on the [domain] of the query when there is one, else on the
    [x-shop-domain] header, else on the empty string.  Each sanitizes that
    domain (with [stripWWW]), generates the slug from the sanitized domain
    (and the handle, for a product) and returns it as [{ slug }]; they call
    no method of a client, and fail only when one of the two calls fails. *)
Theorem X11_slugs_need_no_tenant {World : Type}
    (delegate : External -> World -> Completion value * World)
    (getShop : option Headers -> M ShopClient) h ps fields b w :
  optionalString fields "domain" ->
  let utils := buildUtilsEndpoints delegate getShop in
  let ctx := mkContext h ps (VObj fields) b in
  let sanitize := SanitizeDomain (VStr (slugDomain fields h)) stripWWW in
  let slug y := VObj [("slug", y)] in
  invoke (getStoreSlug utils) ctx w
  = twoCalls delegate sanitize GenerateStoreSlug slug w
  /\
  forall handle,
    assoc "handle" fields = Some (VStr handle) ->
    invoke (getProductSlug utils) ctx w
    = twoCalls delegate sanitize
        (fun dom =>
           GenProductSlug
             (VObj [("handle", VStr handle); ("storeDomain", dom)]))
        slug w.
Proof.
  intros Hd utils ctx sanitize slug. split.
  - unfold ctx.
    rewrite (invoke_query (getStoreSlug utils) _ _ _ _ domainQuery w
               eq_refl eq_refl).
    + subst utils. open_utility. cbn [query headers morph domainQuery type].
      rewrite (slug_domain_input _ _ Hd). apply sequence_of_two.
    + cbn [schema domainQuery type].
      rewrite validate_object, validateFields_cons.
      destruct Hd as [-> | [s ->]]; reflexivity.
  - intros handle Hh. unfold ctx.
    rewrite (invoke_query (getProductSlug utils) _ _ _ _ _ w eq_refl eq_refl).
    + subst utils. open_utility. cbn [query headers morph type].
      rewrite (slug_domain_input _ _ Hd). cbn [prop]. rewrite Hh.
      apply (sequence_of_two delegate sanitize
               (fun dom => GenProductSlug
                  (VObj [("handle", VStr handle); ("storeDomain", dom)]))).
    + cbn [schema type].
      rewrite validate_object, !validateFields_cons, Hh.
      destruct Hd as [-> | [s ->]]; reflexivity.
Qed.

(** A query domain wins over the header; without either the empty string
    is sanitized. *)
Lemma X11_slugs_need_no_tenant_witness :
  let utils := buildUtilsEndpoints Echo.delegate (makeGetShop None) in
  invoke (getStoreSlug utils)
    (mkContext (Some Mock.tenant) (VObj [])
       (VObj [("domain", VStr "Shop.Example.com")]) VUndefined) 0
  = (Returned (VObj [("slug", VStr "Shop.Example.com")]), 2,
     [SanitizeDomain (VStr "Shop.Example.com") stripWWW;
      GenerateStoreSlug (VStr "Shop.Example.com")])
  /\
  invoke (getProductSlug utils)
    (mkContext (Some ∅) (VObj []) (VObj [("handle", VStr "cool-shirt")])
       VUndefined) 0
  = (Returned (VObj [("slug", VStr "cool-shirt")]), 2,
     [SanitizeDomain (VStr "") stripWWW;
      GenProductSlug
        (VObj [("handle", VStr "cool-shirt"); ("storeDomain", VStr "")])]).
Proof.
  intros utils. split.
  - apply (proj1 (X11_slugs_need_no_tenant Echo.delegate (makeGetShop None)
                    (Some Mock.tenant) (VObj [])
                    [("domain", VStr "Shop.Example.com")] VUndefined 0
                    (or_intror (ex_intro _ "Shop.Example.com" eq_refl)))).
  - subst utils.
    rewrite (proj2 (X11_slugs_need_no_tenant Echo.delegate (makeGetShop None)
                      (Some ∅) (VObj []) [("handle", VStr "cool-shirt")]
                      VUndefined 0 (or_introl eq_refl)) "cool-shirt" eq_refl).
    reflexivity.
Defined.

(** X12: the product-slug operation of the utilities builder requires a
    string [handle] in the query: without it, or when it is not a string,
    the call is a validation failure (400) and no utility is called. *)
Theorem X12_product_slug_requires_a_handle {World : Type}
    (delegate : External -> World -> Completion value * World)
    (getShop : option Headers -> M ShopClient) h ps fields b w :
  (forall s, assoc "handle" fields <> Some (VStr s)) ->
  exists issues,
    issues <> [] /\
    invoke (getProductSlug (buildUtilsEndpoints delegate getShop))
      (mkContext h ps (VObj fields) b) w
    = (Threw (APIError 400 issues), w, []).
Proof.
  intros Hh.
  apply (invoke_query_invalid
           (getProductSlug (buildUtilsEndpoints delegate getShop))
           _ _ _ _ _ w eq_refl eq_refl).
  cbn [schema type]. rewrite validate_object, !validateFields_cons, noIssue_app.
  destruct (assoc "handle" fields) as [[]|] eqn:E; try reflexivity.
  exfalso. eapply Hh. reflexivity.
Qed.

(** Only a domain in the query. *)
Lemma X12_product_slug_requires_a_handle_witness :
  exists issues,
    issues <> [] /\
    invoke (getProductSlug (buildUtilsEndpoints Echo.delegate (makeGetShop None)))
      (mkContext (Some Mock.tenant) (VObj [])
         (VObj [("domain", VStr "shop.example.com")]) VUndefined) 0
    = (Threw (APIError 400 issues), 0, []).
Proof.
  apply (X12_product_slug_requires_a_handle Echo.delegate (makeGetShop None)).
  intros s. discriminate.
Defined.

(** X13: the country detection of the utilities builder requires the
    tenant header: without it, or with an empty value, the handler throws
    the error of the tenant resolver and calls nothing.  With the header it
    sanitizes the domain, fetches the page at [https://] followed by the
    sanitized domain, and detects the country from the text of that page,
    in this order; a call that fails ends the sequence, and what the
    detection returns is returned as it is. *)
Theorem X13_detect_country {World : Type}
    (delegate : External -> World -> Completion value * World)
    (getShop : option Headers -> M ShopClient) h ps q b w :
  let e := detectCountry (buildUtilsEndpoints delegate getShop) in
  let ctx := mkContext h ps q b in
  (h ≫= (.!! "x-shop-domain") = None \/ h ≫= (.!! "x-shop-domain") = Some "" ->
   invoke e ctx w = (Threw (Error "x-shop-domain header is required"), w, []))
  /\
  (forall d,
     h ≫= (.!! "x-shop-domain") = Some d -> d <> "" ->
     invoke e ctx w
     = threeCalls delegate (SanitizeDomain (VStr d) stripWWW)
         (FetchText "https://") DetectShopCountry w).
Proof.
  intros e ctx. subst e ctx. split.
  - intros Hh.
    rewrite (invoke_plain (detectCountry (buildUtilsEndpoints delegate getShop))
               _ w eq_refl eq_refl).
    open_utility. unfold headerGet. cbn [headers].
    destruct Hh as [-> | ->]; reflexivity.
  - intros d Hd Hne.
    rewrite (invoke_plain (detectCountry (buildUtilsEndpoints delegate getShop))
               _ w eq_refl eq_refl).
    open_utility. unfold headerGet. cbn [headers]. rewrite Hd.
    replace (negb (truthy (VStr d))) with false.
    + apply sequence_of_three.
    + cbn. now rewrite (proj2 (String.eqb_neq d "") Hne).
Qed.

(** Without the header, and for the tenant of the tests. *)
Lemma X13_detect_country_witness :
  let e := detectCountry (buildUtilsEndpoints Echo.delegate (makeGetShop None)) in
  invoke e (mkContext (Some ∅) (VObj []) (VObj []) VUndefined) 0
  = (Threw (Error "x-shop-domain header is required"), 0, [])
  /\
  invoke e (mkContext (Some Mock.tenant) (VObj []) (VObj []) VUndefined) 0
  = (Returned (VStr "<html>"), 3,
     [SanitizeDomain (VStr "mock.myshopify.com") stripWWW;
      FetchText "https://" (VStr "mock.myshopify.com");
      DetectShopCountry (VStr "<html>")]).
Proof.
  intros e. split.
  - apply (proj1 (X13_detect_country Echo.delegate (makeGetShop None)
                    (Some ∅) (VObj []) (VObj []) VUndefined 0)).
    left. reflexivity.
  - apply (proj2 (X13_detect_country Echo.delegate (makeGetShop None)
                    (Some Mock.tenant) (VObj []) (VObj []) VUndefined 0)
             "mock.myshopify.com" eq_refl).
    discriminate.
Defined.

(* ================================================================== *)
(** * Literal paths and handles *)
(* ================================================================== *)

Section Reserved.

Context {World : Type}.
Variable delegate : External -> World -> Completion value * World.
Variable opts : option ShopClientOptions.

Lemma list_handler_never_finds e ctx w x :
  In e (listOperations delegate opts) ->
  In x (snd (handler e ctx w)) -> isFind x = false.
Proof.
  intros Hin. unfold listOperations in Hin. cbn [In] in Hin.
  destruct (headers ctx ≫= (.!! "x-shop-domain")) as [d|] eqn:Hh;
    [destruct (decide (d = "")) as [->|Hne]|].
  - repeat (destruct Hin as [<-|Hin];
      [open_handler;
       rewrite (bind_threw _ _ _ _ _ _ (getShop_empty opts _ w Hh));
       intros [] |]).
    destruct Hin.
  - repeat (destruct Hin as [<-|Hin];
      [open_handler; rewrite (with_tenant opts _ _ d w Hh Hne);
       unfold call; destruct (delegate _ w); cbn [snd];
       intros [<-|[]]; reflexivity |]).
    destruct Hin.
  - repeat (destruct Hin as [<-|Hin];
      [open_handler;
       rewrite (bind_threw _ _ _ _ _ _ (getShop_missing opts _ w Hh));
       intros [] |]).
    destruct Hin.
Qed.

Lemma handle_never_finds req w e ps x :
  findRoute (theRouter delegate opts) (Request.method req) (Request.path req)
  = Some (Operation e, ps) ->
  In e (listOperations delegate opts) ->
  In x (snd (handle (theRouter delegate opts) req w)) -> isFind x = false.
Proof.
  intros Hf He. rewrite (handle_operation _ _ _ _ _ Hf).
  unfold invoke. destruct (runValidation _ _) as [issues|ctx'].
  - intros [].
  - destruct (handler e ctx' w) as [[r w1] t] eqn:Hh. cbn [snd].
    intros Hx. apply (list_handler_never_finds e ctx' w x He).
    now rewrite Hh.
Qed.

End Reserved.

(** X14: the words of the literal paths are not handles.  A request
    [GET /products/h] with [h] one of [all], [paginated], [showcased],
    [filters], or [GET /collections/h] with [h] one of [all], [paginated],
    [showcased], never calls a find capability, whatever its headers and
    query; under a collection the same words are handles like any other:
    [GET /collections/h/slugs] asks for the slugs of the collection [h] for
    every [h]. *)
Theorem X14_literal_paths_are_not_handles {World : Type}
    (delegate : External -> World -> Completion value * World)
    (opts : option ShopClientOptions) router req w h :
  betterShop delegate opts = Returned router ->
  Request.method req = GET ->
  (In h ["all"; "paginated"; "showcased"; "filters"] ->
   splitPath (Request.path req) = ["products"; h] ->
   forall x, In x (snd (handle router req w)) -> isFind x = false)
  /\
  (In h ["all"; "paginated"; "showcased"] ->
   splitPath (Request.path req) = ["collections"; h] ->
   forall x, In x (snd (handle router req w)) -> isFind x = false)
  /\
  (forall d,
     splitPath (Request.path req) = ["collections"; h; "slugs"] ->
     Request.headers req !! "x-shop-domain" = Some d -> d <> "" ->
     let c := Client (mkShopClient d opts) (CollectionsProductsSlugs (VStr h)) in
     handle router req w
     = (toResponse (fst (delegate c w)), snd (delegate c w), [c])).
Proof.
  intros Hr Hm. apply betterShop_inv in Hr. subst router.
  split; [|split].
  - intros Hh Hp x. cbn [In] in Hh.
    destruct Hh as [<-|[<-|[<-|[<-|[]]]]].
    + apply (handle_never_finds delegate opts req w _ _ x
               (route_products_all delegate opts req Hm Hp)).
      unfold listOperations. cbn [In]. tauto.
    + apply (handle_never_finds delegate opts req w _ _ x
               (route_products_paginated delegate opts req Hm Hp)).
      unfold listOperations. cbn [In]. tauto.
    + apply (handle_never_finds delegate opts req w _ _ x
               (route_products_showcased delegate opts req Hm Hp)).
      unfold listOperations. cbn [In]. tauto.
    + apply (handle_never_finds delegate opts req w _ _ x
               (route_products_filters delegate opts req Hm Hp)).
      unfold listOperations. cbn [In]. tauto.
  - intros Hh Hp x. cbn [In] in Hh.
    destruct Hh as [<-|[<-|[<-|[]]]].
    + apply (handle_never_finds delegate opts req w _ _ x
               (route_collections_all delegate opts req Hm Hp)).
      unfold listOperations. cbn [In]. tauto.
    + apply (handle_never_finds delegate opts req w _ _ x
               (route_collections_paginated delegate opts req Hm Hp)).
      unfold listOperations. cbn [In]. tauto.
    + apply (handle_never_finds delegate opts req w _ _ x
               (route_collections_showcased delegate opts req Hm Hp)).
      unfold listOperations. cbn [In]. tauto.
  - intros d Hp Hd Hne c.
    rewrite (handle_operation _ _ _ _ _
               (route_collection_slugs delegate opts req h Hm Hp)).
    rewrite (invoke_plain
               (getCollectionProductSlugs
                  (buildCollectionEndpoints delegate (makeGetShop opts)))
               _ w eq_refl eq_refl).
    open_handler. rewrite with_tenant with (d := d) by (cbn; assumption).
    apply call_run.
Qed.

(** [GET /products/all] lists the products, and [GET /collections/all/slugs]
    asks for the slugs of the collection [all]. *)
Lemma X14_literal_paths_are_not_handles_witness :
  let shop := mkShopClient "mock.myshopify.com" None in
  (forall x,
     In x (snd (handle (theRouter Mock.delegate None)
                  (Request.mk GET "/products/all" Mock.tenant (VObj [])
                     VUndefined) tt)) ->
     isFind x = false)
  /\
  handle (theRouter Mock.delegate None)
    (Request.mk GET "/collections/all/slugs" Mock.tenant (VObj []) VUndefined)
    tt
  = (Json (VArr [VStr "p1-slug"]), tt,
     [Client shop (CollectionsProductsSlugs (VStr "all"))]).
Proof.
  intros shop. split.
  - apply (proj1 (X14_literal_paths_are_not_handles Mock.delegate None _
                    (Request.mk GET "/products/all" Mock.tenant (VObj [])
                       VUndefined) tt "all" (betterShop_router _ _) eq_refl));
      [left; reflexivity | reflexivity].
  - apply (proj2 (proj2 (X14_literal_paths_are_not_handles Mock.delegate None _
                    (Request.mk GET "/collections/all/slugs" Mock.tenant
                       (VObj []) VUndefined) tt "all"
                    (betterShop_router _ _) eq_refl))
             "mock.myshopify.com" eq_refl eq_refl).
    discriminate.
Defined.

(* ================================================================== *)
(** * The service in one file and the service of the builders *)
(* ================================================================== *)

Section Summaries.

Context {World : Type}.

Local Abbreviation Endpoint := (Endpoint (World := World)).
Local Abbreviation Candidate := (Candidate (World := World)).

Lemma omap_stepLit_bare s (cs : list Candidate) :
  omap (stepLit s) (map bareCandidate cs)
  = map bareCandidate (omap (stepLit s) cs).
Proof.
  induction cs as [|[[p ps] t] cs IH]; [reflexivity|].
  cbn [map omap list_omap]. change (list_omap ?f ?l) with (omap f l).
  rewrite IH. destruct p as [|[l|n] p]; cbn; try reflexivity.
  destruct (String.eqb s l); reflexivity.
Qed.

Lemma omap_stepParam_bare s (cs : list Candidate) :
  omap (stepParam s) (map bareCandidate cs)
  = map bareCandidate (omap (stepParam s) cs).
Proof.
  induction cs as [|[[p ps] t] cs IH]; [reflexivity|].
  cbn [map omap list_omap]. change (list_omap ?f ?l) with (omap f l).
  rewrite IH. destruct p as [|[l|n] p]; reflexivity.
Qed.

Lemma head_atEnd_bare (cs : list Candidate) :
  head (omap atEnd (map bareCandidate cs))
  = bareResult (World := World) <$> head (omap atEnd cs).
Proof.
  induction cs as [|[[p ps] t] cs IH]; [reflexivity|].
  destruct p; [reflexivity | exact IH].
Qed.

Lemma lookup_bare segs : forall cs : list Candidate,
  lookup (map bareCandidate cs) segs
  = bareResult (World := World) <$> lookup cs segs.
Proof.
  induction segs as [|s rest IH]; intros cs.
  - apply head_atEnd_bare.
  - cbn [lookup]. rewrite omap_stepLit_bare, omap_stepParam_bare, !IH.
    destruct (lookup (omap (stepLit s) cs) rest); reflexivity.
Qed.

Lemma filter_bare m (rs : list (Route (World := World))) :
  filter (fun rt => sameMethod (routeMethod rt) m = true) (map bareRoute rs)
  = map bareRoute
      (filter (fun rt => sameMethod (routeMethod rt) m = true) rs).
Proof.
  induction rs as [|r rs IH]; [reflexivity|].
  cbn [map]. rewrite !filter_cons. cbn [bareRoute routeMethod].
  destruct (decide (sameMethod (routeMethod r) m = true));
    cbn [map]; rewrite IH; reflexivity.
Qed.

Lemma findRoute_bare rs m p :
  findRoute (mkRouter (map bareRoute rs)) m p
  = bareResult (World := World) <$> findRoute (mkRouter rs) m p.
Proof.
  unfold findRoute. cbn [routes]. rewrite filter_bare, <- lookup_bare.
  f_equal. rewrite !map_map. reflexivity.
Qed.

Lemma invoke_withoutSummary (e : Endpoint) ctx :
  invoke (withoutSummary e) ctx = invoke e ctx.
Proof. reflexivity. Qed.

Lemma handle_bare rs req (w : World) :
  handle (mkRouter (map bareRoute rs)) req w = handle (mkRouter rs) req w.
Proof.
  unfold handle. rewrite findRoute_bare.
  destruct (findRoute (mkRouter rs) _ _) as [[[e|t] ps]|]; reflexivity.
Qed.

Lemma createRouter_bare (r : Registry) s :
  createRouter (map bareEntry r) s
  = match createRouter r s return Completion (Router (World := World)) with
    | Returned rt => Returned (mkRouter (map bareRoute (routes rt)))
    | Threw f => Threw f
    end.
Proof.
  unfold createRouter.
  assert (Hr : map (fun ke => endpointRoute (snd ke)) (map bareEntry r)
               ++ (if disabled s then []
                   else [mkRoute GET (referencePath s) (ApiReference (title s))])
               = map bareRoute
                   (map (fun ke => endpointRoute (snd ke)) r
                    ++ (if disabled s then []
                        else [mkRoute GET (referencePath s)
                                (ApiReference (title s))]))).
  { rewrite map_app, !map_map. f_equal. destruct (disabled s); reflexivity. }
  rewrite Hr. reflexivity.
Qed.

Lemma answer_bare (r : Registry) s req (w : World) :
  answer (createRouter (map bareEntry r) s) req w
  = answer (createRouter r s) req w.
Proof.
  rewrite createRouter_bare. destruct (createRouter r s) as [[rs]|f];
    [|reflexivity].
  cbn [answer routes]. now rewrite handle_bare.
Qed.

End Summaries.

Lemma legacy_endpoints {World : Type}
    (delegate : External -> World -> Completion value * World) opts :
  Legacy.endpoints delegate opts = map bareEntry (registry delegate opts).
Proof. reflexivity. Qed.

Lemma serve_answer {World : Type}
    (delegate : External -> World -> Completion value * World) opts req w :
  serve delegate opts req w
  = answer (createRouter (registry delegate opts)
              (mkOpenAPI false "/api/reference" "Better Shop API")) req w.
Proof. reflexivity. Qed.

(** X15: the service written as one function and the service put together
    from the builders are the same service.  The endpoints of the first are
    those of the second without their summaries, under the same names; with
    the same settings the two routers are made or fail together, and every
    request that the second does not answer with the reference page gets
    from the first the same response, with the same calls and the same
    state after. *)
Theorem X15_one_file_service_agrees {World : Type}
    (delegate : External -> World -> Completion value * World)
    (opts : option ShopClientOptions) :
  names (Legacy.endpoints delegate opts) = names (registry delegate opts)
  /\ map snd (Legacy.endpoints delegate opts)
     = map (fun ke => withoutSummary (snd ke)) (registry delegate opts)
  /\ (forall settings req w,
        (forall r,
           answer (createRouter (registry delegate opts) settings) req w
           = Some r ->
           isReference (fst (fst r)) = false) ->
        answer (Legacy.betterShop delegate opts settings) req w
        = answer (createRouter (registry delegate opts) settings) req w)
  /\ (forall req w,
        (forall r, serve delegate opts req w = Some r ->
                   isReference (fst (fst r)) = false) ->
        answer (Legacy.betterShop delegate opts
                  (mkOpenAPI false "/api/reference" "Better Shop API")) req w
        = serve delegate opts req w).
Proof.
  split; [reflexivity|]. split; [reflexivity|]. split.
  - intros settings req w _. unfold Legacy.betterShop.
    rewrite legacy_endpoints. apply answer_bare.
  - intros req w _. rewrite serve_answer. unfold Legacy.betterShop.
    rewrite legacy_endpoints. apply answer_bare.
Qed.

(** The two services on the request for the store of the tenant. *)
Lemma X15_one_file_service_agrees_witness :
  answer (Legacy.betterShop Mock.delegate None
            (mkOpenAPI false "/api/reference" "Better Shop API"))
    (Request.mk GET "/info" Mock.tenant (VObj []) VUndefined) tt
  = serve Mock.delegate None
      (Request.mk GET "/info" Mock.tenant (VObj []) VUndefined) tt.
Proof.
  apply (proj2 (proj2 (proj2 (X15_one_file_service_agrees Mock.delegate None)))).
  intros r H. vm_compute in H. injection H as <-. reflexivity.
Defined.

(* ================================================================== *)
(** * A router of two endpoints *)
(* ================================================================== *)

Section Composed.

Context {World : Type}.
Variable delegate : External -> World -> Completion value * World.
Variable opts : option ShopClientOptions.
Variable title : string.

Local Abbreviation getShop := (makeGetShop (World := World) opts).
Local Abbreviation store := (buildStoreEndpoints delegate getShop).
Local Abbreviation products := (buildProductEndpoints delegate getShop).

Lemma lookup_nil segs : lookup (World := World) [] segs = None.
Proof. induction segs as [|s rest IH]; [reflexivity|]. cbn. now rewrite IH. Qed.

Lemma myShop_router :
  Readme.myShop delegate opts title
  = Returned (mkRouter
      [endpointRoute (getInfo store);
       endpointRoute (getShowcasedProducts products);
       mkRoute GET "/api/reference" (ApiReference title)]).
Proof. reflexivity. Qed.

Lemma myShop_info_route r req :
  Readme.myShop delegate opts title = Returned r ->
  Request.method req = GET -> splitPath (Request.path req) = ["info"] ->
  findRoute r (Request.method req) (Request.path req)
  = Some (Operation (getInfo store), VObj []).
Proof.
  rewrite myShop_router. intros [= <-] Hm Hp.
  unfold findRoute. rewrite Hm, Hp. reflexivity.
Qed.

Lemma myShop_showcased_route r req :
  Readme.myShop delegate opts title = Returned r ->
  Request.method req = GET ->
  splitPath (Request.path req) = ["products"; "showcased"] ->
  findRoute r (Request.method req) (Request.path req)
  = Some (Operation (getShowcasedProducts products), VObj []).
Proof.
  rewrite myShop_router. intros [= <-] Hm Hp.
  unfold findRoute. rewrite Hm, Hp. reflexivity.
Qed.

Lemma myShop_other_method r m p :
  Readme.myShop delegate opts title = Returned r ->
  m <> GET -> findRoute r m p = None.
Proof.
  rewrite myShop_router. intros [= <-] Hm.
  unfold findRoute. destruct m; [congruence | |]; apply lookup_nil.
Qed.

Lemma myShop_other_path r p :
  Readme.myShop delegate opts title = Returned r ->
  ~ In (splitPath p) [["info"]; ["products"; "showcased"]; ["api"; "reference"]] ->
  findRoute r GET p = None.
Proof.
  rewrite myShop_router. intros [= <-] Hp.
  unfold findRoute.
  generalize dependent (splitPath p). intros segs Hp.
  match goal with
  | |- lookup ?c _ = _ =>
      change c with
        [([Lit "info"], @nil (string * value), Operation (getInfo store));
         ([Lit "products"; Lit "showcased"], [],
          Operation (getShowcasedProducts products));
         ([Lit "api"; Lit "reference"], [], ApiReference title)]
  end.
  generalize (getInfo store) (getShowcasedProducts products). intros e1 e2.
  destruct segs as [|a [|b [|c rest]]]; cbn;
    repeat match goal with
    | |- context [String.eqb ?x ?y] =>
        destruct (String.eqb_spec x y); subst; cbn
    end;
    rewrite ?lookup_nil; try reflexivity;
    exfalso; apply Hp; cbn; tauto.
Qed.

End Composed.

(** X16: the README's router of two endpoints, [getInfo] and
    [getShowcasedProducts] taken from the builders.  It can be made; it
    answers [GET /info] and [GET /products/showcased] exactly as the whole
    service does; apart from its reference page, every other request,
    whatever its method, path and headers, gets 404 and calls nothing. *)
Theorem X16_router_of_two_endpoints {World : Type}
    (delegate : External -> World -> Completion value * World)
    (opts : option ShopClientOptions) (title : string) :
  (exists r, Readme.myShop delegate opts title = Returned r)
  /\ forall r req w,
       Readme.myShop delegate opts title = Returned r ->
       (Request.method req = GET ->
        In (splitPath (Request.path req)) [["info"]; ["products"; "showcased"]] ->
        Some (handle r req w) = serve delegate opts req w)
       /\
       (Request.method req <> GET
        \/ ~ In (splitPath (Request.path req))
               [["info"]; ["products"; "showcased"]; ["api"; "reference"]] ->
        handle r req w = (Empty 404, w, [])).
Proof.
  split; [eexists; apply myShop_router|].
  intros r req w Hr. split.
  - intros Hm Hin. rewrite serve_handle. f_equal.
    destruct Hin as [Hp|[Hp|[]]]; symmetry in Hp.
    + rewrite (handle_operation _ _ _ _ _
                 (myShop_info_route delegate opts title r req Hr Hm Hp)).
      rewrite (handle_operation _ _ _ _ _
                 (route_info delegate opts req Hm Hp)).
      reflexivity.
    + rewrite (handle_operation _ _ _ _ _
                 (myShop_showcased_route delegate opts title r req Hr Hm Hp)).
      rewrite (handle_operation _ _ _ _ _
                 (route_products_showcased delegate opts req Hm Hp)).
      reflexivity.
  - intros H. apply handle_no_route.
    destruct (Request.method req) eqn:Hm.
    + destruct H as [H|H]; [congruence|].
      now apply (myShop_other_path delegate opts title).
    + now apply (myShop_other_method delegate opts title).
    + now apply (myShop_other_method delegate opts title).
Qed.

(** The router of two endpoints on [GET /info] and on [GET /products/all]. *)
Lemma X16_router_of_two_endpoints_witness :
  let r := mkRouter
      [endpointRoute (getInfo (buildStoreEndpoints Mock.delegate (makeGetShop None)));
       endpointRoute (getShowcasedProducts
                        (buildProductEndpoints Mock.delegate (makeGetShop None)));
       mkRoute GET "/api/reference" (ApiReference "")] in
  Some (handle r (Request.mk GET "/info" Mock.tenant (VObj []) VUndefined) tt)
  = serve Mock.delegate None
      (Request.mk GET "/info" Mock.tenant (VObj []) VUndefined) tt
  /\
  handle r (Request.mk GET "/products/all" Mock.tenant (VObj []) VUndefined) tt
  = (Empty 404, tt, []).
Proof.
  intros r. split.
  - apply (proj1 (proj2 (X16_router_of_two_endpoints Mock.delegate None "")
                   r (Request.mk GET "/info" Mock.tenant (VObj []) VUndefined)
                   tt eq_refl));
      [reflexivity | left; reflexivity].
  - apply (proj2 (proj2 (X16_router_of_two_endpoints Mock.delegate None "")
                   r (Request.mk GET "/products/all" Mock.tenant (VObj [])
                        VUndefined) tt eq_refl)).
    right. intros [E|[E|[E|[]]]]; discriminate E.
Defined.
